(** * Shipment sheet consolidation ([run.py]): model and properties

    A shallow embedding of the batch script [run.py]: the ETD/BA parser
    [prep_etd], the per-row validation, the per-file extraction with its
    [except] clauses, and the batch loop that shares one output cursor.

    The workbooks and the template are the input of the model.  Opening
    a workbook, reading a cell of its sheet and assigning a cell of the
    template sheet may each raise an exception, which ends the [try] suite
    of the file where it is raised.  The state is passed explicitly: the
    template sheet, the output cursor, the counter of processed files and
    the log.  Closing the workbooks changes none of these and is left
    out. *)

From Stdlib Require Import ZArith NArith Bool List String Ascii Lia.
From Stdlib Require Import Floats.SpecFloat.
From stdpp Require Import base option list strings pretty sorting gmap.

Local Open Scope Z_scope.

(** ** Python values and text *)

(** A Python [str] is a sequence of Unicode code points. *)
Abbreviation pystr := (list N).

(** An ASCII literal as a Python [str]. *)
Definition str (s : string) : pystr :=
  map N_of_ascii (list_ascii_of_string s).

(** The code point of a one-character literal. *)
Definition ord (a : ascii) : N := N_of_ascii a.

(** A cell value as openpyxl hands it out: [None], [bool], [int], [float]
    (an IEEE double), [str], or an object of another class (a
    [datetime.datetime] for a date cell, ...), of which the script only looks
    at the type. *)
Inductive pyval :=
| PNone
| PBool (b : bool)
| PInt (n : Z)
| PFloat (f : spec_float)
| PStr (s : pystr)
| PObject (cls : string) (id : Z).

(** [isinstance(v, str)] *)
Definition isinstance_str (v : pyval) : bool :=
  match v with PStr _ => true | _ => false end.

(** [isinstance(v, (int, float))]: [bool] is a subclass of [int], so a
    [bool] is an instance of [int]. *)
Definition isinstance_int_float (v : pyval) : bool :=
  match v with
  | PInt _ | PBool _ | PFloat _ => true
  | PNone | PStr _ | PObject _ _ => false
  end.

(** [str.isspace] on one code point, which is also what [\s] matches in a
    [str] pattern. *)
Definition isspace (c : N) : bool :=
  ((9 <=? c) && (c <=? 13) || (28 <=? c) && (c <=? 32)
   || (c =? 0x85) || (c =? 0xA0) || (c =? 0x1680)
   || (0x2000 <=? c) && (c <=? 0x200A)
   || (c =? 0x2028) || (c =? 0x2029) || (c =? 0x202F)
   || (c =? 0x205F) || (c =? 0x3000))%N.

(** [s.lstrip()], [s.rstrip()], [s.strip()] *)
Fixpoint lstrip (s : pystr) : pystr :=
  match s with
  | c :: s' => if isspace c then lstrip s' else s
  | [] => []
  end.

Definition rstrip (s : pystr) : pystr := rev (lstrip (rev s)).

Definition strip (s : pystr) : pystr := rstrip (lstrip s).

(** Truth value of a [str]: non-empty. *)
Definition truthy_str (s : pystr) : bool :=
  match s with [] => false | _ :: _ => true end.

(** ** The [re] engine on the patterns the script uses

    The parse tree follows [sre_parse]: every repetition in the script's
    patterns (and in the pattern [strptime] builds) is a greedy repetition of
    a one-character item. *)
Module Sre.

Inductive item :=
| LITERAL (c : N)
| NOT_LITERAL (c : N)
| RANGE (lo hi : N)
| CATEGORY_SPACE.

Inductive regex :=
| Empty
| One (i : item)
| MaxRepeat (lo : nat) (hi : option nat) (i : item)
| Subpattern (g : nat) (r : regex)
| Branch (r1 r2 : regex)
| Concat (r1 r2 : regex).

Definition item_matches (i : item) (c : N) : bool :=
  match i with
  | LITERAL x => (c =? x)%N
  | NOT_LITERAL x => negb (c =? x)%N
  | RANGE lo hi => ((lo <=? c) && (c <=? hi))%N
  | CATEGORY_SPACE => isspace c
  end.

(** Captured groups, latest first. *)
Definition groups := list (nat * pystr).

Fixpoint group (m : groups) (g : nat) : option pystr :=
  match m with
  | [] => None
  | (g', s) :: m' => if Nat.eqb g g' then Some s else group m' g
  end.

(** A successful match: the groups and the text left after the match. *)
Definition result := (groups * pystr)%type.

Definition may_take (hi : option nat) : bool :=
  match hi with Some O => false | _ => true end.

Definition at_least (lo : nat) (r : option result) : option result :=
  match lo with O => r | S _ => None end.

(** Greedy repetition of a one-character item: take as many as allowed,
    then give back one at a time until the rest of the pattern matches. *)
Fixpoint max_repeat (i : item) (lo : nat) (hi : option nat) (s : pystr)
    (k : pystr -> option result) : option result :=
  match s with
  | c :: s' =>
      if item_matches i c && may_take hi then
        match max_repeat i (Nat.pred lo) (Nat.pred <$> hi) s' k with
        | Some r => Some r
        | None => at_least lo (k s)
        end
      else at_least lo (k s)
  | [] => at_least lo (k [])
  end.

(** Backtracking match of [r] at the start of [s]; [k] is the rest of
    the pattern. *)
Fixpoint sre_match (r : regex) (s : pystr) (m : groups)
    (k : groups -> pystr -> option result) : option result :=
  match r with
  | Empty => k m s
  | One i =>
      match s with
      | c :: s' => if item_matches i c then k m s' else None
      | [] => None
      end
  | MaxRepeat lo hi i => max_repeat i lo hi s (k m)
  | Subpattern g r' =>
      sre_match r' s m
        (fun m' s' => k ((g, take (length s - length s') s) :: m') s')
  | Branch r1 r2 =>
      match sre_match r1 s m k with
      | Some x => Some x
      | None => sre_match r2 s m k
      end
  | Concat r1 r2 =>
      sre_match r1 s m (fun m' s' => sre_match r2 s' m' k)
  end.

Definition accept : groups -> pystr -> option result :=
  fun m rest => Some (m, rest).

(** [re.match(r, s)] *)
Definition re_match (r : regex) (s : pystr) : option result :=
  sre_match r s [] accept.

(** [re.search(r, s)]: the first start position at which [r] matches. *)
Fixpoint re_search (r : regex) (s : pystr) : option result :=
  match re_match r s with
  | Some x => Some x
  | None =>
      match s with
      | [] => None
      | _ :: s' => re_search r s'
      end
  end.

End Sre.

Import Sre.

(** The groups a pattern captures on every path. *)
Fixpoint captures (r : regex) (g : nat) : bool :=
  match r with
  | Empty | One _ | MaxRepeat _ _ _ => false
  | Subpattern g' r' => Nat.eqb g g' || captures r' g
  | Branch r1 r2 => captures r1 g && captures r2 g
  | Concat r1 r2 => captures r1 g || captures r2 g
  end.

(** A pattern is a sequence of nodes. *)
Definition sequence (rs : list regex) : regex := foldr Concat Empty rs.

Definition lit (a : ascii) : regex := One (LITERAL (ord a)).
Definition digit09 : item := RANGE (ord "0") (ord "9").

(** [([0-9]{4}\.[0-9]{1,2}\.[0-9]{1,2})\.?\s*\(([^)]+)\)] *)
Definition etd_pattern : regex :=
  sequence
    [ Subpattern 1
        (sequence
           [ MaxRepeat 4 (Some 4%nat) digit09; lit ".";
             MaxRepeat 1 (Some 2%nat) digit09; lit ".";
             MaxRepeat 1 (Some 2%nat) digit09 ]);
      MaxRepeat 0 (Some 1%nat) (LITERAL (ord "."));
      MaxRepeat 0 None CATEGORY_SPACE;
      lit "(";
      Subpattern 2 (MaxRepeat 1 None (NOT_LITERAL (ord ")")));
      lit ")" ].

(** [([0-9]{4}\.[0-9]{1,2}\.[0-9]{1,2})\s*\(([^)]+)\)] *)
Definition etd_pattern_alt : regex :=
  sequence
    [ Subpattern 1
        (sequence
           [ MaxRepeat 4 (Some 4%nat) digit09; lit ".";
             MaxRepeat 1 (Some 2%nat) digit09; lit ".";
             MaxRepeat 1 (Some 2%nat) digit09 ]);
      MaxRepeat 0 None CATEGORY_SPACE;
      lit "(";
      Subpattern 2 (MaxRepeat 1 None (NOT_LITERAL (ord ")")));
      lit ")" ].

(** ** [datetime.strptime(s, "%Y.%m.%d")] and [strftime("%d-%b")] *)
Module Datetime.

Record date := { year : Z; month : Z; day : Z }.

(** The pattern [_strptime] compiles for ["%Y.%m.%d"]:
    [(?P<Y>\d\d\d\d)\.(?P<m>1[0-2]|0[1-9]|[1-9])\.(?P<d>3[0-1]|[1-2]\d|0[1-9]|[1-9]| [1-9])].
    [prep_etd] passes only text made of the digits 0-9 and dots, on which
    [\d] is [[0-9]]. *)
Definition d : regex := One digit09.
Definition rg (a b : ascii) : regex := One (RANGE (ord a) (ord b)).

Definition format_regex : regex :=
  sequence
    [ Subpattern 1 (sequence [d; d; d; d]);
      lit ".";
      Subpattern 2
        (Branch (sequence [lit "1"; rg "0" "2"])
           (Branch (sequence [lit "0"; rg "1" "9"]) (rg "1" "9")));
      lit ".";
      Subpattern 3
        (Branch (sequence [lit "3"; rg "0" "1"])
           (Branch (sequence [rg "1" "2"; d])
              (Branch (sequence [lit "0"; rg "1" "9"])
                 (Branch (rg "1" "9") (sequence [lit " "; rg "1" "9"]))))) ].

(** [int(s)] on digits, with the blanks [int] ignores. *)
Definition int (s : pystr) : Z :=
  fold_left
    (fun acc c =>
       if item_matches digit09 c then acc * 10 + (Z.of_N c - 48) else acc)
    s 0.

Definition is_leap (y : Z) : bool :=
  (y mod 4 =? 0) && (negb (y mod 100 =? 0) || (y mod 400 =? 0)).

Definition days_in_month (y m : Z) : Z :=
  match m with
  | 2 => if is_leap y then 29 else 28
  | 4 | 6 | 9 | 11 => 30
  | _ => 31
  end.

(** The checks of the [date] constructor; outside them it raises
    [ValueError]. *)
Definition valid_date (y m dd : Z) : bool :=
  (1 <=? y) && (y <=? 9999) && (1 <=? m) && (m <=? 12)
  && (1 <=? dd) && (dd <=? days_in_month y m).

(** [None] stands for [ValueError]: the text does not match the format,
    unconverted data remains, or the date does not exist. *)
Definition strptime (s : pystr) : option date :=
  match re_match format_regex s with
  | Some (m, []) =>
      match group m 1, group m 2, group m 3 with
      | Some Y, Some mo, Some dd =>
          if valid_date (int Y) (int mo) (int dd)
          then Some {| year := int Y; month := int mo; day := int dd |}
          else None
      | _, _, _ => None
      end
  | Some (_, _ :: _) => None
  | None => None
  end.

(** [%b] in the C locale, which the script never changes. *)
Definition month_abbr (m : Z) : pystr :=
  str match m with
      | 1 => "Jan" | 2 => "Feb" | 3 => "Mar" | 4 => "Apr"
      | 5 => "May" | 6 => "Jun" | 7 => "Jul" | 8 => "Aug"
      | 9 => "Sep" | 10 => "Oct" | 11 => "Nov" | _ => "Dec"
      end.

Definition digit_char (n : Z) : N := Z.to_N (48 + n).

(** [%d]: the day, zero-padded to two digits. *)
Definition two_digits (n : Z) : pystr :=
  [digit_char (n / 10); digit_char (n mod 10)].

(** [date_obj.strftime("%d-%b")] *)
Definition strftime_d_b (dt : date) : pystr :=
  two_digits (day dt) ++ str "-" ++ month_abbr (month dt).

End Datetime.

(** ** Logging *)

Inductive level := INFO | WARNING | ERROR.

(** One constructor per [logging] call of the script, with the values the
    message interpolates. *)
Inductive message :=
| EtdNotString (data : pyval)
| EtdFormatMismatch (data : pystr)
| EtdDateError (date_str_raw data : pystr)
| FileStart (filename : pystr)
| NoSheets (filename : pystr)
| UsingFirstSheet (filename title : pystr)
| NoOrderNo (filename : pystr)
| I11Empty
| EtdBaFailed (etd_data : pyval)
| EtdFailed (etd_data BA : pyval)
| BaFailed (etd_data ETD : pyval)
| CommonData (ORDER_NO REMARK : pyval)
| RowWritten (r current_output_row : Z)
| RowSkipped (r : Z) (PRICE SQNTY : pyval)
| NoDataInBlock (filename : pystr)
| NoValidData (filename : pystr)
| FileNotFoundLogged (filename : pystr)
| KeyErrorLogged (filename : pystr)
| BadZipLogged (filename : pystr)
| UnexpectedLogged (filename : pystr).

Definition entry := (level * message)%type.

(** ** [prep_etd] *)

(** The two attempts of lines 30 to 33: the first pattern, and the
    alternative when it finds nothing. *)
Definition etd_search (text : pystr) : option result :=
  match re_search etd_pattern text with
  | Some x => Some x
  | None => re_search etd_pattern_alt text
  end.

(** Lines 37 to 47, on the match object: the formatted date and the BA, or
    no date and the BA when [strptime] raises [ValueError].  Nothing else
    is raised there, so the clause [except Exception] is never taken. *)
Definition convert_match (text : pystr) (m : groups)
    : list entry * (pyval * pyval) :=
  let date_str_raw := default [] (group m 1) in
  let ba_str := default [] (group m 2) in
  match Datetime.strptime date_str_raw with
  | Some date_obj =>
      ([], (PStr (Datetime.strftime_d_b date_obj), PStr ba_str))
  | None =>
      ([(WARNING, EtdDateError date_str_raw text)], (PNone, PStr ba_str))
  end.

(** [prep_etd(data)]: the result pair, and the warnings logged on the
    way. *)
Definition prep_etd (data : pyval) : list entry * (pyval * pyval) :=
  match data with
  | PStr text =>
      match etd_search text with
      | None => ([(WARNING, EtdFormatMismatch text)], (PNone, PNone))
      | Some (m, _) => convert_match text m
      end
  | _ => ([(WARNING, EtdNotString data)], (PNone, PNone))
  end.

(** [prep_etd] with a single attempt, the first pattern. *)
Definition prep_etd_single (data : pyval) : list entry * (pyval * pyval) :=
  match data with
  | PStr text =>
      match re_search etd_pattern text with
      | None => ([(WARNING, EtdFormatMismatch text)], (PNone, PNone))
      | Some (m, _) => convert_match text m
      end
  | _ => ([(WARNING, EtdNotString data)], (PNone, PNone))
  end.

(** ** Workbooks and the output sheet *)

(** The exception classes the [except] clauses tell apart;
    [OtherException] is any class that derives from none of
    [FileNotFoundError], [KeyError] and [BadZipFile]. *)
Inductive exn :=
| FileNotFoundError
| KeyError
| BadZipFile
| NameError (name : string)
| OtherException (cls : string).

(** A sheet of a workbook opened with [data_only=True, read_only=True].
    Such a sheet is parsed when a cell is read, so reading may raise:
    [read_error sheet r c] is the exception that
    [sheet.cell(row=r, column=c).value] raises, when it raises, and
    [cell sheet r c] is the value it gives otherwise, [None] where the
    sheet has no such cell. *)
Record worksheet := {
  title : pystr;
  cell : Z -> Z -> pyval;
  read_error : Z -> Z -> option exn
}.

Record workbook := { worksheets : list worksheet }.

Definition sheetnames (wb : workbook) : list pystr :=
  map title (worksheets wb).

(** [workbook[name]]: the first sheet with that title, [KeyError] without
    one. *)
Definition getitem (wb : workbook) (name : pystr) : exn + worksheet :=
  match find (fun sh => bool_decide (title sh = name)) (worksheets wb) with
  | Some sh => inr sh
  | None => inl KeyError
  end.

(** [sheet.cell(row=r, column=c).value]; [sheet["I11"].value] is the read
    of row 11, column 9, and [sheet["A22"].value] that of row 22,
    column 1. *)
Definition read_cell (sheet : worksheet) (r c : Z) : exn + pyval :=
  match read_error sheet r c with
  | Some e => inl e
  | None => inr (cell sheet r c)
  end.

Definition START_ROW_TEMPLATE : Z := 7.
Definition DATA_BLOCK_START_ROW : Z := 19.
Definition DATA_BLOCK_END_ROW : Z := 1000.

(** [range(a, b)] *)
Definition range (a b : Z) : list Z := seqZ a (b - a).

(** The names the script's [import] statements bind (lines 1 to 5); every
    other module-level name is a constant, a variable or the function the
    script defines itself. *)
Definition imported_names : list string :=
  ["openpyxl"; "re"; "datetime"; "os"; "logging"].

Definition name_bound (x : string) : bool :=
  bool_decide (x ∈ imported_names).

(** The mutable state of the batch: the active sheet of the template
    workbook, keyed by column letter and row; the output cursor; the
    counter of processed files; and the log, oldest entry first. *)
Record state := {
  template_sheet : gmap (string * Z) pyval;
  current_output_row : Z;
  processed_files_count : Z;
  log : list entry
}.

Definition logging (lv : level) (msg : message) (st : state) : state :=
  {| template_sheet := template_sheet st;
     current_output_row := current_output_row st;
     processed_files_count := processed_files_count st;
     log := log st ++ [(lv, msg)] |}.

Definition logging_all (es : list entry) (st : state) : state :=
  {| template_sheet := template_sheet st;
     current_output_row := current_output_row st;
     processed_files_count := processed_files_count st;
     log := log st ++ es |}.

(** [current_output_row += 1] *)
Definition next_output_row (st : state) : state :=
  {| template_sheet := template_sheet st;
     current_output_row := current_output_row st + 1;
     processed_files_count := processed_files_count st;
     log := log st |}.

(** [processed_files_count += 1] *)
Definition count_processed (st : state) : state :=
  {| template_sheet := template_sheet st;
     current_output_row := current_output_row st;
     processed_files_count := processed_files_count st + 1;
     log := log st |}.

(** ** Row validation *)

Definition is_not_None (v : pyval) : bool :=
  match v with PNone => false | _ => true end.

(** [any(val is not None and (not isinstance(val, str) or val.strip())
         for val in [DETAIL, COLOR, PRICE, SQNTY])] *)
Definition has_data (DETAIL COLOR PRICE SQNTY : pyval) : bool :=
  existsb
    (fun val =>
       is_not_None val
       && (negb (isinstance_str val)
           || match val with
              | PStr s => truthy_str (strip s)
              | _ => false
              end))
    [DETAIL; COLOR; PRICE; SQNTY].

(** [price_is_numeric and sqnty_is_numeric] *)
Definition is_valid_numeric (PRICE SQNTY : pyval) : bool :=
  isinstance_int_float PRICE && isinstance_int_float SQNTY.

(** The values shared by all rows of one file. *)
Record file_context := {
  ETD : pyval;
  BA : pyval;
  ORDER_NO : pyval;
  REMARK : pyval
}.

(** The two flags of the row loop and the batch state. *)
Record scan := {
  data_found_in_block : bool;
  file_had_valid_data : bool;
  scan_state : state
}.

(** The reads of lines 172 to 175, in order: the four values, or the
    first exception. *)
Definition read_row (sheet : worksheet) (r : Z)
    : exn + (pyval * pyval * pyval * pyval) :=
  match read_cell sheet r 7 with
  | inl e => inl e
  | inr DETAIL =>
      match read_cell sheet r 8 with
      | inl e => inl e
      | inr COLOR =>
          match read_cell sheet r 9 with
          | inl e => inl e
          | inr PRICE =>
              match read_cell sheet r 10 with
              | inl e => inl e
              | inr SQNTY => inr (DETAIL, COLOR, PRICE, SQNTY)
              end
          end
      end
  end.

(** The columns and values of the assignments of lines 195 to 202, in
    the order of the lines. *)
Definition row_cells (ctx : file_context) (DETAIL COLOR PRICE SQNTY : pyval)
    : list (string * pyval) :=
  [("B", ETD ctx); ("C", BA ctx); ("E", ORDER_NO ctx); ("F", COLOR);
   ("G", SQNTY); ("I", PRICE); ("K", DETAIL); ("P", REMARK ctx)]%string.

(** The warnings after the row loop. *)
Definition block_summary (filename : pystr) (a : scan) : state :=
  if negb (data_found_in_block a) then
    logging WARNING (NoDataInBlock filename) (scan_state a)
  else if negb (file_had_valid_data a) && data_found_in_block a then
    logging WARNING (NoValidData filename) (scan_state a)
  else scan_state a.

(** ** One file, and the batch *)

Section Script.

(** [openpyxl.load_workbook] on the file of that name in the input
    directory: the workbook, or the exception it raises. *)
Variable load_workbook : pystr -> exn + workbook.

(** [setitem_error (col, row) v] is the exception that the assignment
    [template_sheet[f"{col}{row}"] = v] raises, when it raises: a cell
    inside a merged range of the template has a read-only value
    ([AttributeError]), and a value may be one the sheet does not store.
    The script never merges or unmerges cells, so this does not change
    during the run. *)
Variable setitem_error : string * Z -> pyval -> option exn.

(** [str(v)] for a [float] or an object of another class. *)
Variable str_other : pyval -> pystr.

(** [template_sheet[f"{col}{current_output_row}"] = v] *)
Definition set_cell (col : string) (v : pyval) (st : state) : exn + state :=
  match setitem_error (col, current_output_row st) v with
  | Some e => inl e
  | None =>
      inr {| template_sheet :=
               <[(col, current_output_row st) := v]> (template_sheet st);
             current_output_row := current_output_row st;
             processed_files_count := processed_files_count st;
             log := log st |}
  end.

(** Assignments one after the other.  The first one that raises ends
    them; the cells assigned before it keep their new values. *)
Fixpoint set_cells (cells : list (string * pyval)) (st : state)
    : state * option exn :=
  match cells with
  | [] => (st, None)
  | (col, v) :: rest =>
      match set_cell col v st with
      | inl e => (st, Some e)
      | inr st' => set_cells rest st'
      end
  end.

(** The eight assignments of one output row, then the cursor moves on
    (lines 195 to 205). *)
Definition write_row (ctx : file_context) (DETAIL COLOR PRICE SQNTY : pyval)
    (st : state) : state * option exn :=
  match set_cells (row_cells ctx DETAIL COLOR PRICE SQNTY) st with
  | (st', None) => (next_output_row st', None)
  | (st', Some e) => (st', Some e)
  end.

(** The body of [for r in range(DATA_BLOCK_START_ROW, DATA_BLOCK_END_ROW + 1)]:
    the flags and the state it leaves, and the exception it raises, if
    any. *)
Definition scan_row (sheet : worksheet) (ctx : file_context)
    (a : scan) (r : Z) : scan * option exn :=
  match read_row sheet r with
  | inl e => (a, Some e)
  | inr (DETAIL, COLOR, PRICE, SQNTY) =>
      if has_data DETAIL COLOR PRICE SQNTY then
        if is_valid_numeric PRICE SQNTY then
          let st := scan_state a in
          let st := logging INFO (RowWritten r (current_output_row st)) st in
          let '(st, raised) := write_row ctx DETAIL COLOR PRICE SQNTY st in
          ({| data_found_in_block := true;
              file_had_valid_data := true;
              scan_state := st |}, raised)
        else
          ({| data_found_in_block := true;
              file_had_valid_data := file_had_valid_data a;
              scan_state :=
                logging WARNING (RowSkipped r PRICE SQNTY) (scan_state a) |},
           None)
      else (a, None)
  end.

(** The row loop: an exception raised by the body ends it. *)
Fixpoint scan_rows (sheet : worksheet) (ctx : file_context)
    (rows : list Z) (a : scan) : scan * option exn :=
  match rows with
  | [] => (a, None)
  | r :: rest =>
      match scan_row sheet ctx a r with
      | (a', None) => scan_rows sheet ctx rest a'
      | (a', Some e) => (a', Some e)
      end
  end.

(** [str(v)] *)
Definition py_str (v : pyval) : pystr :=
  match v with
  | PStr s => s
  | PNone => str "None"
  | PBool true => str "True"
  | PBool false => str "False"
  | PInt n => str (pretty n)
  | PFloat _ | PObject _ _ => str_other v
  end.

(** ETD and BA from cell I11, with the warnings of lines 149 to 159. *)
Definition extract_etd_ba (etd_data : pyval) (st : state)
    : state * (pyval * pyval) :=
  match etd_data with
  | PNone => (logging WARNING I11Empty st, (PNone, PNone))
  | _ =>
      let '(warnings, (ETD, BA)) := prep_etd (PStr (py_str etd_data)) in
      let st := logging_all warnings st in
      let st :=
        if negb (is_not_None ETD) && negb (is_not_None BA) then
          logging WARNING (EtdBaFailed etd_data) st
        else if negb (is_not_None ETD) then
          logging WARNING (EtdFailed etd_data BA) st
        else if negb (is_not_None BA) then
          logging WARNING (BaFailed etd_data ETD) st
        else st in
      (st, (ETD, BA))
  end.

(** The [try] suite of one file (lines 121 to 222): the state it leaves,
    and the exception that leaves it if one is raised, by
    [load_workbook], by the lookup of the first sheet, by a read of the
    sheet or by an assignment to the template sheet. *)
Definition try_suite (filename : pystr) (st : state) : state * option exn :=
  match load_workbook filename with
  | inl e => (st, Some e)
  | inr workbook =>
      match sheetnames workbook with
      | [] => (logging WARNING (NoSheets filename) st, None)
      | first :: _ =>
          match getitem workbook first with
          | inl e => (st, Some e)
          | inr sheet =>
              let st :=
                logging INFO (UsingFirstSheet filename (title sheet)) st in
              match last (sheetnames workbook) with
              | None => (logging WARNING (NoOrderNo filename) st, None)
              | Some order_no =>
                  match read_cell sheet 11 9 with
                  | inl e => (st, Some e)
                  | inr etd_data =>
                      match read_cell sheet 22 1 with
                      | inl e => (st, Some e)
                      | inr REMARK =>
                          let '(st, (ETD, BA)) :=
                            extract_etd_ba etd_data st in
                          let ctx :=
                            {| ETD := ETD; BA := BA;
                               ORDER_NO := PStr order_no;
                               REMARK := REMARK |} in
                          let st :=
                            logging INFO
                              (CommonData (PStr order_no) REMARK) st in
                          match
                            scan_rows sheet ctx
                              (range DATA_BLOCK_START_ROW
                                 (DATA_BLOCK_END_ROW + 1))
                              {| data_found_in_block := false;
                                 file_had_valid_data := false;
                                 scan_state := st |}
                          with
                          | (a, Some e) => (scan_state a, Some e)
                          | (a, None) =>
                              (count_processed (block_summary filename a),
                               None)
                          end
                      end
                  end
              end
          end
      end
  end.

(** The [except] clauses, tried in order.  The expression of a clause is
    evaluated when the clause is reached: the third one looks up the name
    [zipfile], and raises [NameError] when nothing binds it. *)
Definition except_clauses (filename : pystr) (e : exn) (st : state)
    : state * option exn :=
  match e with
  | FileNotFoundError => (logging ERROR (FileNotFoundLogged filename) st, None)
  | KeyError => (logging ERROR (KeyErrorLogged filename) st, None)
  | _ =>
      if name_bound "zipfile" then
        match e with
        | BadZipFile => (logging ERROR (BadZipLogged filename) st, None)
        | _ => (logging ERROR (UnexpectedLogged filename) st, None)
        end
      else (st, Some (NameError "zipfile"))
  end.

(** The body of [for filename in sorted(input_files)]. *)
Definition process_file (filename : pystr) (st : state)
    : state * option exn :=
  let st := logging INFO (FileStart filename) st in
  match try_suite filename st with
  | (st', None) => (st', None)
  | (st', Some e) => except_clauses filename e st'
  end.

(** The loop over the files; an exception that leaves the body ends it. *)
Fixpoint batch_loop (filenames : list pystr) (st : state)
    : state * option exn :=
  match filenames with
  | [] => (st, None)
  | filename :: rest =>
      match process_file filename st with
      | (st', None) => batch_loop rest st'
      | (st', Some e) => (st', Some e)
      end
  end.

(** [a <= b] on [str]: lexicographic on code points. *)
Fixpoint str_le (a b : pystr) : bool :=
  match a, b with
  | [], _ => true
  | _ :: _, [] => false
  | x :: a', y :: b' =>
      if (x <? y)%N then true
      else if (x =? y)%N then str_le a' b' else false
  end.

Fixpoint insert_sorted (x : pystr) (l : list pystr) : list pystr :=
  match l with
  | [] => [x]
  | y :: l' => if str_le x y then x :: l else y :: insert_sorted x l'
  end.

(** [sorted(input_files)] *)
Definition sorted (l : list pystr) : list pystr :=
  foldr insert_sorted [] l.

Definition initial_state (template : gmap (string * Z) pyval) : state :=
  {| template_sheet := template;
     current_output_row := START_ROW_TEMPLATE;
     processed_files_count := 0;
     log := [] |}.

(** The script from line 112 to the end of the loop, on the template
    sheet and the list of input files. *)
Definition run (template : gmap (string * Z) pyval)
    (input_files : list pystr) : state * option exn :=
  batch_loop (sorted input_files) (initial_state template).

End Script.

(** ** What a run is expected to produce *)

(** The rows of the data block. *)
Definition data_block : list Z :=
  range DATA_BLOCK_START_ROW (DATA_BLOCK_END_ROW + 1).

(** The columns of the output sheet the script assigns. *)
Definition output_columns : list string :=
  ["B"; "C"; "E"; "F"; "G"; "I"; "K"; "P"]%string.

(** A row of the sheet has data. *)
Definition row_has_data (sheet : worksheet) (r : Z) : bool :=
  has_data (cell sheet r 7) (cell sheet r 8) (cell sheet r 9) (cell sheet r 10).

(** A row satisfies both conditions: [has_data], and PRICE and SQNTY
    numeric. *)
Definition row_accepted (sheet : worksheet) (r : Z) : bool :=
  has_data (cell sheet r 7) (cell sheet r 8) (cell sheet r 9) (cell sheet r 10)
  && is_valid_numeric (cell sheet r 9) (cell sheet r 10).

(** A row has data but a PRICE or SQNTY that is not numeric. *)
Definition row_skipped (sheet : worksheet) (r : Z) : bool :=
  row_has_data sheet r
  && negb (is_valid_numeric (cell sheet r 9) (cell sheet r 10)).

(** The rows of the data block, 19 to 1000, that satisfy both conditions,
    in ascending order. *)
Definition accepted_rows (sheet : worksheet) : list Z :=
  List.filter (row_accepted sheet)
    (range DATA_BLOCK_START_ROW (DATA_BLOCK_END_ROW + 1)).

(** The rows of the block that have data but a PRICE or SQNTY that is
    not numeric. *)
Definition skipped_rows (sheet : worksheet) : list Z :=
  List.filter (row_skipped sheet) data_block.

(** The exception raised by reading columns G to J of a row: that of the
    first read that raises. *)
Definition row_read_error (sheet : worksheet) (r : Z) : option exn :=
  match read_error sheet r 7 with
  | Some e => Some e
  | None =>
      match read_error sheet r 8 with
      | Some e => Some e
      | None =>
          match read_error sheet r 9 with
          | Some e => Some e
          | None => read_error sheet r 10
          end
      end
  end.

(** An exception the [except] clauses handle: the file is given up and
    the loop goes on. *)
Definition handled (e : exn) : bool :=
  match e with
  | FileNotFoundError | KeyError => true
  | _ => false
  end.

(** Where an output row comes from. *)
Record row_source := {
  from_file : pystr;
  from_sheet : worksheet;
  from_context : file_context;
  from_row : Z
}.

Definition source_of (filename : pystr) (sheet : worksheet)
    (ctx : file_context) (r : Z) : row_source :=
  {| from_file := filename; from_sheet := sheet;
     from_context := ctx; from_row := r |}.

(** What becomes of one input file.  Either its row loop is never
    reached: [load_workbook] or the read of I11 or A22 raised, or the
    workbook has no sheet (nothing raised).  Or the row loop ran on the
    first sheet and completed the first [n] rows of the block, all 982 of
    them unless a read or an assignment raised at the next row. *)
Inductive file_result :=
| NotScanned (raised : option exn)
| Scanned (sheet : worksheet) (ctx : file_context) (n : nat)
    (raised : option exn).

(** The exception raised in the [try] suite of the file. *)
Definition raised_in (res : file_result) : option exn :=
  match res with
  | NotScanned raised | Scanned _ _ _ raised => raised
  end.

(** The file is processed to the end. *)
Definition processed (res : file_result) : bool :=
  match res with
  | Scanned _ _ _ None => true
  | _ => false
  end.

(** The exception that leaves the loop body. *)
Definition escapes (res : file_result) : option exn :=
  match raised_in res with
  | Some e => if handled e then None else Some (NameError "zipfile")
  | None => None
  end.

(** The rows of the block written for the file: those of the rows the
    loop completed that satisfy both conditions. *)
Definition rows_of (res : file_result) : list Z :=
  match res with
  | NotScanned _ => []
  | Scanned sheet _ n _ => List.filter (row_accepted sheet) (take n data_block)
  end.

(** The rows of the block logged as skipped for the file. *)
Definition skipped_of (res : file_result) : list Z :=
  match res with
  | NotScanned _ => []
  | Scanned sheet _ n _ => List.filter (row_skipped sheet) (take n data_block)
  end.

(** The rows written for the file, with where they come from. *)
Definition written_of (p : pystr * file_result) : list row_source :=
  match snd p with
  | NotScanned _ => []
  | Scanned sheet ctx _ _ => map (source_of (fst p) sheet ctx) (rows_of (snd p))
  end.

(** The rows written for the files, file after file. *)
Definition written_rows (results : list (pystr * file_result))
    : list row_source :=
  flat_map written_of results.

(** The log entries of rows written one after the other from output row
    [out] on: input row and output row. *)
Fixpoint numbered (out : Z) (rows : list Z) : list (Z * Z) :=
  match rows with
  | [] => []
  | r :: rest => (r, out) :: numbered (out + 1) rest
  end.

(** The row that was being written into output row [out] when the row
    loop of the file broke off: the row the loop did not complete, when
    its four reads succeeded, so that it is an assignment that raised.
    Line 193 logs such a row before its assignments. *)
Definition attempt_of (res : file_result) (out : Z) : list (Z * Z) :=
  match res with
  | Scanned sheet _ n (Some _) =>
      match data_block !! n with
      | Some r =>
          match row_read_error sheet r with
          | None => [(r, out)]
          | Some _ => []
          end
      | None => []
      end
  | _ => []
  end.

(** The rows logged by line 193 for the files, the cursor starting at
    [out]: for each file the rows written, at consecutive output rows,
    then the row that was being written when the file broke off, if it
    broke off at an assignment. *)
Fixpoint logged_rows (results : list (pystr * file_result)) (out : Z)
    : list (Z * Z) :=
  match results with
  | [] => []
  | (_, res) :: rest =>
      let next := out + Z.of_nat (length (rows_of res)) in
      numbered out (rows_of res) ++ attempt_of res next
      ++ logged_rows rest next
  end.

(** The files processed to the end. *)
Definition processed_files (results : list (pystr * file_result))
    : list (pystr * file_result) :=
  List.filter (fun p => processed (snd p)) results.

(** The exception that ends the loop, if one does. *)
Fixpoint escaping (results : list (pystr * file_result)) : option exn :=
  match results with
  | [] => None
  | (_, res) :: rest =>
      match escapes res with
      | Some e => Some e
      | None => escaping rest
      end
  end.

Section Expected.

Variable load_workbook : pystr -> exn + workbook.
Variable setitem_error : string * Z -> pyval -> option exn.
Variable str_other : pyval -> pystr.

(** ETD and BA of a file, from the value of cell I11. *)
Definition etd_ba_of (etd_data : pyval) : pyval * pyval :=
  match etd_data with
  | PNone => (PNone, PNone)
  | _ => snd (prep_etd (PStr (py_str str_other etd_data)))
  end.

(** The values shared by the rows of a file, from its workbook and its
    first sheet. *)
Definition context_of (wb : workbook) (sheet : worksheet) : file_context :=
  {| ETD := fst (etd_ba_of (cell sheet 11 9));
     BA := snd (etd_ba_of (cell sheet 11 9));
     ORDER_NO := PStr (default [] (last (sheetnames wb)));
     REMARK := cell sheet 22 1 |}.

(** The exception raised by the assignments of [cells] into output row
    [out]: that of the first assignment that raises. *)
Fixpoint cells_error (cells : list (string * pyval)) (out : Z)
    : option exn :=
  match cells with
  | [] => None
  | (col, v) :: rest =>
      match setitem_error (col, out) v with
      | Some e => Some e
      | None => cells_error rest out
      end
  end.

(** The exception raised when row [r] of the sheet is written into
    output row [out]. *)
Definition row_write_error (ctx : file_context) (sheet : worksheet)
    (r out : Z) : option exn :=
  cells_error
    (row_cells ctx (cell sheet r 7) (cell sheet r 8) (cell sheet r 9)
       (cell sheet r 10)) out.

(** Row [r] is written into output row [out]: its four reads succeed, it
    satisfies both conditions, and its eight assignments succeed. *)
Definition row_completed (ctx : file_context) (sheet : worksheet)
    (r out : Z) : bool :=
  match row_read_error sheet r, row_write_error ctx sheet r out with
  | None, None => row_accepted sheet r
  | _, _ => false
  end.

(** One more row is completed. *)
Definition one_more (reach : nat * option exn) : nat * option exn :=
  (S (fst reach), snd reach).

(** How far the row loop gets over [rows] when the cursor is at [out]:
    the number of rows it completes, and the exception that ends it, if
    one does.  A row is not completed when one of its four reads raises
    or when it satisfies both conditions and one of the assignments into
    the output row of that moment raises. *)
Fixpoint scan_reach (sheet : worksheet) (ctx : file_context) (out : Z)
    (rows : list Z) : nat * option exn :=
  match rows with
  | [] => (0%nat, None)
  | r :: rest =>
      match row_read_error sheet r with
      | Some e => (0%nat, Some e)
      | None =>
          if row_accepted sheet r then
            match row_write_error ctx sheet r out with
            | Some e => (0%nat, Some e)
            | None => one_more (scan_reach sheet ctx (out + 1) rest)
            end
          else one_more (scan_reach sheet ctx out rest)
      end
  end.

(** What becomes of the file of that name when its processing starts
    with the cursor at [out]. *)
Definition file_result_of (filename : pystr) (out : Z) : file_result :=
  match load_workbook filename with
  | inl e => NotScanned (Some e)
  | inr wb =>
      match worksheets wb with
      | [] => NotScanned None
      | sheet :: _ =>
          match read_error sheet 11 9 with
          | Some e => NotScanned (Some e)
          | None =>
              match read_error sheet 22 1 with
              | Some e => NotScanned (Some e)
              | None =>
                  Scanned sheet (context_of wb sheet)
                    (fst (scan_reach sheet (context_of wb sheet) out
                            data_block))
                    (snd (scan_reach sheet (context_of wb sheet) out
                            data_block))
              end
          end
      end
  end.

(** The files whose processing starts, in the order of the loop, each
    with what becomes of it: all the files up to and including the first
    one whose exception leaves the loop.  The cursor a file starts with is
    past the rows written for the files before it. *)
Fixpoint file_results (filenames : list pystr) (out : Z)
    : list (pystr * file_result) :=
  match filenames with
  | [] => []
  | filename :: rest =>
      let res := file_result_of filename out in
      (filename, res)
      :: match escapes res with
         | Some _ => []
         | None => file_results rest (out + Z.of_nat (length (rows_of res)))
         end
  end.

End Expected.

(** Output row [row] of sheet [m] holds the eight values of [x]. *)
Definition row_holds (m : gmap (string * Z) pyval) (row : Z)
    (x : row_source) : Prop :=
  let sheet := from_sheet x in
  let r := from_row x in
  m !! ("B"%string, row) = Some (ETD (from_context x))
  /\ m !! ("C"%string, row) = Some (BA (from_context x))
  /\ m !! ("E"%string, row) = Some (ORDER_NO (from_context x))
  /\ m !! ("F"%string, row) = Some (cell sheet r 8)
  /\ m !! ("G"%string, row) = Some (cell sheet r 10)
  /\ m !! ("I"%string, row) = Some (cell sheet r 9)
  /\ m !! ("K"%string, row) = Some (cell sheet r 7)
  /\ m !! ("P"%string, row) = Some (REMARK (from_context x)).

(** The rows whose writing started, as the log records them: input row
    and output row, oldest first. *)
Fixpoint rows_written (l : list entry) : list (Z * Z) :=
  match l with
  | [] => []
  | (_, RowWritten r out) :: l' => (r, out) :: rows_written l'
  | _ :: l' => rows_written l'
  end.

(** The files whose processing started, as the log records them. *)
Fixpoint files_started (l : list entry) : list pystr :=
  match l with
  | [] => []
  | (_, FileStart filename) :: l' => filename :: files_started l'
  | _ :: l' => files_started l'
  end.

(** The rows skipped for a non-numeric PRICE or SQNTY, as logged. *)
Fixpoint rows_skipped (l : list entry) : list Z :=
  match l with
  | [] => []
  | (_, RowSkipped r _ _) :: l' => r :: rows_skipped l'
  | _ :: l' => rows_skipped l'
  end.

(** [a <= b] on file names, as a proposition. *)
Definition name_le (a b : pystr) : Prop := str_le a b = true.

(** Row [x] is before row [y] in the order of the input: its file sorts
    first or, within one file, its row index is lower. *)
Definition row_before (x y : row_source) : Prop :=
  str_le (from_file x) (from_file y) = true
  /\ (from_file x = from_file y -> from_row x < from_row y).

(** What a stretch of the run does to the state: it writes [rows] into
    consecutive output rows from the cursor on and moves the cursor past
    them; it leaves the sheet as it was outside the output columns, before
    the old cursor and after the new one; it adds [es] to the log; and it
    counts [n] more processed files. *)
Record effect (st st' : state) (rows : list row_source)
    (es : list entry) (n : Z) : Prop := {
  eff_cursor :
    current_output_row st'
    = current_output_row st + Z.of_nat (length rows);
  eff_rows :
    forall k x, rows !! k = Some x ->
      row_holds (template_sheet st') (current_output_row st + Z.of_nat k) x;
  eff_frame :
    forall col row,
      row < current_output_row st
      \/ current_output_row st' < row
      \/ ~ In col output_columns ->
      template_sheet st' !! (col, row) = template_sheet st !! (col, row);
  eff_log : log st' = log st ++ es;
  eff_count : processed_files_count st' = processed_files_count st + n
}.

(** The kinds the code accepts as numeric: [int], [float], and [bool] as a
    subclass of [int]. *)
Definition int_float_or_bool (v : pyval) : Prop :=
  (exists n, v = PInt n) \/ (exists f, v = PFloat f) \/ (exists b, v = PBool b).

(** The kinds the specification calls numeric: integer or real, not
    boolean. *)
Definition numeric_kind (v : pyval) : bool :=
  match v with
  | PInt _ | PFloat _ => true
  | _ => false
  end.

(** A text is purely whitespace: each of its characters is whitespace. *)
Definition purely_whitespace (s : pystr) : bool := forallb isspace s.

(** A value is absent. *)
Definition absent (v : pyval) : Prop := v = PNone.

(** ** Sample inputs *)
Module Sample.

Definition at_cell (r c : Z) (v : pyval) (rest : Z -> Z -> pyval)
    : Z -> Z -> pyval :=
  fun r' c' => if (r' =? r) && (c' =? c) then v else rest r' c'.

Definition blank : Z -> Z -> pyval := fun _ _ => PNone.

(** Every cell of the sheet can be read. *)
Definition readable : Z -> Z -> option exn := fun _ _ => None.

(** Row 19 valid, row 20 with a text price, row 21 with a boolean
    price, row 22 blank but for the remark in column A. *)
Definition cells1 : Z -> Z -> pyval :=
  at_cell 11 9 (PStr (str "2024.08.08.(AIR)"))
    (at_cell 22 1 (PStr (str "remark"))
       (at_cell 19 8 (PStr (str "RED"))
          (at_cell 19 9 (PInt 5)
             (at_cell 19 10 (PInt 2)
                (at_cell 20 9 (PStr (str "50"))
                   (at_cell 20 10 (PInt 2)
                      (at_cell 21 9 (PBool true)
                         (at_cell 21 10 (PInt 3) blank)))))))).

Definition sheet1 : worksheet :=
  {| title := str "Sheet1"; cell := cells1; read_error := readable |}.

Definition order_sheet : worksheet :=
  {| title := str "JB24FW-M34"; cell := blank; read_error := readable |}.

(** One valid row, row 19. *)
Definition sheet2 : worksheet :=
  {| title := str "JB24FW-M32";
     cell := at_cell 19 9 (PInt 7) (at_cell 19 10 (PInt 1) blank);
     read_error := readable |}.

(** The cells of [sheet1] in a sheet whose XML is cut after row 30: the
    reads of rows 1 to 30 succeed, those of later rows raise. *)
Definition cut_sheet : worksheet :=
  {| title := str "Sheet1";
     cell := cells1;
     read_error :=
       fun r _ => if 30 <? r then Some (OtherException "ParseError")
                  else None |}.

(** The cells of [sheet1] in a sheet whose reads raise [KeyError] from
    row 31 on. *)
Definition lost_sheet : worksheet :=
  {| title := str "Sheet1";
     cell := cells1;
     read_error := fun r _ => if 30 <? r then Some KeyError else None |}.

(** A sheet whose XML cannot be parsed at all. *)
Definition broken_sheet : worksheet :=
  {| title := str "Sheet1";
     cell := blank;
     read_error := fun _ _ => Some (OtherException "ParseError") |}.

(** The input directory: [a.xlsx] is a corrupt archive, [b.xlsx] and
    [c.xlsx] are workbooks, [d.xlsx] has no sheet, [e.xlsx] is [b.xlsx]
    cut after row 30, [f.xlsx] opens but cannot be parsed, and the reads
    of [g.xlsx] raise [KeyError] from row 31 on. *)
Definition load_workbook (filename : pystr) : exn + workbook :=
  if bool_decide (filename = str "a.xlsx") then inl BadZipFile
  else if bool_decide (filename = str "b.xlsx") then
    inr {| worksheets := [sheet1; order_sheet] |}
  else if bool_decide (filename = str "c.xlsx") then
    inr {| worksheets := [sheet2] |}
  else if bool_decide (filename = str "d.xlsx") then
    inr {| worksheets := [] |}
  else if bool_decide (filename = str "e.xlsx") then
    inr {| worksheets := [cut_sheet; order_sheet] |}
  else if bool_decide (filename = str "f.xlsx") then
    inr {| worksheets := [broken_sheet] |}
  else if bool_decide (filename = str "g.xlsx") then
    inr {| worksheets := [lost_sheet; order_sheet] |}
  else inl FileNotFoundError.

(** A template without merged cells: every assignment succeeds. *)
Definition plain : string * Z -> pyval -> option exn := fun _ _ => None.

(** A template in which the cells of [cells] lie inside merged ranges:
    assigning to one of them raises [AttributeError]. *)
Definition merged (cells : list (string * Z))
    : string * Z -> pyval -> option exn :=
  fun key _ =>
    if bool_decide (key ∈ cells) then Some (OtherException "AttributeError")
    else None.

Definition str_other (v : pyval) : pystr := str "0.0".

End Sample.

(** * What a pattern matches *)

(** The texts a pattern matches, whatever the order in which the matcher
    tries them. *)
Fixpoint matches (r : regex) (t : pystr) : Prop :=
  match r with
  | Empty => t = []
  | One i => exists c, t = [c] /\ item_matches i c = true
  | MaxRepeat lo hi i =>
      Forall (fun c => item_matches i c = true) t
      /\ (lo <= length t)%nat
      /\ match hi with Some n => (length t <= n)%nat | None => True end
  | Subpattern _ r' => matches r' t
  | Branch r1 r2 => matches r1 t \/ matches r2 t
  | Concat r1 r2 =>
      exists t1 t2, t = t1 ++ t2 /\ matches r1 t1 /\ matches r2 t2
  end.

(** The groups of a pattern, each with the pattern it encloses. *)
Fixpoint subpatterns (r : regex) : list (nat * regex) :=
  match r with
  | Subpattern g r' => (g, r') :: subpatterns r'
  | Branch r1 r2 | Concat r1 r2 => subpatterns r1 ++ subpatterns r2
  | Empty | One _ | MaxRepeat _ _ _ => []
  end.

(** A captured group holds a text that its pattern matches. *)
Definition captured_by (r : regex) (p : nat * pystr) : Prop :=
  exists r', In (fst p, r') (subpatterns r) /\ matches r' (snd p).

(** A character is one of the digits 0 to 9. *)
Definition is_digit (c : N) : Prop := (48 <= c <= 57)%N.

(** The pattern of group 1 in both patterns of [prep_etd]:
    [[0-9]{4}\.[0-9]{1,2}\.[0-9]{1,2}]. *)
Definition date_group : regex :=
  sequence
    [ MaxRepeat 4 (Some 4%nat) digit09; lit ".";
      MaxRepeat 1 (Some 2%nat) digit09; lit ".";
      MaxRepeat 1 (Some 2%nat) digit09 ].

(** The pattern of group 2: [[^)]+]. *)
Definition ba_group : regex := MaxRepeat 1 None (NOT_LITERAL (ord ")")).

(** The year on four digits, as the text of an ETD has it. *)
Definition four_digits (y : Z) : pystr :=
  [Datetime.digit_char (y / 1000); Datetime.digit_char (y / 100 mod 10);
   Datetime.digit_char (y / 10 mod 10); Datetime.digit_char (y mod 10)].

(** * The rest of the script *)

(** ** Selecting the input files (lines 83 to 89) *)

(** [s.startswith(p)] *)
Fixpoint startswith (s p : pystr) : bool :=
  match p, s with
  | [], _ => true
  | _ :: _, [] => false
  | x :: p', y :: s' => (x =? y)%N && startswith s' p'
  end.

(** [s.endswith(p)] *)
Definition endswith (s p : pystr) : bool := startswith (rev s) (rev p).

(** The list comprehension of lines 84 to 89; [isfile f] is
    [os.path.isfile(os.path.join(INPUT_DIR, f))]. *)
Definition select_input_files (isfile : pystr -> bool)
    (all_files_in_dir : list pystr) : list pystr :=
  List.filter
    (fun f =>
       endswith f (str ".xlsx") && negb (startswith f (str "~")) && isfile f)
    all_files_in_dir.

(** ** The final save (lines 243 to 255) *)

(** What [template_wb.save(OUTPUT_FILLED)] does. *)
Inductive save_result :=
| SaveDone
| SavePermissionError
| SaveRaises (e : exn).

(** The messages of lines 244 to 255. *)
Inductive final_message :=
| WritingRows (processed_files_count rows : Z)
| AllSaved
| NoPermission
| SaveFailed
| NoValidRows (processed_files_count : Z)
| NothingProcessed.

(** The end of the script, once the loop is over: whether [save] is
    called, and what is logged. *)
Definition final_save (save : save_result) (st : state)
    : bool * list (level * final_message) :=
  if current_output_row st >? START_ROW_TEMPLATE then
    (true,
     (INFO, WritingRows (processed_files_count st)
              (current_output_row st - START_ROW_TEMPLATE))
     :: match save with
        | SaveDone => [(INFO, AllSaved)]
        | SavePermissionError => [(ERROR, NoPermission)]
        | SaveRaises _ => [(ERROR, SaveFailed)]
        end)
  else if processed_files_count st >? 0 then
    (false, [(WARNING, NoValidRows (processed_files_count st))])
  else (false, [(INFO, NothingProcessed)]).

(** How the script ends. *)
Inductive ending :=
| Traceback (e : exn)
| Ended (save_called : bool) (messages : list (level * final_message)).

(** From the listing of the input directory to the end of the script. *)
Definition main (load_workbook : pystr -> exn + workbook)
    (setitem_error : string * Z -> pyval -> option exn)
    (str_other : pyval -> pystr) (isfile : pystr -> bool)
    (save : save_result) (template : gmap (string * Z) pyval)
    (all_files_in_dir : list pystr) : state * ending :=
  let input_files := select_input_files isfile all_files_in_dir in
  match run load_workbook setitem_error str_other template input_files with
  | (st, Some e) => (st, Traceback e)
  | (st, None) =>
      let '(called, messages) := final_save save st in
      (st, Ended called messages)
  end.

(** ** What one file adds to the log *)

(** The messages no run logs. *)
Definition never_logged (msg : message) : bool :=
  match msg with
  | EtdNotString _ | NoOrderNo _ | BaFailed _ _
  | BadZipLogged _ | UnexpectedLogged _ => true
  | _ => false
  end.

(** The messages about cell I11. *)
Definition etd_message (msg : message) : bool :=
  match msg with
  | I11Empty | EtdFormatMismatch _ | EtdDateError _ _
  | EtdBaFailed _ | EtdFailed _ _ => true
  | _ => false
  end.

(** The messages of the row loop. *)
Definition row_message (msg : message) : bool :=
  match msg with
  | RowWritten _ _ | RowSkipped _ _ _ => true
  | _ => false
  end.

(** The warnings that sum a block up. *)
Definition summary_message (msg : message) : bool :=
  match msg with
  | NoDataInBlock _ | NoValidData _ => true
  | _ => false
  end.

(** The messages of the [try] suite. *)
Definition try_message (msg : message) : bool :=
  match msg with
  | NoSheets _ | UsingFirstSheet _ _ | CommonData _ _ => true
  | _ => etd_message msg || row_message msg || summary_message msg
  end.

(** The warning after the row loop. *)
Definition summary_log (filename : pystr) (sheet : worksheet)
    (rows : list Z) : list entry :=
  if negb (existsb (row_has_data sheet) rows) then
    [(WARNING, NoDataInBlock filename)]
  else if negb (existsb (row_accepted sheet) rows) then
    [(WARNING, NoValidData filename)]
  else [].

(** The entry of the [except] clause that handles the exception. *)
Definition handler_log (filename : pystr) (raised : option exn)
    : list entry :=
  match raised with
  | Some FileNotFoundError => [(ERROR, FileNotFoundLogged filename)]
  | Some KeyError => [(ERROR, KeyErrorLogged filename)]
  | _ => []
  end.

Section ScriptLog.

Variable load_workbook : pystr -> exn + workbook.
Variable setitem_error : string * Z -> pyval -> option exn.
Variable str_other : pyval -> pystr.

(** The warnings about cell I11 (lines 149 to 159). *)
Definition etd_log (etd_data : pyval) : list entry :=
  log (fst (extract_etd_ba str_other etd_data (initial_state ∅))).

(** The log entries of the row loop over [rows], the cursor being at
    [out]: one per row that has data, skipped or written, up to the row
    at which a read or an assignment raises.  The entry of a written row
    comes before its assignments. *)
Fixpoint row_log (sheet : worksheet) (ctx : file_context) (out : Z)
    (rows : list Z) : list entry :=
  match rows with
  | [] => []
  | r :: rest =>
      match row_read_error sheet r with
      | Some _ => []
      | None =>
          if row_has_data sheet r then
            if is_valid_numeric (cell sheet r 9) (cell sheet r 10) then
              (INFO, RowWritten r out)
              :: match row_write_error setitem_error ctx sheet r out with
                 | Some _ => []
                 | None => row_log sheet ctx (out + 1) rest
                 end
            else
              (WARNING, RowSkipped r (cell sheet r 9) (cell sheet r 10))
              :: row_log sheet ctx out rest
          else row_log sheet ctx out rest
      end
  end.

(** What the [try] suite of [filename] adds to the log when the cursor
    is at [out]. *)
Definition try_log (filename : pystr) (out : Z) : list entry :=
  match load_workbook filename with
  | inl _ => []
  | inr wb =>
      match worksheets wb with
      | [] => [(WARNING, NoSheets filename)]
      | sheet :: _ =>
          (INFO, UsingFirstSheet filename (title sheet))
          :: match read_error sheet 11 9, read_error sheet 22 1 with
             | None, None =>
                 let ctx := context_of str_other wb sheet in
                 etd_log (cell sheet 11 9)
                 ++ [(INFO, CommonData (ORDER_NO ctx) (REMARK ctx))]
                 ++ row_log sheet ctx out data_block
                 ++ match
                      snd (scan_reach setitem_error sheet ctx out data_block)
                    with
                    | Some _ => []
                    | None => summary_log filename sheet data_block
                    end
             | _, _ => []
             end
      end
  end.

(** What processing [filename] adds to the log when the cursor is at
    [out]. *)
Definition file_log (filename : pystr) (out : Z) : list entry :=
  (INFO, FileStart filename)
  :: try_log filename out
  ++ handler_log filename
       (raised_in
          (file_result_of load_workbook setitem_error str_other filename out)).

(** The log of the loop over [filenames], the cursor starting at [out]. *)
Fixpoint batch_log (filenames : list pystr) (out : Z) : list entry :=
  match filenames with
  | [] => []
  | filename :: rest =>
      let res :=
        file_result_of load_workbook setitem_error str_other filename out in
      file_log filename out
      ++ match escapes res with
         | Some _ => []
         | None => batch_log rest (out + Z.of_nat (length (rows_of res)))
         end
  end.

End ScriptLog.

(** ** What the script reads *)

(** Two sheets agree on the reads the script makes: those of I11, of A22
    and of the block G19 to J1000 give the same value or raise the same
    exception. *)
Definition same_cells_read (s1 s2 : worksheet) : Prop :=
  read_cell s1 11 9 = read_cell s2 11 9
  /\ read_cell s1 22 1 = read_cell s2 22 1
  /\ forall r c,
       DATA_BLOCK_START_ROW <= r <= DATA_BLOCK_END_ROW -> 7 <= c <= 10 ->
       read_cell s1 r c = read_cell s2 r c.

(** Two files look the same to the script: opening them raises the same
    exception, or gives workbooks with the same sheet names whose first
    sheets agree on the reads the script makes. *)
Definition same_input (w1 w2 : exn + workbook) : Prop :=
  match w1, w2 with
  | inl e1, inl e2 => e1 = e2
  | inr wb1, inr wb2 =>
      sheetnames wb1 = sheetnames wb2
      /\ match worksheets wb1, worksheets wb2 with
         | [], [] => True
         | s1 :: _, s2 :: _ => same_cells_read s1 s2
         | _, _ => False
         end
  | _, _ => False
  end.

(** The sample directory with other contents where the script does not
    look: a cell A1 on the first sheet of [b.xlsx], and cells on its
    second sheet. *)
Definition load_workbook_variant (filename : pystr) : exn + workbook :=
  if bool_decide (filename = str "b.xlsx") then
    inr {| worksheets :=
             [ {| title := str "Sheet1";
                  cell := Sample.at_cell 1 1 (PStr (str "INVOICE"))
                            Sample.cells1;
                  read_error := Sample.readable |};
               {| title := str "JB24FW-M34";
                  cell := Sample.at_cell 19 9 (PInt 99)
                            (Sample.at_cell 19 10 (PInt 1) Sample.blank);
                  read_error := Sample.readable |} ]
        |}
  else Sample.load_workbook filename.

(** * Properties *)

(** ** Text *)

Lemma lstrip_nil (s : pystr) : lstrip s = [] <-> forallb isspace s = true.
Proof.
  induction s as [|c s IH]; simpl; [tauto|].
  destruct (isspace c); simpl; [exact IH|].
  split; discriminate.
Qed.

Lemma forallb_isspace_lstrip (s : pystr) :
  forallb isspace (lstrip s) = forallb isspace s.
Proof.
  induction s as [|c s IH]; simpl; [reflexivity|].
  destruct (isspace c) eqn:E; simpl; [exact IH|].
  rewrite E. reflexivity.
Qed.

Lemma forallb_rev_eq {A} (f : A -> bool) (l : list A) :
  forallb f (rev l) = forallb f l.
Proof.
  induction l as [|x l IH]; simpl; [reflexivity|].
  rewrite forallb_app, IH. simpl. rewrite andb_true_r. apply andb_comm.
Qed.

Lemma rev_nil_iff {A} (l : list A) : rev l = [] <-> l = [].
Proof.
  split; intros H; [|subst; reflexivity].
  apply (f_equal (@rev A)) in H. rewrite rev_involutive in H. exact H.
Qed.

Lemma strip_nil (s : pystr) : strip s = [] <-> purely_whitespace s = true.
Proof.
  unfold strip, rstrip, purely_whitespace.
  rewrite rev_nil_iff, lstrip_nil, forallb_rev_eq, forallb_isspace_lstrip.
  reflexivity.
Qed.

Lemma truthy_strip (s : pystr) :
  truthy_str (strip s) = negb (purely_whitespace s).
Proof.
  destruct (purely_whitespace s) eqn:E.
  - apply strip_nil in E. rewrite E. reflexivity.
  - destruct (strip s) eqn:Es; [|reflexivity].
    apply strip_nil in Es. congruence.
Qed.

(** ** The matcher *)

(** A repetition that may be empty matches wherever the rest matches. *)
Lemma max_repeat_optional i hi s (k : pystr -> option result) :
  is_Some (k s) -> is_Some (max_repeat i 0 hi s k).
Proof.
  intros Hk. destruct s as [|c s]; simpl; [exact Hk|].
  destruct (item_matches i c && may_take hi); [|exact Hk].
  destruct (max_repeat i 0 (Nat.pred <$> hi) s k); [eauto|exact Hk].
Qed.

(** Success is monotone in the rest of the pattern. *)
Lemma max_repeat_mono i lo hi s (k1 k2 : pystr -> option result) :
  (forall s', is_Some (k2 s') -> is_Some (k1 s')) ->
  is_Some (max_repeat i lo hi s k2) -> is_Some (max_repeat i lo hi s k1).
Proof.
  intros Hk. revert lo hi.
  induction s as [|c s IH]; intros lo hi; simpl.
  - destruct lo; simpl; auto.
  - destruct (item_matches i c && may_take hi).
    + specialize (IH (Nat.pred lo) (Nat.pred <$> hi)).
      destruct (max_repeat i (Nat.pred lo) (Nat.pred <$> hi) s k2).
      * intros _. destruct IH as [x ->]; eauto.
      * intros H2.
        destruct (max_repeat i (Nat.pred lo) (Nat.pred <$> hi) s k1); [eauto|].
        destruct lo; simpl in *; auto.
    + destruct lo; simpl; auto.
Qed.

Lemma sre_match_mono r :
  forall s m (k1 k2 : groups -> pystr -> option result),
    (forall m' s', is_Some (k2 m' s') -> is_Some (k1 m' s')) ->
    is_Some (sre_match r s m k2) -> is_Some (sre_match r s m k1).
Proof.
  induction r as [|i|lo hi i|g r IH|r1 IH1 r2 IH2|r1 IH1 r2 IH2];
    intros s m k1 k2 Hk; simpl.
  - apply Hk.
  - destruct s as [|c s]; [auto|]. destruct (item_matches i c); auto.
  - apply max_repeat_mono. intros s'. apply Hk.
  - apply IH. intros m' s'. apply Hk.
  - specialize (IH1 s m k1 k2 Hk). specialize (IH2 s m k1 k2 Hk).
    destruct (sre_match r1 s m k2).
    + intros _. destruct IH1 as [x ->]; eauto.
    + intros H2. destruct (sre_match r1 s m k1); eauto.
  - apply IH1. intros m' s'. apply IH2. exact Hk.
Qed.

(** A match ends in the rest of the pattern, reached with the groups
    captured so far. *)
Lemma max_repeat_inv i lo hi s (k : pystr -> option result) res :
  max_repeat i lo hi s k = Some res -> exists s', k s' = Some res.
Proof.
  revert lo hi. induction s as [|c s IH]; intros lo hi; simpl.
  - destruct lo; simpl; [eauto|discriminate].
  - destruct (item_matches i c && may_take hi).
    + destruct (max_repeat i (Nat.pred lo) (Nat.pred <$> hi) s k) eqn:E.
      * intros [= <-]. eapply IH, E.
      * destruct lo; simpl; [eauto|discriminate].
    + destruct lo; simpl; [eauto|discriminate].
Qed.

Lemma group_app_is_Some (new m : groups) g :
  is_Some (group new g) \/ is_Some (group m g) ->
  is_Some (group (new ++ m) g).
Proof.
  induction new as [|[g' x] new IH]; simpl.
  - intros [[y Hy]|H]; [discriminate|exact H].
  - destruct (Nat.eqb g g'); [eauto|exact IH].
Qed.

Lemma sre_match_inv r :
  forall s m (k : groups -> pystr -> option result) res,
    sre_match r s m k = Some res ->
    exists new s',
      k (new ++ m) s' = Some res
      /\ forall g, captures r g = true -> is_Some (group new g).
Proof.
  induction r as [|i|lo hi i|g r IH|r1 IH1 r2 IH2|r1 IH1 r2 IH2];
    intros s m k res; simpl.
  - intros H. exists [], s. split; [exact H|discriminate].
  - destruct s as [|c s]; [discriminate|].
    destruct (item_matches i c); [|discriminate].
    intros H. exists [], s. split; [exact H|discriminate].
  - intros H. apply max_repeat_inv in H as [s' H].
    exists [], s'. split; [exact H|discriminate].
  - intros H. apply IH in H as (new & s' & H & Hnew).
    exists ((g, take (length s - length s') s) :: new), s'.
    split; [exact H|]. intros g0 Hg0. simpl.
    destruct (Nat.eqb g0 g); [eauto|]. apply Hnew. exact Hg0.
  - destruct (sre_match r1 s m k) eqn:E.
    + intros [= <-]. apply IH1 in E as (new & s' & H & Hnew).
      exists new, s'. split; [exact H|].
      intros g Hg. apply andb_true_iff in Hg as [Hg _]. auto.
    + intros H. apply IH2 in H as (new & s' & H & Hnew).
      exists new, s'. split; [exact H|].
      intros g Hg. apply andb_true_iff in Hg as [_ Hg]. auto.
  - intros H. apply IH1 in H as (new1 & s1 & H & Hnew1).
    apply IH2 in H as (new2 & s2 & H & Hnew2).
    exists (new2 ++ new1), s2. rewrite <- app_assoc. split; [exact H|].
    intros g Hg. apply group_app_is_Some.
    apply orb_true_iff in Hg as [Hg|Hg]; auto.
Qed.

Lemma re_match_captures r s m rest g :
  re_match r s = Some (m, rest) -> captures r g = true -> is_Some (group m g).
Proof.
  unfold re_match. intros H Hg.
  apply sre_match_inv in H as (new & s' & H & Hnew).
  unfold accept in H. injection H as <- <-.
  apply group_app_is_Some. left. auto.
Qed.

Lemma re_search_captures r s m rest g :
  re_search r s = Some (m, rest) -> captures r g = true -> is_Some (group m g).
Proof.
  induction s as [|c s IH]; simpl.
  - destruct (re_match r []) as [[m' rest']|] eqn:E; [|discriminate].
    intros [= <- <-]. eapply re_match_captures, E.
  - destruct (re_match r (c :: s)) as [[m' rest']|] eqn:E; [|exact IH].
    intros [= <- <-]. eapply re_match_captures, E.
Qed.

Lemma etd_search_groups text m rest :
  etd_search text = Some (m, rest) ->
  exists date_str_raw ba_str,
    group m 1 = Some date_str_raw /\ group m 2 = Some ba_str.
Proof.
  unfold etd_search. intros H.
  assert (forall g, captures etd_pattern g = true ->
                    captures etd_pattern_alt g = true ->
                    is_Some (group m g)) as Hg.
  { intros g H1 H2.
    destruct (re_search etd_pattern text) as [[m' rest']|] eqn:E.
    - injection H as <- <-. eapply re_search_captures; eauto.
    - eapply re_search_captures; eauto. }
  destruct (Hg 1%nat) as [x Hx]; [reflexivity..|].
  destruct (Hg 2%nat) as [y Hy]; [reflexivity..|].
  eauto.
Qed.

(** Where the alternative pattern matches, so does the first one: its
    [\.?] may match nothing. *)
Lemma optional_item_redundant r hi i rest s m k :
  is_Some (sre_match (Concat r rest) s m k) ->
  is_Some (sre_match (Concat r (Concat (MaxRepeat 0 hi i) rest)) s m k).
Proof.
  cbn [sre_match]. apply sre_match_mono. intros m' s'.
  apply (max_repeat_optional i hi s' (fun s0 => sre_match rest s0 m' k)).
Qed.

Lemma alt_match_first_match s :
  is_Some (re_match etd_pattern_alt s) -> is_Some (re_match etd_pattern s).
Proof.
  unfold re_match. apply (optional_item_redundant _ _ _ _ s [] accept).
Qed.

Lemma re_search_unfold r s :
  re_search r s
  = match re_match r s with
    | Some x => Some x
    | None => match s with [] => None | _ :: s' => re_search r s' end
    end.
Proof. destruct s; reflexivity. Qed.

Lemma alt_search_first_search text :
  is_Some (re_search etd_pattern_alt text) ->
  is_Some (re_search etd_pattern text).
Proof.
  induction text as [|c text IH].
  - rewrite !re_search_unfold.
    pose proof (alt_match_first_match []) as Hm.
    destruct (re_match etd_pattern_alt []).
    + intros _. destruct Hm as [x ->]; eauto.
    + intros [x Hx]. discriminate.
  - rewrite (re_search_unfold _ (c :: text)).
    rewrite (re_search_unfold etd_pattern (c :: text)).
    pose proof (alt_match_first_match (c :: text)) as Hm.
    destruct (re_match etd_pattern_alt (c :: text)).
    + intros _. destruct Hm as [x ->]; eauto.
    + intros H. destruct (re_match etd_pattern (c :: text)); eauto.
Qed.

Lemma first_search_none_alt_none text :
  re_search etd_pattern text = None -> re_search etd_pattern_alt text = None.
Proof.
  intros H. destruct (re_search etd_pattern_alt text) eqn:E; [|reflexivity].
  destruct (alt_search_first_search text) as [x Hx]; [eauto|congruence].
Qed.

Lemma etd_search_first text : etd_search text = re_search etd_pattern text.
Proof.
  unfold etd_search.
  destruct (re_search etd_pattern text) eqn:E; [reflexivity|].
  apply first_search_none_alt_none, E.
Qed.

(** ** The tag parser *)

(** C6: for the text "2024.08.08.(AIR)", [prep_etd] returns the date
    "08-Aug" and the BA "AIR", and logs nothing. *)
Theorem C6_prep_etd_air :
  prep_etd (PStr (str "2024.08.08.(AIR)"))
  = ([], (PStr (str "08-Aug"), PStr (str "AIR"))).
Proof. vm_compute. reflexivity. Qed.

(** C7: whenever one of the two patterns matches, both groups are captured;
    and when [strptime] then rejects the captured date, [prep_etd] logs the
    date warning and returns no date together with the captured BA. *)
Theorem C7_tag_kept_when_date_fails (text : pystr) (m : groups) (rest : pystr) :
  etd_search text = Some (m, rest) ->
  exists date_str_raw ba_str,
    group m 1 = Some date_str_raw
    /\ group m 2 = Some ba_str
    /\ (Datetime.strptime date_str_raw = None ->
        prep_etd (PStr text)
        = ([(WARNING, EtdDateError date_str_raw text)], (PNone, PStr ba_str))).
Proof.
  intros H.
  destruct (etd_search_groups _ _ _ H) as (dt & ba & H1 & H2).
  exists dt, ba. split; [exact H1|]. split; [exact H2|].
  intros Hd. unfold prep_etd, convert_match.
  rewrite H, H1, H2. simpl. rewrite Hd. reflexivity.
Qed.

Lemma C7_witness :
  etd_search (str "2024.13.08.(AIR)")
  = Some ([(2%nat, str "AIR"); (1%nat, str "2024.13.08")], [])
  /\ exists date_str_raw ba_str,
       group [(2%nat, str "AIR"); (1%nat, str "2024.13.08")] 1
       = Some date_str_raw
       /\ group [(2%nat, str "AIR"); (1%nat, str "2024.13.08")] 2
          = Some ba_str
       /\ (Datetime.strptime date_str_raw = None ->
           prep_etd (PStr (str "2024.13.08.(AIR)"))
           = ([(WARNING, EtdDateError date_str_raw (str "2024.13.08.(AIR)"))],
              (PNone, PStr ba_str))).
Proof.
  split; [vm_compute; reflexivity|].
  apply (C7_tag_kept_when_date_fails (str "2024.13.08.(AIR)") _ []).
  vm_compute. reflexivity.
Defined.

(** The example of C7: month 13. *)
Example prep_etd_month13 :
  Datetime.strptime (str "2024.13.08") = None
  /\ snd (prep_etd (PStr (str "2024.13.08.(AIR)"))) = (PNone, PStr (str "AIR")).
Proof. split; vm_compute; reflexivity. Qed.

(** C8: [prep_etd] returns [(None, None)] for every input that is not a
    [str], [None] included, and for every [str] in which neither pattern
    is found. *)
Theorem C8_no_match_no_result (data : pyval) :
  isinstance_str data = false
  \/ (exists text, data = PStr text
                   /\ re_search etd_pattern text = None
                   /\ re_search etd_pattern_alt text = None) ->
  snd (prep_etd data) = (PNone, PNone).
Proof.
  intros [H|(text & -> & H1 & H2)].
  - destruct data; try reflexivity. discriminate.
  - unfold prep_etd, etd_search. rewrite H1, H2. reflexivity.
Qed.

Lemma C8_witness :
  snd (prep_etd PNone) = (PNone, PNone)
  /\ snd (prep_etd (PInt 20240808)) = (PNone, PNone)
  /\ snd (prep_etd (PStr (str "08.08 AIR"))) = (PNone, PNone).
Proof.
  split; [|split].
  - apply (C8_no_match_no_result PNone). left. reflexivity.
  - apply (C8_no_match_no_result (PInt 20240808)). left. reflexivity.
  - apply (C8_no_match_no_result (PStr (str "08.08 AIR"))). right.
    exists (str "08.08 AIR"). repeat split; vm_compute; reflexivity.
Defined.

(** C10: every text in which the alternative pattern is found is one in
    which the first pattern is found, so that [prep_etd] equals the parser
    that tries the first pattern only. *)
Theorem C10_alternative_pattern_redundant :
  (forall text, is_Some (re_search etd_pattern_alt text) ->
                is_Some (re_search etd_pattern text))
  /\ (forall data, prep_etd data = prep_etd_single data).
Proof.
  split; [exact alt_search_first_search|].
  intros [| | | |text|]; try reflexivity.
  unfold prep_etd, prep_etd_single. rewrite etd_search_first. reflexivity.
Qed.

Lemma C10_witness :
  is_Some (re_search etd_pattern (str "ETD 2024.8.8 (SEA)"))
  /\ prep_etd (PStr (str "ETD 2024.8.8 (SEA)"))
     = prep_etd_single (PStr (str "ETD 2024.8.8 (SEA)")).
Proof.
  split.
  - apply (proj1 C10_alternative_pattern_redundant (str "ETD 2024.8.8 (SEA)")).
    vm_compute. eauto.
  - apply (proj2 C10_alternative_pattern_redundant).
Defined.

(** ** The row validator *)

Lemma meaningful_iff (val : pyval) :
  is_not_None val
  && (negb (isinstance_str val)
      || match val with PStr s => truthy_str (strip s) | _ => false end)
  = true
  <-> ~ absent val /\ forall s, val = PStr s -> purely_whitespace s = false.
Proof.
  unfold absent. destruct val as [| b | n | f | s | cls id]; simpl;
    try (split; [intros _; split; [discriminate|intros ? [=]]|reflexivity]).
  - split; [discriminate|]. intros [H _]. congruence.
  - rewrite truthy_strip, negb_true_iff. split.
    + intros H. split; [discriminate|]. intros s' [= <-]. exact H.
    + intros [_ H]. apply H. reflexivity.
Qed.

Lemma scan_row_no_data se sheet ctx a r DETAIL COLOR PRICE SQNTY :
  read_row sheet r = inr (DETAIL, COLOR, PRICE, SQNTY) ->
  has_data DETAIL COLOR PRICE SQNTY = false ->
  scan_row se sheet ctx a r = (a, None).
Proof. intros Hr H. unfold scan_row. rewrite Hr, H. reflexivity. Qed.

Lemma scan_row_invalid se sheet ctx a r DETAIL COLOR PRICE SQNTY :
  read_row sheet r = inr (DETAIL, COLOR, PRICE, SQNTY) ->
  has_data DETAIL COLOR PRICE SQNTY = true ->
  is_valid_numeric PRICE SQNTY = false ->
  scan_row se sheet ctx a r
  = ({| data_found_in_block := true;
        file_had_valid_data := file_had_valid_data a;
        scan_state :=
          logging WARNING (RowSkipped r PRICE SQNTY) (scan_state a) |},
     None).
Proof. intros Hr H1 H2. unfold scan_row. rewrite Hr, H1, H2. reflexivity. Qed.

(** C9: [has_data] holds exactly when one of the four values is not [None]
    and, if it is a [str], is not made of whitespace only; and a scanned
    row whose four values are read and hold no data changes nothing: no
    output row, no log entry, no exception, and the flag that data was
    found stays as it was. *)
Theorem C9_has_data :
  (forall DETAIL COLOR PRICE SQNTY,
      has_data DETAIL COLOR PRICE SQNTY = true
      <-> exists val,
            In val [DETAIL; COLOR; PRICE; SQNTY]
            /\ ~ absent val
            /\ forall s, val = PStr s -> purely_whitespace s = false)
  /\ (forall setitem_error sheet ctx a r DETAIL COLOR PRICE SQNTY,
         read_row sheet r = inr (DETAIL, COLOR, PRICE, SQNTY) ->
         has_data DETAIL COLOR PRICE SQNTY = false ->
         scan_row setitem_error sheet ctx a r = (a, None)).
Proof.
  split; [|exact scan_row_no_data].
  intros DETAIL COLOR PRICE SQNTY. unfold has_data.
  rewrite existsb_exists. split.
  - intros (val & Hin & H). exists val. split; [exact Hin|].
    apply meaningful_iff. exact H.
  - intros (val & Hin & H). exists val. split; [exact Hin|].
    apply meaningful_iff. exact H.
Qed.

Lemma C9_witness :
  (has_data (PStr (str "  ")) PNone PNone (PInt 0) = true
   <-> exists val,
         In val [PStr (str "  "); PNone; PNone; PInt 0]
         /\ ~ absent val
         /\ forall s, val = PStr s -> purely_whitespace s = false)
  /\ forall setitem_error ctx a,
       scan_row setitem_error Sample.sheet1 ctx a 22 = (a, None).
Proof.
  split.
  - apply (proj1 C9_has_data).
  - intros setitem_error ctx a.
    apply (proj2 C9_has_data setitem_error Sample.sheet1 ctx a 22
             PNone PNone PNone PNone);
      vm_compute; reflexivity.
Defined.

Lemma int_float_or_bool_iff (v : pyval) :
  isinstance_int_float v = true <-> int_float_or_bool v.
Proof.
  unfold int_float_or_bool.
  destruct v; simpl; split; eauto;
    try (intros [[? [=]]|[[? [=]]|[? [=]]]]); discriminate.
Qed.

(** C3, as the code has it: PRICE and SQNTY pass exactly when each is an
    [int], a [float] or a [bool]; a [str] never passes, the text "50"
    included; and a row whose four values are read, that has data but does
    not pass, is not written: it is logged as skipped, marks the block as
    holding data, and raises nothing. *)
Theorem C3_numeric_check :
  (forall PRICE SQNTY,
      is_valid_numeric PRICE SQNTY = true
      <-> int_float_or_bool PRICE /\ int_float_or_bool SQNTY)
  /\ (forall s v, is_valid_numeric (PStr s) v = false
                  /\ is_valid_numeric v (PStr s) = false)
  /\ (forall setitem_error sheet ctx a r DETAIL COLOR PRICE SQNTY,
         read_row sheet r = inr (DETAIL, COLOR, PRICE, SQNTY) ->
         has_data DETAIL COLOR PRICE SQNTY = true ->
         is_valid_numeric PRICE SQNTY = false ->
         scan_row setitem_error sheet ctx a r
         = ({| data_found_in_block := true;
               file_had_valid_data := file_had_valid_data a;
               scan_state :=
                 logging WARNING (RowSkipped r PRICE SQNTY) (scan_state a) |},
            None)).
Proof.
  split; [|split].
  - intros PRICE SQNTY. unfold is_valid_numeric.
    rewrite andb_true_iff, !int_float_or_bool_iff. reflexivity.
  - intros s v. unfold is_valid_numeric. simpl.
    rewrite andb_false_r. split; reflexivity.
  - exact scan_row_invalid.
Qed.

Lemma C3_witness :
  is_valid_numeric (PStr (str "50")) (PInt 2) = false
  /\ forall setitem_error ctx a,
       scan_row setitem_error Sample.sheet1 ctx a 20
       = ({| data_found_in_block := true;
             file_had_valid_data := file_had_valid_data a;
             scan_state :=
               logging WARNING (RowSkipped 20 (PStr (str "50")) (PInt 2))
                 (scan_state a) |},
          None).
Proof.
  split.
  - apply (proj1 (proj2 C3_numeric_check)).
  - intros setitem_error ctx a.
    apply (proj2 (proj2 C3_numeric_check) setitem_error Sample.sheet1 ctx a 20
             PNone PNone (PStr (str "50")) (PInt 2));
      vm_compute; reflexivity.
Defined.

(** C3 as stated fails: a boolean PRICE passes the check although it is
    neither an integer nor a real, and the row is written. *)
Lemma C3_counterexample :
  is_valid_numeric (PBool true) (PInt 3) = true
  /\ numeric_kind (PBool true) = false
  /\ row_accepted Sample.sheet1 21 = true
  /\ ~ (forall PRICE SQNTY,
           is_valid_numeric PRICE SQNTY = true
           <-> numeric_kind PRICE = true /\ numeric_kind SQNTY = true).
Proof.
  repeat split; try (vm_compute; reflexivity).
  intros H. destruct (proj1 (H (PBool true) (PInt 3))) as [H1 _].
  - reflexivity.
  - discriminate.
Qed.

(** ** The log *)

Lemma rows_written_app (l1 l2 : list entry) :
  rows_written (l1 ++ l2) = rows_written l1 ++ rows_written l2.
Proof.
  induction l1 as [|[lv msg] l1 IH]; simpl; [reflexivity|].
  destruct msg; simpl; rewrite IH; reflexivity.
Qed.

Lemma files_started_app (l1 l2 : list entry) :
  files_started (l1 ++ l2) = files_started l1 ++ files_started l2.
Proof.
  induction l1 as [|[lv msg] l1 IH]; simpl; [reflexivity|].
  destruct msg; simpl; rewrite IH; reflexivity.
Qed.

Lemma rows_skipped_app (l1 l2 : list entry) :
  rows_skipped (l1 ++ l2) = rows_skipped l1 ++ rows_skipped l2.
Proof.
  induction l1 as [|[lv msg] l1 IH]; simpl; [reflexivity|].
  destruct msg; simpl; rewrite IH; reflexivity.
Qed.

Lemma logging_as_all lv msg st : logging lv msg st = logging_all [(lv, msg)] st.
Proof. reflexivity. Qed.

Lemma logging_all_all es1 es2 st :
  logging_all es2 (logging_all es1 st) = logging_all (es1 ++ es2) st.
Proof. unfold logging_all. simpl. rewrite app_assoc. reflexivity. Qed.

(** ** Effects on the state *)

Lemma row_holds_same (m m' : gmap (string * Z) pyval) row x :
  (forall col, m' !! (col, row) = m !! (col, row)) ->
  row_holds m row x -> row_holds m' row x.
Proof. unfold row_holds. intros H. rewrite !H. auto. Qed.

Lemma effect_refl st : effect st st [] [] 0.
Proof.
  split; simpl; rewrite ?app_nil_r; try reflexivity; try lia.
  intros k x H. discriminate.
Qed.

Lemma effect_trans st st' st'' rows1 rows2 es1 es2 n1 n2 :
  effect st st' rows1 es1 n1 ->
  effect st' st'' rows2 es2 n2 ->
  effect st st'' (rows1 ++ rows2) (es1 ++ es2) (n1 + n2).
Proof.
  intros [Hc1 Hr1 Hf1 Hl1 Hn1] [Hc2 Hr2 Hf2 Hl2 Hn2].
  split.
  - rewrite Hc2, Hc1, length_app. lia.
  - intros k x Hk.
    destruct (decide (k < length rows1)%nat) as [Hlt|Hge].
    + rewrite lookup_app_l in Hk by exact Hlt.
      eapply row_holds_same; [|apply Hr1, Hk].
      intros col. apply Hf2. left. lia.
    + rewrite lookup_app_r in Hk by lia.
      apply Hr2 in Hk. rewrite Hc1 in Hk.
      replace (current_output_row st + Z.of_nat k)
        with (current_output_row st + Z.of_nat (length rows1)
              + Z.of_nat (k - length rows1)) by lia.
      exact Hk.
  - intros col row Hrow.
    rewrite Hf2 by (destruct Hrow as [H|[H|H]]; [left|right; left|right; right];
                    try exact H; lia).
    apply Hf1.
    destruct Hrow as [H|[H|H]]; [left|right; left|right; right];
      try exact H; lia.
  - rewrite Hl2, Hl1, app_assoc. reflexivity.
  - rewrite Hn2, Hn1. lia.
Qed.

Lemma effect_eq st st' rows rows' es es' n n' :
  effect st st' rows es n ->
  rows = rows' -> es = es' -> n = n' ->
  effect st st' rows' es' n'.
Proof. intros H -> -> ->. exact H. Qed.

Lemma effect_logging_all es st : effect st (logging_all es st) [] es 0.
Proof.
  split; simpl; try reflexivity; try lia.
  intros k x H. discriminate.
Qed.

Lemma effect_logging lv msg st : effect st (logging lv msg st) [] [(lv, msg)] 0.
Proof. rewrite logging_as_all. apply effect_logging_all. Qed.

Lemma effect_count_processed st : effect st (count_processed st) [] [] 1.
Proof.
  split; simpl; rewrite ?app_nil_r; try reflexivity; try lia.
  intros k x H. discriminate.
Qed.

(** The assignments of a list of cells: they end at the first one that
    raises, touch only the row of the cursor and the columns of the list,
    and, when none raises, leave each cell with its value. *)
Lemma set_cells_spec se cells :
  forall st,
    exists st',
      set_cells se cells st
      = (st', cells_error se cells (current_output_row st))
      /\ current_output_row st' = current_output_row st
      /\ processed_files_count st' = processed_files_count st
      /\ log st' = log st
      /\ (forall col row,
             row <> current_output_row st \/ ~ In col (map fst cells) ->
             template_sheet st' !! (col, row) = template_sheet st !! (col, row))
      /\ (cells_error se cells (current_output_row st) = None ->
          NoDup (map fst cells) ->
          forall col v,
            In (col, v) cells ->
            template_sheet st' !! (col, current_output_row st) = Some v).
Proof.
  induction cells as [|[col v] cells IH]; intros st.
  - exists st. repeat split; auto. intros _ _ col v [].
  - cbn [set_cells cells_error]. unfold set_cell.
    destruct (se (col, current_output_row st) v) as [e|] eqn:E.
    + exists st. repeat split; auto. discriminate.
    + set (st1 := {| template_sheet :=
                       <[(col, current_output_row st) := v]> (template_sheet st);
                     current_output_row := current_output_row st;
                     processed_files_count := processed_files_count st;
                     log := log st |}).
      destruct (IH st1) as (st' & Heq & Hc & Hn & Hl & Hframe & Hcells).
      exists st'. change (current_output_row st1) with (current_output_row st) in *.
      split; [exact Heq|]. split; [exact Hc|]. split; [exact Hn|].
      split; [exact Hl|]. split.
      * intros col' row' H. rewrite Hframe.
        -- unfold st1. cbn [template_sheet].
           apply lookup_insert_ne. intros [= <- <-].
           destruct H as [H|H]; [congruence|]. apply H. left. reflexivity.
        -- destruct H as [H|H]; [left; exact H|].
           right. intros Hin. apply H. right. exact Hin.
      * intros Herr Hnd col' v' [[= <- <-]|Hin].
        -- apply NoDup_cons in Hnd as [Hnotin _].
           rewrite Hframe.
           ++ unfold st1. cbn [template_sheet]. apply lookup_insert_eq.
           ++ right. intros Hin. apply Hnotin, list_elem_of_In, Hin.
        -- apply NoDup_cons in Hnd as [_ Hnd].
           apply (Hcells Herr Hnd col' v' Hin).
Qed.

(** One accepted row: written at the cursor, and the cursor moves by
    one, unless an assignment raises; then the cursor stays. *)
Lemma write_row_spec se filename sheet ctx r st :
  exists st',
    write_row se ctx (cell sheet r 7) (cell sheet r 8) (cell sheet r 9)
      (cell sheet r 10) st
    = (st', row_write_error se ctx sheet r (current_output_row st))
    /\ effect st st'
         (match row_write_error se ctx sheet r (current_output_row st) with
          | None => [source_of filename sheet ctx r]
          | Some _ => []
          end) [] 0.
Proof.
  unfold write_row, row_write_error.
  set (cells := row_cells ctx (cell sheet r 7) (cell sheet r 8)
                  (cell sheet r 9) (cell sheet r 10)).
  destruct (set_cells_spec se cells st)
    as (st1 & -> & Hc & Hn & Hl & Hframe & Hcells).
  assert (forall col, In col (map fst cells) -> In col output_columns) as Hcols.
  { intros col H. exact H. }
  destruct (cells_error se cells (current_output_row st)) as [e|] eqn:E.
  - exists st1. split; [reflexivity|]. split.
    + rewrite Hc. simpl. lia.
    + intros k x H. discriminate.
    + intros col row H. apply Hframe.
      destruct H as [H|[H|H]]; [left; lia|left; lia|right; auto].
    + rewrite Hl, app_nil_r. reflexivity.
    + rewrite Hn. lia.
  - exists (next_output_row st1). split; [reflexivity|]. split.
    + cbn [next_output_row current_output_row length]. rewrite Hc. lia.
    + intros [|k] x Hk; [|destruct k; discriminate].
      injection Hk as <-. rewrite Z.add_0_r.
      assert (NoDup (map fst cells)) as Hnd.
      { refine (bool_decide_unpack (NoDup _) _). vm_compute. exact I. }
      unfold row_holds.
      cbn [next_output_row template_sheet from_sheet from_row from_context
             source_of].
      repeat split; apply (Hcells eq_refl Hnd); unfold cells, row_cells;
        cbn [In]; tauto.
    + intros col row H. cbn [next_output_row template_sheet current_output_row] in *.
      apply Hframe.
      destruct H as [H|[H|H]]; [left; lia|left; lia|right; auto].
    + cbn [next_output_row log]. rewrite Hl, app_nil_r. reflexivity.
    + cbn [next_output_row processed_files_count]. rewrite Hn. lia.
Qed.

Lemma read_row_spec sheet r :
  read_row sheet r
  = match row_read_error sheet r with
    | Some e => inl e
    | None =>
        inr (cell sheet r 7, cell sheet r 8, cell sheet r 9, cell sheet r 10)
    end.
Proof.
  unfold read_row, row_read_error, read_cell.
  destruct (read_error sheet r 7); [reflexivity|].
  destruct (read_error sheet r 8); [reflexivity|].
  destruct (read_error sheet r 9); [reflexivity|].
  destruct (read_error sheet r 10); reflexivity.
Qed.

(** One pass of the row loop, by what the row holds. *)
Lemma scan_row_spec se filename sheet ctx a r :
  match row_read_error sheet r with
  | Some e => scan_row se sheet ctx a r = (a, Some e)
  | None =>
      if row_has_data sheet r then
        if is_valid_numeric (cell sheet r 9) (cell sheet r 10) then
          exists st',
            scan_row se sheet ctx a r
            = ({| data_found_in_block := true;
                  file_had_valid_data := true;
                  scan_state := st' |},
               row_write_error se ctx sheet r
                 (current_output_row (scan_state a)))
            /\ effect (scan_state a) st'
                 (match
                    row_write_error se ctx sheet r
                      (current_output_row (scan_state a))
                  with
                  | None => [source_of filename sheet ctx r]
                  | Some _ => []
                  end)
                 [(INFO, RowWritten r (current_output_row (scan_state a)))] 0
        else
          scan_row se sheet ctx a r
          = ({| data_found_in_block := true;
                file_had_valid_data := file_had_valid_data a;
                scan_state :=
                  logging WARNING
                    (RowSkipped r (cell sheet r 9) (cell sheet r 10))
                    (scan_state a) |},
             None)
      else scan_row se sheet ctx a r = (a, None)
  end.
Proof.
  unfold scan_row, row_has_data. rewrite read_row_spec.
  destruct (row_read_error sheet r); [reflexivity|].
  destruct (has_data _ _ _ _); [|reflexivity].
  destruct (is_valid_numeric _ _); [|reflexivity].
  cbv zeta.
  set (st0 := logging INFO (RowWritten r (current_output_row (scan_state a)))
                (scan_state a)).
  destruct (write_row_spec se filename sheet ctx r st0) as (st' & Hw & Heff).
  change (current_output_row st0) with (current_output_row (scan_state a)) in *.
  rewrite Hw. exists st'. split; [reflexivity|].
  eapply effect_eq;
    [eapply effect_trans; [apply effect_logging|exact Heff]|reflexivity..].
Qed.

Lemma scan_reach_length se sheet ctx rows :
  forall out, (fst (scan_reach se sheet ctx out rows) <= length rows)%nat.
Proof.
  induction rows as [|r rows IH]; intros out;
    cbn [scan_reach length]; unfold one_more;
    [reflexivity|].
  destruct (row_read_error sheet r); [simpl; lia|].
  destruct (row_accepted sheet r).
  - destruct (row_write_error se ctx sheet r out); simpl; [lia|].
    specialize (IH (out + 1)). lia.
  - simpl. specialize (IH out). lia.
Qed.

(** A row loop that no exception ends completes all its rows. *)
Lemma scan_reach_complete se sheet ctx rows :
  forall out,
    snd (scan_reach se sheet ctx out rows) = None ->
    fst (scan_reach se sheet ctx out rows) = length rows.
Proof.
  induction rows as [|r rows IH]; intros out;
    cbn [scan_reach length]; unfold one_more;
    [reflexivity|].
  destruct (row_read_error sheet r); [discriminate|].
  destruct (row_accepted sheet r).
  - destruct (row_write_error se ctx sheet r out); [discriminate|].
    cbn [fst snd]. intros H. rewrite IH by exact H. reflexivity.
  - cbn [fst snd]. intros H. rewrite IH by exact H. reflexivity.
Qed.

(** A row loop that an exception ends stops at the row whose read or
    whose assignment raises it; the assignment is into the output row past
    the rows written before. *)
Lemma scan_reach_break se sheet ctx rows :
  forall out e,
    snd (scan_reach se sheet ctx out rows) = Some e ->
    exists r,
      rows !! fst (scan_reach se sheet ctx out rows) = Some r
      /\ (row_read_error sheet r = Some e
          \/ (row_read_error sheet r = None
              /\ row_accepted sheet r = true
              /\ row_write_error se ctx sheet r
                   (out
                    + Z.of_nat
                        (length
                           (List.filter (row_accepted sheet)
                              (take (fst (scan_reach se sheet ctx out rows))
                                 rows))))
                 = Some e)).
Proof.
  induction rows as [|r rows IH]; intros out e; cbn [scan_reach];
    unfold one_more; [discriminate|].
  destruct (row_read_error sheet r) as [e'|] eqn:Hread.
  { cbn [fst snd]. intros [= ->]. exists r. split; [reflexivity|]. auto. }
  destruct (row_accepted sheet r) eqn:Hacc.
  - destruct (row_write_error se ctx sheet r out) as [e'|] eqn:Hwrite.
    + cbn [fst snd take List.filter length]. intros [= ->].
      exists r. split; [reflexivity|]. right.
      rewrite Z.add_0_r. auto.
    + cbn [fst snd]. intros H.
      destruct (IH _ _ H) as (r' & Hr' & Hbreak).
      exists r'. split; [exact Hr'|].
      cbn [take List.filter]. rewrite Hacc. cbn [length].
      replace (out + Z.of_nat (S (length
                 (List.filter (row_accepted sheet)
                    (take (fst (scan_reach se sheet ctx (out + 1) rows))
                       rows)))))
        with (out + 1 + Z.of_nat (length
                 (List.filter (row_accepted sheet)
                    (take (fst (scan_reach se sheet ctx (out + 1) rows))
                       rows)))) by lia.
      exact Hbreak.
  - cbn [fst snd]. intros H.
    destruct (IH _ _ H) as (r' & Hr' & Hbreak).
    exists r'. split; [exact Hr'|].
    cbn [take List.filter]. rewrite Hacc. exact Hbreak.
Qed.

(** The row loop: it ends as [scan_reach] says, has written the rows it
    completed that satisfy both conditions, has logged [row_log], and,
    when no exception ends it, leaves the flags that tell whether a row
    had data and whether a row was written. *)
Lemma scan_rows_spec se filename sheet ctx rows :
  forall a,
    exists a',
      scan_rows se sheet ctx rows a
      = (a', snd (scan_reach se sheet ctx
                    (current_output_row (scan_state a)) rows))
      /\ effect (scan_state a) (scan_state a')
           (map (source_of filename sheet ctx)
              (List.filter (row_accepted sheet)
                 (take (fst (scan_reach se sheet ctx
                               (current_output_row (scan_state a)) rows))
                    rows)))
           (row_log se sheet ctx (current_output_row (scan_state a)) rows) 0
      /\ (snd (scan_reach se sheet ctx
                 (current_output_row (scan_state a)) rows) = None ->
          data_found_in_block a'
          = data_found_in_block a || existsb (row_has_data sheet) rows
          /\ file_had_valid_data a'
             = file_had_valid_data a || existsb (row_accepted sheet) rows).
Proof.
  induction rows as [|r rows IH]; intros a.
  - exists a. split; [reflexivity|]. split; [apply effect_refl|].
    intros _. cbn [existsb]. rewrite !orb_false_r. auto.
  - pose proof (scan_row_spec se filename sheet ctx a r) as Hrow.
    assert (row_accepted sheet r
            = row_has_data sheet r
              && is_valid_numeric (cell sheet r 9) (cell sheet r 10)) as Hacc
      by reflexivity.
    cbn [scan_rows scan_reach row_log existsb]; unfold one_more.
    destruct (row_read_error sheet r) as [e|].
    { rewrite Hrow. exists a. split; [reflexivity|].
      split; [apply effect_refl|discriminate]. }
    destruct (row_has_data sheet r) eqn:Hdata;
      [destruct (is_valid_numeric (cell sheet r 9) (cell sheet r 10)) eqn:Hnum|];
      cbn [andb] in Hacc; rewrite Hacc.
    + destruct Hrow as (st' & -> & Heff).
      destruct (row_write_error se ctx sheet r
                  (current_output_row (scan_state a))) as [e|].
      { eexists. split; [reflexivity|].
        split; [exact Heff|discriminate]. }
      set (a1 := {| data_found_in_block := true;
                    file_had_valid_data := true;
                    scan_state := st' |}).
      destruct (IH a1) as (a' & Hscan & Heff' & Hflags).
      assert (current_output_row (scan_state a1)
              = current_output_row (scan_state a) + 1) as Hc.
      { unfold a1. cbn [scan_state].
        rewrite (eff_cursor _ _ _ _ _ Heff). reflexivity. }
      rewrite Hc in Hscan, Heff', Hflags.
      exists a'. split; [exact Hscan|]. split.
      * cbn [fst snd take List.filter map]. rewrite Hacc. cbn [map].
        eapply effect_eq;
          [eapply effect_trans; [exact Heff|exact Heff']|reflexivity..].
      * cbn [snd]. intros H. destruct (Hflags H) as [-> ->].
        cbn [a1 data_found_in_block file_had_valid_data orb].
        rewrite !orb_true_r. auto.
    + rewrite Hrow.
      set (a1 := {| data_found_in_block := true;
                    file_had_valid_data := file_had_valid_data a;
                    scan_state :=
                      logging WARNING
                        (RowSkipped r (cell sheet r 9) (cell sheet r 10))
                        (scan_state a) |}).
      destruct (IH a1) as (a' & Hscan & Heff' & Hflags).
      change (current_output_row (scan_state a1))
        with (current_output_row (scan_state a)) in *.
      exists a'. split; [exact Hscan|]. split.
      * cbn [fst snd take List.filter map]. rewrite Hacc.
        eapply effect_eq;
          [eapply effect_trans; [apply effect_logging|exact Heff']
          |reflexivity..].
      * cbn [snd]. intros H. destruct (Hflags H) as [-> ->].
        cbn [a1 data_found_in_block file_had_valid_data orb].
        rewrite !orb_true_r. auto.
    + rewrite Hrow.
      destruct (IH a) as (a' & Hscan & Heff' & Hflags).
      exists a'. split; [exact Hscan|]. split.
      * cbn [fst snd take List.filter map]. rewrite Hacc. exact Heff'.
      * cbn [snd]. intros H. destruct (Hflags H) as [-> ->].
        cbn [orb]. auto.
Qed.

Lemma prep_etd_str_kinds text :
  Forall (fun e => etd_message (snd e) = true) (fst (prep_etd (PStr text)))
  /\ (fst (snd (prep_etd (PStr text))) = PNone
      \/ exists date ba, snd (prep_etd (PStr text)) = (PStr date, PStr ba)).
Proof.
  unfold prep_etd. destruct (etd_search text) as [[m rest]|].
  - unfold convert_match. destruct (Datetime.strptime _); simpl.
    + split; [constructor|]. right. eauto.
    + split; [repeat constructor|]. left. reflexivity.
  - simpl. split; [repeat constructor|]. left. reflexivity.
Qed.

Lemma zipfile_unbound : name_bound "zipfile" = false.
Proof. reflexivity. Qed.

Lemma last_cons_is_Some {A} (x : A) (l : list A) : is_Some (last (x :: l)).
Proof.
  revert x. induction l as [|y l IH]; intros x; simpl; [eauto|].
  apply (IH y).
Qed.

Lemma length_written_of filename res :
  length (written_of (filename, res)) = length (rows_of res).
Proof.
  destruct res as [raised|sheet ctx n raised]; [reflexivity|].
  unfold written_of. cbn [snd fst]. apply length_map.
Qed.

(** The warnings after a row loop that ran to its end. *)
Lemma block_summary_spec filename sheet rows a :
  data_found_in_block a = existsb (row_has_data sheet) rows ->
  file_had_valid_data a = existsb (row_accepted sheet) rows ->
  effect (scan_state a) (block_summary filename a) []
    (summary_log filename sheet rows) 0.
Proof.
  intros Hd Hv. unfold block_summary, summary_log. rewrite Hd, Hv.
  destruct (existsb (row_has_data sheet) rows); cbn [negb andb];
    [destruct (existsb (row_accepted sheet) rows); cbn [negb andb]|];
    try apply effect_refl; apply effect_logging.
Qed.

Section Batch.

(** The input directory, the template and [str] on other objects, as in
    [Script]. *)
Variable lw : pystr -> exn + workbook.
Variable se : string * Z -> pyval -> option exn.
Variable so : pyval -> pystr.

Lemma extract_etd_ba_closed etd_data st :
  extract_etd_ba so etd_data st
  = (logging_all (etd_log so etd_data) st, etd_ba_of so etd_data).
Proof.
  assert (forall v st0,
             (let '(warnings, (ETD, BA)) := prep_etd v in
              let st := logging_all warnings st0 in
              let st :=
                if negb (is_not_None ETD) && negb (is_not_None BA) then
                  logging WARNING (EtdBaFailed etd_data) st
                else if negb (is_not_None ETD) then
                  logging WARNING (EtdFailed etd_data BA) st
                else if negb (is_not_None BA) then
                  logging WARNING (BaFailed etd_data ETD) st
                else st in
              (st, (ETD, BA)))
             = (logging_all
                  (fst (prep_etd v)
                   ++ (if negb (is_not_None (fst (snd (prep_etd v))))
                          && negb (is_not_None (snd (snd (prep_etd v))))
                       then [(WARNING, EtdBaFailed etd_data)]
                       else if negb (is_not_None (fst (snd (prep_etd v))))
                       then [(WARNING,
                              EtdFailed etd_data (snd (snd (prep_etd v))))]
                       else if negb (is_not_None (snd (snd (prep_etd v))))
                       then [(WARNING,
                              BaFailed etd_data (fst (snd (prep_etd v))))]
                       else [])) st0,
                snd (prep_etd v))) as Hcommon.
  { intros v st0. destruct (prep_etd v) as [warnings [E B]].
    cbn [fst snd].
    destruct (negb (is_not_None E) && negb (is_not_None B));
      [|destruct (negb (is_not_None E));
        [|destruct (negb (is_not_None B))]];
      cbv zeta; rewrite ?logging_as_all, ?logging_all_all, ?app_nil_r;
      reflexivity. }
  unfold etd_log.
  destruct etd_data;
    try (unfold extract_etd_ba, etd_ba_of; rewrite !Hcommon;
         cbn [fst snd log logging_all initial_state app]; reflexivity).
  reflexivity.
Qed.

(** The [try] suite of one file, by what becomes of the file. *)
Lemma try_suite_spec filename st :
  exists st',
    try_suite lw se so filename st
    = (st', raised_in (file_result_of lw se so filename
                         (current_output_row st)))
    /\ effect st st'
         (written_of
            (filename,
             file_result_of lw se so filename (current_output_row st)))
         (try_log lw se so filename (current_output_row st))
         (if processed (file_result_of lw se so filename
                          (current_output_row st))
          then 1 else 0).
Proof.
  unfold try_suite, file_result_of, try_log.
  destruct (lw filename) as [e|wb].
  { exists st. split; [reflexivity|apply effect_refl]. }
  unfold context_of, sheetnames, getitem.
  destruct (worksheets wb) as [|sheet others] eqn:Hws; cbn [map find].
  { eexists. split; [reflexivity|apply effect_logging]. }
  rewrite bool_decide_eq_true_2 by reflexivity.
  destruct (last_cons_is_Some (title sheet) (map title others))
    as [order_no Hlast].
  rewrite Hlast. cbn [default from_option id]. unfold read_cell.
  set (st1 := logging INFO (UsingFirstSheet filename (title sheet)) st).
  destruct (read_error sheet 11 9) as [e|].
  { exists st1. split; [reflexivity|apply effect_logging]. }
  destruct (read_error sheet 22 1) as [e|].
  { exists st1. split; [reflexivity|apply effect_logging]. }
  rewrite extract_etd_ba_closed.
  destruct (etd_ba_of so (cell sheet 11 9)) as [E B]. cbn [fst snd].
  set (ctx := {| ETD := E; BA := B; ORDER_NO := PStr order_no;
                 REMARK := cell sheet 22 1 |}).
  cbn [ORDER_NO REMARK].
  unfold written_of. cbn [snd fst rows_of processed raised_in].
  change (range DATA_BLOCK_START_ROW (DATA_BLOCK_END_ROW + 1)) with data_block.
  generalize data_block. intros rows.
  set (st2 := logging INFO (CommonData (PStr order_no) (cell sheet 22 1))
                (logging_all (etd_log so (cell sheet 11 9)) st1)).
  set (a0 := {| data_found_in_block := false;
                file_had_valid_data := false;
                scan_state := st2 |}).
  assert (effect st st2 []
            ((INFO, UsingFirstSheet filename (title sheet))
             :: etd_log so (cell sheet 11 9)
             ++ [(INFO, CommonData (PStr order_no) (cell sheet 22 1))]) 0)
    as H1.
  { eapply effect_eq;
      [eapply effect_trans;
       [apply effect_logging
       |eapply effect_trans; [apply effect_logging_all|apply effect_logging]]
      |reflexivity..]. }
  destruct (scan_rows_spec se filename sheet ctx rows a0)
    as (a' & Hscan & Heff & Hflags).
  change (current_output_row (scan_state a0)) with (current_output_row st)
    in Hscan, Heff, Hflags.
  change (scan_state a0) with st2 in Heff.
  rewrite Hscan.
  destruct (snd (scan_reach se sheet ctx (current_output_row st) rows))
    as [e|] eqn:Hend.
  - exists (scan_state a'). split; [reflexivity|].
    eapply effect_eq; [eapply effect_trans; [exact H1|exact Heff]| | |].
    + reflexivity.
    + cbn [app]. rewrite <- !app_assoc, app_nil_r. reflexivity.
    + reflexivity.
  - exists (count_processed (block_summary filename a')).
    split; [reflexivity|].
    destruct (Hflags eq_refl) as [Hd Hv]. cbn [a0 data_found_in_block
      file_had_valid_data orb] in Hd, Hv.
    pose proof (block_summary_spec filename sheet rows a' Hd Hv) as H3.
    pose proof (effect_count_processed (block_summary filename a')) as H4.
    eapply effect_eq;
      [exact (effect_trans _ _ _ _ _ _ _ _ _ H1
                (effect_trans _ _ _ _ _ _ _ _ _ Heff
                   (effect_trans _ _ _ _ _ _ _ _ _ H3 H4)))| | |].
    + cbn [app]. rewrite !app_nil_r. reflexivity.
    + cbn [app]. rewrite <- !app_assoc, !app_nil_r. reflexivity.
    + reflexivity.
Qed.

(** The [except] clauses: [FileNotFoundError] and [KeyError] are logged
    and the loop goes on; any other exception reaches the clause that
    names [zipfile], and [NameError] leaves the loop. *)
Lemma except_clauses_spec filename e st :
  except_clauses filename e st
  = (logging_all (handler_log filename (Some e)) st,
     if handled e then None else Some (NameError "zipfile"))
  \/ (handled e = false
      /\ except_clauses filename e st = (st, Some (NameError "zipfile"))).
Proof.
  destruct e; cbn [except_clauses handled handler_log];
    rewrite ?zipfile_unbound; auto.
Qed.

(** What one pass of the loop body does, by what becomes of the file. *)
Lemma process_file_spec filename st :
  exists st',
    process_file lw se so filename st
    = (st', escapes (file_result_of lw se so filename
                       (current_output_row st)))
    /\ effect st st'
         (written_of
            (filename,
             file_result_of lw se so filename (current_output_row st)))
         (file_log lw se so filename (current_output_row st))
         (if processed (file_result_of lw se so filename
                          (current_output_row st))
          then 1 else 0).
Proof.
  unfold process_file, file_log, escapes.
  set (st0 := logging INFO (FileStart filename) st).
  destruct (try_suite_spec filename st0) as (st1 & Htry & Heff).
  change (current_output_row st0) with (current_output_row st) in Htry, Heff.
  rewrite Htry.
  pose proof (effect_logging INFO (FileStart filename) st) as Hstart.
  fold st0 in Hstart.
  generalize dependent (file_result_of lw se so filename
                          (current_output_row st)).
  generalize (try_log lw se so filename (current_output_row st)).
  intros es res Htry Heff.
  destruct (raised_in res) as [e|].
  - destruct (except_clauses_spec filename e st1) as [->|[Hh ->]].
    + eexists. split; [reflexivity|].
      eapply effect_eq;
        [exact (effect_trans _ _ _ _ _ _ _ _ _ Hstart
                  (effect_trans _ _ _ _ _ _ _ _ _ Heff
                     (effect_logging_all _ _)))| | |].
      * cbn [app]. rewrite app_nil_r. reflexivity.
      * reflexivity.
      * lia.
    + rewrite Hh. exists st1. split; [reflexivity|].
      eapply effect_eq;
        [exact (effect_trans _ _ _ _ _ _ _ _ _ Hstart Heff)| | |].
      * reflexivity.
      * destruct e; try discriminate; cbn [handler_log app];
          rewrite app_nil_r; reflexivity.
      * lia.
  - exists st1. split; [reflexivity|].
    eapply effect_eq;
      [exact (effect_trans _ _ _ _ _ _ _ _ _ Hstart Heff)| | |].
    + reflexivity.
    + cbn [handler_log app]. rewrite app_nil_r. reflexivity.
    + lia.
Qed.

(** The loop over the files, by what becomes of each. *)
Lemma batch_loop_spec filenames :
  forall st,
    effect st (fst (batch_loop lw se so filenames st))
      (written_rows (file_results lw se so filenames (current_output_row st)))
      (batch_log lw se so filenames (current_output_row st))
      (Z.of_nat
         (length
            (processed_files
               (file_results lw se so filenames (current_output_row st)))))
    /\ snd (batch_loop lw se so filenames st)
       = escaping (file_results lw se so filenames (current_output_row st)).
Proof.
  induction filenames as [|filename rest IH]; intros st.
  - split; [apply effect_refl|reflexivity].
  - destruct (process_file_spec filename st) as (st' & Hf & Heff).
    cbn [batch_loop file_results batch_log]. rewrite Hf. cbv zeta.
    pose proof (eff_cursor _ _ _ _ _ Heff) as Hc.
    rewrite length_written_of in Hc.
    generalize dependent (file_log lw se so filename (current_output_row st)).
    generalize dependent (file_result_of lw se so filename
                            (current_output_row st)).
    intros res Hf Hc es Heff.
    unfold written_rows, processed_files.
    cbn [flat_map List.filter escaping snd].
    destruct (escapes res) as [e|] eqn:Hesc.
    + cbn [fst snd flat_map List.filter escaping]. split; [|reflexivity].
      eapply effect_eq; [exact Heff| | |].
      * rewrite app_nil_r. reflexivity.
      * rewrite app_nil_r. reflexivity.
      * destruct (processed res); reflexivity.
    + rewrite <- Hc. destruct (IH st') as [Hrest Hend].
      split; [|exact Hend].
      eapply effect_eq;
        [exact (effect_trans _ _ _ _ _ _ _ _ _ Heff Hrest)| | |].
      * reflexivity.
      * reflexivity.
      * unfold processed_files. destruct (processed res); cbn [length]; lia.
Qed.

Lemma batch_loop_app files1 files2 st :
  batch_loop lw se so (files1 ++ files2) st
  = match batch_loop lw se so files1 st with
    | (st', None) => batch_loop lw se so files2 st'
    | (st', Some e) => (st', Some e)
    end.
Proof.
  revert st. induction files1 as [|filename rest IH]; intros st; simpl.
  - reflexivity.
  - destruct (process_file lw se so filename st) as [st' [e|]]; [reflexivity|].
    apply IH.
Qed.

End Batch.

(** ** Sorting the file names *)

Lemma str_le_refl a : str_le a a = true.
Proof.
  induction a as [|x a IH]; simpl; [reflexivity|].
  rewrite N.ltb_irrefl, N.eqb_refl. exact IH.
Qed.

Lemma str_le_total a : forall b, str_le a b = false -> str_le b a = true.
Proof.
  induction a as [|x a IH]; intros [|y b]; simpl; try discriminate;
    try reflexivity.
  destruct (N.ltb_spec x y); [discriminate|].
  destruct (N.eqb_spec x y) as [->|Hne].
  - rewrite N.ltb_irrefl, N.eqb_refl. apply IH.
  - intros _. destruct (N.ltb_spec y x); [reflexivity|lia].
Qed.

Lemma str_le_trans a : forall b c,
  str_le a b = true -> str_le b c = true -> str_le a c = true.
Proof.
  induction a as [|x a IH]; intros [|y b] [|z c]; simpl; try discriminate;
    try reflexivity.
  destruct (N.ltb_spec x y), (N.ltb_spec y z), (N.ltb_spec x z);
    try reflexivity; try lia;
    destruct (N.eqb_spec x y), (N.eqb_spec y z), (N.eqb_spec x z);
    try discriminate; try lia.
  apply IH.
Qed.

Lemma str_le_antisym a : forall b,
  str_le a b = true -> str_le b a = true -> a = b.
Proof.
  induction a as [|x a IH]; intros [|y b]; simpl; try discriminate;
    try reflexivity.
  destruct (N.ltb_spec x y), (N.ltb_spec y x); try lia; try discriminate.
  - destruct (N.eqb_spec y x); [lia|discriminate].
  - destruct (N.eqb_spec x y); [lia|discriminate].
  - destruct (N.eqb_spec x y) as [->|]; [|discriminate].
    rewrite N.eqb_refl. intros H1 H2. f_equal. apply IH; assumption.
Qed.

Lemma insert_sorted_perm x l : insert_sorted x l ≡ₚ x :: l.
Proof.
  induction l as [|y l IH]; simpl; [reflexivity|].
  destruct (str_le x y); [reflexivity|].
  rewrite IH. apply Permutation_swap.
Qed.

Lemma sorted_perm l : sorted l ≡ₚ l.
Proof.
  induction l as [|x l IH]; simpl; [reflexivity|].
  rewrite insert_sorted_perm, IH. reflexivity.
Qed.

Lemma insert_sorted_Sorted x l :
  Sorted name_le l -> Sorted name_le (insert_sorted x l).
Proof.
  induction 1 as [|y l Hl IH Hhd]; simpl.
  - repeat constructor.
  - destruct (str_le x y) eqn:E.
    + constructor; [constructor; assumption|constructor; exact E].
    + constructor; [exact IH|].
      apply str_le_total in E.
      destruct Hhd as [|z l Hyz]; simpl.
      * constructor. exact E.
      * destruct (str_le x z); constructor; assumption.
Qed.

Lemma sorted_Sorted l : Sorted name_le (sorted l).
Proof.
  induction l as [|x l IH]; simpl; [constructor|].
  apply insert_sorted_Sorted, IH.
Qed.

Lemma sorted_StronglySorted l : StronglySorted name_le (sorted l).
Proof.
  apply Sorted.Sorted_StronglySorted; [|apply sorted_Sorted].
  intros a b c. apply str_le_trans.
Qed.

(** ** Ascending rows *)

Lemma StronglySorted_seqZ m n : StronglySorted Z.lt (seqZ m n).
Proof.
  remember (Z.to_nat n) as k eqn:Hk. revert m n Hk.
  induction k as [|k IH]; intros m n Hk.
  - rewrite seqZ_nil by lia. constructor.
  - rewrite seqZ_cons by lia. apply StronglySorted_cons. split.
    + apply Forall_seqZ. intros m' Hm'. lia.
    + apply IH. lia.
Qed.

Lemma StronglySorted_filter {A} (R : A -> A -> Prop) (f : A -> bool) l :
  StronglySorted R l -> StronglySorted R (List.filter f l).
Proof.
  induction 1 as [|x l Hl IH Hx]; simpl; [constructor|].
  destruct (f x); [|exact IH].
  constructor; [exact IH|].
  rewrite List.Forall_forall in *. intros y Hy.
  apply filter_In in Hy as [Hy _]. auto.
Qed.

Lemma accepted_rows_ascending sheet : StronglySorted Z.lt (accepted_rows sheet).
Proof. apply StronglySorted_filter, StronglySorted_seqZ. Qed.

(** ** The order of the expected rows *)

Lemma StronglySorted_strict l :
  StronglySorted name_le l -> NoDup l ->
  StronglySorted (fun a b => name_le a b /\ a <> b) l.
Proof.
  induction 1 as [|x l Hl IH Hx]; intros Hnd; [constructor|].
  apply NoDup_cons in Hnd as [Hnotin Hnd].
  constructor; [auto|].
  rewrite List.Forall_forall in *. intros y Hy. split; [auto|].
  intros ->. apply Hnotin, list_elem_of_In, Hy.
Qed.

Lemma source_rows_sorted filename sheet ctx rows :
  StronglySorted Z.lt rows ->
  StronglySorted row_before (map (source_of filename sheet ctx) rows).
Proof.
  induction 1 as [|r rows Hl IH Hr]; simpl; constructor; [exact IH|].
  rewrite List.Forall_forall in *. intros y Hy.
  apply in_map_iff in Hy as (r' & <- & Hr').
  split; simpl; [apply str_le_refl|]. intros _. auto.
Qed.
(** ** The files that are started and the rows that are written *)

Lemma rows_of_ascending res : StronglySorted Z.lt (rows_of res).
Proof.
  destruct res as [raised|sheet ctx n raised]; [constructor|].
  cbn [rows_of]. apply StronglySorted_filter.
  apply (StronglySorted_app_1_l _ _ (drop n data_block)).
  rewrite take_drop. apply StronglySorted_seqZ.
Qed.

Lemma rows_of_prefix sheet ctx n raised :
  rows_of (Scanned sheet ctx n raised) `prefix_of` accepted_rows sheet.
Proof.
  cbn [rows_of]. unfold accepted_rows. fold data_block.
  exists (List.filter (row_accepted sheet) (drop n data_block)).
  rewrite <- List.filter_app, take_drop. reflexivity.
Qed.

Lemma In_data_block r :
  In r data_block <-> DATA_BLOCK_START_ROW <= r <= DATA_BLOCK_END_ROW.
Proof.
  unfold data_block, range.
  rewrite <- list_elem_of_In, elem_of_seqZ.
  unfold DATA_BLOCK_START_ROW, DATA_BLOCK_END_ROW. lia.
Qed.

Lemma length_data_block : length data_block = 982%nat.
Proof. unfold data_block, range. rewrite length_seqZ. reflexivity. Qed.

Lemma elem_of_accepted_rows sheet r :
  In r (accepted_rows sheet)
  <-> DATA_BLOCK_START_ROW <= r <= DATA_BLOCK_END_ROW
      /\ has_data (cell sheet r 7) (cell sheet r 8) (cell sheet r 9)
           (cell sheet r 10) = true
      /\ is_valid_numeric (cell sheet r 9) (cell sheet r 10) = true.
Proof.
  unfold accepted_rows, range, row_accepted.
  rewrite filter_In, <- list_elem_of_In, elem_of_seqZ, andb_true_iff.
  unfold DATA_BLOCK_START_ROW, DATA_BLOCK_END_ROW. intuition lia.
Qed.

Lemma written_rows_sorted (results : list (pystr * file_result)) :
  StronglySorted (fun a b => name_le a b /\ a <> b) (map fst results) ->
  StronglySorted row_before (written_rows results).
Proof.
  induction results as [|[filename res] results IH]; cbn [map fst];
    intros H; [constructor|].
  apply StronglySorted_cons in H as [Hx Hl].
  unfold written_rows. cbn [flat_map].
  apply StronglySorted_app. split; [|split; [|exact (IH Hl)]].
  - intros x y Hx' Hy. apply list_elem_of_In in Hx', Hy.
    apply in_flat_map in Hy as ([filename' res'] & Hq & Hy).
    unfold row_before.
    assert (from_file x = filename) as ->.
    { unfold written_of in Hx'. cbn [snd fst] in Hx'.
      destruct res; [destruct Hx'|].
      apply in_map_iff in Hx' as (r & <- & _). reflexivity. }
    assert (from_file y = filename') as ->.
    { unfold written_of in Hy. cbn [snd fst] in Hy.
      destruct res'; [destruct Hy|].
      apply in_map_iff in Hy as (r & <- & _). reflexivity. }
    rewrite List.Forall_forall in Hx.
    destruct (Hx filename') as [Hle Hne].
    { apply in_map_iff. exists (filename', res'). auto. }
    split; [exact Hle|]. intros Heq. contradiction.
  - unfold written_of. cbn [snd fst].
    destruct res as [raised|sheet ctx n raised]; [constructor|].
    apply source_rows_sorted, rows_of_ascending.
Qed.

Lemma kinds_not_started (P : message -> bool) (l : list entry) :
  (forall filename, P (FileStart filename) = false) ->
  Forall (fun e => P (snd e) = true) l ->
  files_started l = [].
Proof.
  intros HP. induction 1 as [|[lv msg] l Hmsg Hl IH]; [reflexivity|].
  cbn [files_started]. cbn [snd] in Hmsg.
  destruct msg; try exact IH. rewrite HP in Hmsg. discriminate.
Qed.

Lemma etd_log_kinds so etd_data :
  Forall (fun e => etd_message (snd e) = true) (etd_log so etd_data).
Proof.
  assert (forall text,
             Forall (fun e => etd_message (snd e) = true)
               (log (fst (let '(warnings, (ETD, BA)) := prep_etd (PStr text) in
                          let st := logging_all warnings (initial_state ∅) in
                          let st :=
                            if negb (is_not_None ETD) && negb (is_not_None BA)
                            then logging WARNING (EtdBaFailed etd_data) st
                            else if negb (is_not_None ETD) then
                              logging WARNING (EtdFailed etd_data BA) st
                            else if negb (is_not_None BA) then
                              logging WARNING (BaFailed etd_data ETD) st
                            else st in
                          (st, (ETD, BA)))))) as Hcommon.
  { intros text. destruct (prep_etd_str_kinds text) as [Hk Hr].
    destruct (prep_etd (PStr text)) as [warnings [E B]]. simpl in Hk, Hr.
    destruct Hr as [->|(date & ba & [= -> ->])]; simpl.
    - destruct B; simpl; apply Forall_app; split;
        try exact Hk; repeat constructor.
    - exact Hk. }
  unfold etd_log, extract_etd_ba.
  destruct etd_data; try apply Hcommon.
  simpl. repeat constructor.
Qed.

Lemma row_log_kinds se sheet ctx rows :
  forall out,
    Forall (fun e => row_message (snd e) = true)
      (row_log se sheet ctx out rows).
Proof.
  induction rows as [|r rows IH]; intros out; cbn [row_log]; [constructor|].
  destruct (row_read_error sheet r); [constructor|].
  destruct (row_has_data sheet r); [|apply IH].
  destruct (is_valid_numeric _ _); constructor; auto.
  destruct (row_write_error se ctx sheet r out); [constructor|apply IH].
Qed.

Lemma summary_log_kinds filename sheet rows :
  Forall (fun e => summary_message (snd e) = true)
    (summary_log filename sheet rows).
Proof.
  unfold summary_log.
  destruct (negb _); [repeat constructor|].
  destruct (negb _); repeat constructor.
Qed.

(** The entries of the [try] suite, by kind. *)
Lemma try_log_kinds lw se so filename out :
  Forall (fun e => try_message (snd e) = true)
    (try_log lw se so filename out).
Proof.
  unfold try_log.
  destruct (lw filename) as [e|wb]; [constructor|].
  destruct (worksheets wb) as [|sheet others]; [repeat constructor|].
  constructor; [reflexivity|].
  destruct (read_error sheet 11 9); [constructor|].
  destruct (read_error sheet 22 1); [constructor|].
  cbv zeta. rewrite !Forall_app.
  split; [|split; [repeat constructor|split]].
  - eapply Forall_impl; [apply etd_log_kinds|].
    intros [lv msg]. cbn [snd]. destruct msg; (discriminate || reflexivity).
  - eapply Forall_impl; [apply row_log_kinds|].
    intros [lv msg]. cbn [snd]. destruct msg; (discriminate || reflexivity).
  - destruct (snd (scan_reach _ _ _ _ _)); [constructor|].
    eapply Forall_impl; [apply summary_log_kinds|].
    intros [lv msg]. cbn [snd]. destruct msg; (discriminate || reflexivity).
Qed.

Lemma files_started_file_log lw se so filename out :
  files_started (file_log lw se so filename out) = [filename].
Proof.
  unfold file_log. cbn [files_started]. f_equal.
  rewrite files_started_app.
  rewrite (kinds_not_started try_message _ (fun _ => eq_refl)
             (try_log_kinds lw se so filename out)).
  destruct (raised_in _) as [e|]; [destruct e|]; reflexivity.
Qed.

Lemma kinds_not_written (P : message -> bool) (l : list entry) :
  (forall r out, P (RowWritten r out) = false) ->
  Forall (fun e => P (snd e) = true) l ->
  rows_written l = [].
Proof.
  intros HP. induction 1 as [|[lv msg] l Hmsg Hl IH]; [reflexivity|].
  cbn [rows_written]. cbn [snd] in Hmsg.
  destruct msg; try exact IH. rewrite HP in Hmsg. discriminate.
Qed.

(** The rows the row loop logs by line 193: the rows it writes, with
    their output rows, and after them the row whose assignment raised. *)
Lemma rows_written_row_log se sheet ctx rows :
  forall out,
    rows_written (row_log se sheet ctx out rows)
    = numbered out
        (List.filter (row_accepted sheet)
           (take (fst (scan_reach se sheet ctx out rows)) rows))
      ++ match snd (scan_reach se sheet ctx out rows) with
         | Some _ =>
             match rows !! fst (scan_reach se sheet ctx out rows) with
             | Some r =>
                 match row_read_error sheet r with
                 | None =>
                     [(r,
                       out
                       + Z.of_nat
                           (length
                              (List.filter (row_accepted sheet)
                                 (take
                                    (fst (scan_reach se sheet ctx out rows))
                                    rows))))]
                 | Some _ => []
                 end
             | None => []
             end
         | None => []
         end.
Proof.
  induction rows as [|r rows IH]; intros out;
    cbn [row_log scan_reach]; unfold one_more; [reflexivity|].
  assert (row_accepted sheet r
          = row_has_data sheet r
            && is_valid_numeric (cell sheet r 9) (cell sheet r 10)) as Hacc
    by reflexivity.
  destruct (row_read_error sheet r) as [e|] eqn:Hread.
  { cbn [fst snd take List.filter numbered lookup list_lookup app
           rows_written].
    rewrite Hread. reflexivity. }
  destruct (row_has_data sheet r);
    [destruct (is_valid_numeric (cell sheet r 9) (cell sheet r 10))|];
    cbn [andb] in Hacc; rewrite Hacc.
  - cbn [rows_written].
    destruct (row_write_error se ctx sheet r out) as [e|].
    + cbn [fst snd take List.filter numbered lookup list_lookup app
             rows_written length].
      rewrite Hread, Z.add_0_r. reflexivity.
    + cbn [fst snd take List.filter lookup list_lookup].
      rewrite Hacc. cbn [numbered app length]. rewrite IH. f_equal. f_equal.
      destruct (snd (scan_reach se sheet ctx (out + 1) rows));
        [|reflexivity].
      destruct (rows !! fst (scan_reach se sheet ctx (out + 1) rows))
        as [r'|]; [|reflexivity].
      destruct (row_read_error sheet r'); [reflexivity|].
      do 2 f_equal. lia.
  - cbn [rows_written fst snd take List.filter lookup list_lookup].
    rewrite Hacc. apply IH.
  - cbn [fst snd take List.filter lookup list_lookup].
    rewrite Hacc. apply IH.
Qed.

Lemma rows_written_file_log lw se so filename out :
  rows_written (file_log lw se so filename out)
  = numbered out (rows_of (file_result_of lw se so filename out))
    ++ attempt_of (file_result_of lw se so filename out)
         (out
          + Z.of_nat (length (rows_of (file_result_of lw se so filename out)))).
Proof.
  unfold file_log. cbn [rows_written]. rewrite rows_written_app.
  replace (rows_written (handler_log filename _)) with (@nil (Z * Z))
    by (destruct (raised_in _) as [e|]; [destruct e|]; reflexivity).
  rewrite app_nil_r.
  unfold try_log, file_result_of, attempt_of, rows_of.
  generalize data_block. intros rows.
  destruct (lw filename) as [e|wb]; [reflexivity|].
  destruct (worksheets wb) as [|sheet others]; [reflexivity|].
  cbn [rows_written].
  destruct (read_error sheet 11 9); [reflexivity|].
  destruct (read_error sheet 22 1); [reflexivity|].
  cbv zeta. rewrite !rows_written_app.
  rewrite (kinds_not_written etd_message _ (fun _ _ => eq_refl)
             (etd_log_kinds so (cell sheet 11 9))).
  rewrite rows_written_row_log. cbn [rows_written app].
  replace (rows_written
             match snd (scan_reach se sheet (context_of so wb sheet) out rows)
             with
             | Some _ => []
             | None => summary_log filename sheet rows
             end) with (@nil (Z * Z)); [apply app_nil_r|].
  destruct (snd (scan_reach _ _ _ _ _)); [reflexivity|].
  symmetry.
  apply (kinds_not_written summary_message _ (fun _ _ => eq_refl)
           (summary_log_kinds filename sheet rows)).
Qed.

Section Order.

(** The input directory, the template and [str] on other objects, as in
    [Script]. *)
Variable lw : pystr -> exn + workbook.
Variable se : string * Z -> pyval -> option exn.
Variable so : pyval -> pystr.

Lemma file_results_prefix filenames :
  forall out,
    map fst (file_results lw se so filenames out) `prefix_of` filenames.
Proof.
  induction filenames as [|filename rest IH]; intros out;
    cbn [file_results map fst]; [reflexivity|].
  destruct (escapes _); cbn [map].
  - exists rest. reflexivity.
  - apply prefix_cons, IH.
Qed.

Lemma files_started_batch_log filenames :
  forall out,
    files_started (batch_log lw se so filenames out)
    = map fst (file_results lw se so filenames out).
Proof.
  induction filenames as [|filename rest IH]; intros out;
    cbn [batch_log file_results map fst]; [reflexivity|].
  rewrite files_started_app, files_started_file_log. cbn [app]. f_equal.
  destruct (escapes _); [reflexivity|apply IH].
Qed.

Lemma rows_written_batch_log filenames :
  forall out,
    rows_written (batch_log lw se so filenames out)
    = logged_rows (file_results lw se so filenames out) out.
Proof.
  induction filenames as [|filename rest IH]; intros out;
    cbn [batch_log file_results logged_rows]; [reflexivity|].
  rewrite rows_written_app, rows_written_file_log, <- app_assoc. cbv zeta.
  do 2 f_equal.
  destruct (escapes _); [reflexivity|apply IH].
Qed.

(** A file that the loop met is one of the files, and what became of it
    is what [file_result_of] says for some cursor. *)
Lemma file_results_In filenames p :
  forall out,
    In p (file_results lw se so filenames out) ->
    In (fst p) filenames
    /\ exists out', out <= out'
                    /\ snd p = file_result_of lw se so (fst p) out'.
Proof.
  induction filenames as [|filename rest IH]; intros out;
    cbn [file_results]; [intros []|].
  intros [<-|H].
  - split; [left; reflexivity|]. exists out. split; [lia|reflexivity].
  - destruct (escapes _); [destruct H|].
    destruct (IH _ H) as [Hin (out' & Hle & Hres)].
    split; [right; exact Hin|]. exists out'. split; [lia|exact Hres].
Qed.

End Order.

(** A file that is processed to the end has all the rows of its block
    that satisfy both conditions written. *)
Lemma processed_rows_of se sheet ctx out :
  snd (scan_reach se sheet ctx out data_block) = None ->
  rows_of (Scanned sheet ctx (fst (scan_reach se sheet ctx out data_block))
             None)
  = accepted_rows sheet.
Proof.
  intros H. cbn [rows_of]. rewrite (scan_reach_complete _ _ _ _ _ H).
  rewrite firstn_all. reflexivity.
Qed.

(** ** The batch *)

Section Run.

(** The input directory, the template and [str] on other objects, as in
    [Script]. *)
Variable lw : pystr -> exn + workbook.
Variable se : string * Z -> pyval -> option exn.
Variable so : pyval -> pystr.

Lemma run_spec template input_files :
  effect (initial_state template) (fst (run lw se so template input_files))
    (written_rows (file_results lw se so (sorted input_files)
                     START_ROW_TEMPLATE))
    (batch_log lw se so (sorted input_files) START_ROW_TEMPLATE)
    (Z.of_nat
       (length
          (processed_files
             (file_results lw se so (sorted input_files)
                START_ROW_TEMPLATE))))
  /\ snd (run lw se so template input_files)
     = escaping (file_results lw se so (sorted input_files)
                   START_ROW_TEMPLATE).
Proof. apply (batch_loop_spec lw se so (sorted input_files)). Qed.

(** What [file_result_of] says of a file whose row loop is reached. *)
Lemma file_result_Scanned filename out sheet ctx n raised :
  file_result_of lw se so filename out = Scanned sheet ctx n raised ->
  exists wb others,
    lw filename = inr wb
    /\ worksheets wb = sheet :: others
    /\ read_error sheet 11 9 = None
    /\ read_error sheet 22 1 = None
    /\ ctx = context_of so wb sheet
    /\ n = fst (scan_reach se sheet ctx out data_block)
    /\ raised = snd (scan_reach se sheet ctx out data_block).
Proof.
  unfold file_result_of. generalize data_block. intros rows.
  destruct (lw filename) as [e|wb]; [discriminate|].
  destruct (worksheets wb) as [|sheet' others] eqn:Hws; [discriminate|].
  destruct (read_error sheet' 11 9) eqn:H1; [discriminate|].
  destruct (read_error sheet' 22 1) eqn:H2; [discriminate|].
  intros [= <- <- <- <-]. exists wb, others. auto 10.
Qed.

(** A file that raises before its row loop, or has no sheet, leaves the
    cursor and the whole sheet as they were; the loop goes on when the
    exception is one that is handled. *)
Lemma skipped_file_leaves_output filename st raised :
  file_result_of lw se so filename (current_output_row st)
  = NotScanned raised ->
  snd (process_file lw se so filename st)
  = match raised with
    | Some e => if handled e then None else Some (NameError "zipfile")
    | None => None
    end
  /\ current_output_row (fst (process_file lw se so filename st))
     = current_output_row st
  /\ template_sheet (fst (process_file lw se so filename st))
     = template_sheet st.
Proof.
  intros H. destruct (process_file_spec lw se so filename st)
    as (st' & Hf & Heff).
  rewrite H in Hf, Heff. rewrite Hf. cbn [fst snd].
  split; [reflexivity|].
  pose proof (eff_cursor _ _ _ _ _ Heff) as Hc. cbn in Hc.
  split; [lia|].
  apply map_eq. intros [col row].
  destruct (decide (row = current_output_row st)) as [->|Hne].
  - destruct (process_file_spec lw se so filename st) as (st2 & Hf2 & _).
    clear Hf2 st2.
    (* nothing is assigned: the file never reaches an assignment *)
    revert Hf. unfold process_file, try_suite.
    unfold file_result_of in H.
    destruct (lw filename) as [e|wb].
    + injection H as <-. intros Hf.
      destruct (except_clauses_spec filename e
                  (logging INFO (FileStart filename) st)) as [E|[_ E]];
        rewrite E in Hf; injection Hf as <-; reflexivity.
    + unfold sheetnames, getitem.
      destruct (worksheets wb) as [|sheet others]; cbn [map find].
      * intros [= <-]. reflexivity.
      * rewrite bool_decide_eq_true_2 by reflexivity.
        destruct (last_cons_is_Some (title sheet) (map title others))
          as [order_no Hlast].
        rewrite Hlast. unfold read_cell.
        destruct (read_error sheet 11 9) as [e|].
        { intros Hf.
          destruct (except_clauses_spec filename e
                      (logging INFO (UsingFirstSheet filename (title sheet))
                         (logging INFO (FileStart filename) st)))
            as [E|[_ E]];
            rewrite E in Hf; injection Hf as <-; reflexivity. }
        destruct (read_error sheet 22 1) as [e|]; [|discriminate].
        intros Hf.
        destruct (except_clauses_spec filename e
                    (logging INFO (UsingFirstSheet filename (title sheet))
                       (logging INFO (FileStart filename) st)))
          as [E|[_ E]];
          rewrite E in Hf; injection Hf as <-; reflexivity.
  - apply (eff_frame _ _ _ _ _ Heff). rewrite Hc.
    destruct (Z.lt_ge_cases row (current_output_row st));
      [left; assumption|right; left; lia].
Qed.

(** An exception raised in the [try] suite that is neither
    [FileNotFoundError] nor [KeyError] reaches the clause that names
    [zipfile], and [NameError] leaves the loop. *)
Lemma unhandled_exception_escapes filename st e :
  raised_in (file_result_of lw se so filename (current_output_row st))
  = Some e ->
  e <> FileNotFoundError -> e <> KeyError ->
  snd (process_file lw se so filename st) = Some (NameError "zipfile").
Proof.
  intros H Hf Hk.
  destruct (process_file_spec lw se so filename st) as (st' & -> & _).
  unfold escapes. rewrite H. destruct e; try contradiction; reflexivity.
Qed.

Lemma process_file_cursor filename st :
  current_output_row st
  <= current_output_row (fst (process_file lw se so filename st)).
Proof.
  destruct (process_file_spec lw se so filename st) as (st' & -> & Heff).
  cbn [fst]. rewrite (eff_cursor _ _ _ _ _ Heff). lia.
Qed.

Lemma batch_loop_cursor filenames st :
  current_output_row (fst (batch_loop lw se so filenames st))
  = current_output_row st
    + Z.of_nat
        (length
           (written_rows
              (file_results lw se so filenames (current_output_row st)))).
Proof.
  destruct (batch_loop_spec lw se so filenames st) as [Heff _].
  exact (eff_cursor _ _ _ _ _ Heff).
Qed.

(** One scanned row and the cursor. *)
Lemma scan_row_cursor sheet ctx a r :
  current_output_row (scan_state (fst (scan_row se sheet ctx a r)))
  = current_output_row (scan_state a)
    + (if row_completed se ctx sheet r (current_output_row (scan_state a))
       then 1 else 0)
  /\ (row_completed se ctx sheet r (current_output_row (scan_state a)) = true ->
      snd (scan_row se sheet ctx a r) = None
      /\ row_holds (template_sheet (scan_state (fst (scan_row se sheet ctx a r))))
           (current_output_row (scan_state a)) (source_of [] sheet ctx r)).
Proof.
  pose proof (scan_row_spec se [] sheet ctx a r) as H.
  unfold row_completed, row_accepted. fold (row_has_data sheet r).
  destruct (row_read_error sheet r) as [e|].
  { rewrite H. cbn [fst snd]. split; [lia|discriminate]. }
  destruct (row_has_data sheet r); cbn [andb].
  - destruct (is_valid_numeric (cell sheet r 9) (cell sheet r 10)).
    + destruct H as (st' & -> & Heff). cbn [fst snd scan_state].
      pose proof (eff_cursor _ _ _ _ _ Heff) as Hc.
      pose proof (eff_rows _ _ _ _ _ Heff 0%nat) as Hr.
      destruct (row_write_error se ctx sheet r
                  (current_output_row (scan_state a))) as [e|].
      * split; [exact Hc|discriminate].
      * split; [exact Hc|]. intros _. split; [reflexivity|].
        rewrite Z.add_0_r in Hr. apply Hr. reflexivity.
    + rewrite H. cbn [fst snd scan_state logging current_output_row].
      destruct (row_write_error _ _ _ _ _); split; (lia || discriminate).
  - rewrite H. cbn [fst snd].
    destruct (row_write_error _ _ _ _ _); split; (lia || discriminate).
Qed.

End Run.

Lemma written_rows_app (l1 l2 : list (pystr * file_result)) :
  written_rows (l1 ++ l2) = written_rows l1 ++ written_rows l2.
Proof. unfold written_rows. apply flat_map_app. Qed.

(** The rows written are those of the files processed to the end and
    those of the files that broke off. *)
Lemma written_rows_split (results : list (pystr * file_result)) :
  length (written_rows results)
  = (length (written_rows (processed_files results))
     + length
         (written_rows
            (List.filter (fun p => negb (processed (snd p))) results)))%nat.
Proof.
  unfold written_rows, processed_files.
  induction results as [|p results IH]; cbn [flat_map List.filter];
    [reflexivity|].
  destruct (processed (snd p)); cbn [negb flat_map];
    rewrite !length_app, IH; lia.
Qed.

Lemma length_numbered out rows : length (numbered out rows) = length rows.
Proof.
  revert out. induction rows as [|r rows IH]; intros out; cbn [numbered length];
    [reflexivity|].
  rewrite IH. reflexivity.
Qed.

Lemma length_attempt_of res out :
  length (attempt_of res out) = length (attempt_of res 0).
Proof.
  unfold attempt_of. destruct res as [raised|sheet ctx n [e|]]; try reflexivity.
  destruct (data_block !! n) as [r|]; [|reflexivity].
  destruct (row_read_error sheet r); reflexivity.
Qed.

(** The rows logged by line 193 are the rows written and, for each file
    that broke off at an assignment, the row that was being written. *)
Lemma length_logged_rows results :
  forall out,
    length (logged_rows results out)
    = (length (written_rows results)
       + length (flat_map (fun p => attempt_of (snd p) 0) results))%nat.
Proof.
  unfold written_rows.
  induction results as [|[filename res] results IH]; intros out;
    cbn [logged_rows flat_map snd]; [reflexivity|].
  cbv zeta.
  rewrite !length_app, length_numbered, length_written_of, IH,
    length_attempt_of.
  lia.
Qed.

Lemma rows_written_run lw se so template input_files :
  rows_written (log (fst (run lw se so template input_files)))
  = logged_rows (file_results lw se so (sorted input_files) START_ROW_TEMPLATE)
      START_ROW_TEMPLATE.
Proof.
  destruct (run_spec lw se so template input_files) as [Heff _].
  rewrite (eff_log _ _ _ _ _ Heff). cbn [initial_state log app].
  apply rows_written_batch_log.
Qed.

(** C1, as the code has it: at the end of the loop the cursor is row 7
    plus the number of rows written, and the rows written are in the
    sheet, one output row after the other from row 7.  The rows written
    for a file are the rows of its block (19 to 1000, columns G to J)
    that satisfy both conditions among the rows the loop completed: all
    982 rows for a file processed to the end, and the rows before the one
    at which a read or an assignment raised for a file that broke off.
    Only the files processed to the end are counted as processed, so the
    rows written are those of the processed files plus those that files
    breaking off wrote before the exception. *)
Theorem C1_output_row_count
    (load_workbook : pystr -> exn + workbook)
    (setitem_error : string * Z -> pyval -> option exn)
    (str_other : pyval -> pystr)
    (template : gmap (string * Z) pyval) (input_files : list pystr) :
  let st :=
    fst (run load_workbook setitem_error str_other template input_files) in
  let results :=
    file_results load_workbook setitem_error str_other (sorted input_files)
      START_ROW_TEMPLATE in
  let rows := written_rows results in
  current_output_row st = START_ROW_TEMPLATE + Z.of_nat (length rows)
  /\ (forall k x,
         rows !! k = Some x ->
         row_holds (template_sheet st) (START_ROW_TEMPLATE + Z.of_nat k) x)
  /\ length rows = length (flat_map (fun p => rows_of (snd p)) results)
  /\ processed_files_count st = Z.of_nat (length (processed_files results))
  /\ (forall filename sheet ctx n raised,
         In (filename, Scanned sheet ctx n raised) results ->
         rows_of (Scanned sheet ctx n raised)
         = List.filter (row_accepted sheet) (take n data_block)
         /\ (n <= 982)%nat
         /\ (raised = None ->
             n = 982%nat
             /\ rows_of (Scanned sheet ctx n raised) = accepted_rows sheet)
         /\ (forall e,
                raised = Some e ->
                exists r out,
                  data_block !! n = Some r
                  /\ (row_read_error sheet r = Some e
                      \/ (row_accepted sheet r = true
                          /\ row_write_error setitem_error ctx sheet r out
                             = Some e))))
  /\ (forall sheet r,
         In r (accepted_rows sheet)
         <-> DATA_BLOCK_START_ROW <= r <= DATA_BLOCK_END_ROW
             /\ has_data (cell sheet r 7) (cell sheet r 8) (cell sheet r 9)
                  (cell sheet r 10) = true
             /\ is_valid_numeric (cell sheet r 9) (cell sheet r 10) = true)
  /\ length rows
     = (length (written_rows (processed_files results))
        + length
            (written_rows
               (List.filter (fun p => negb (processed (snd p))) results)))%nat.
Proof.
  intros st results rows.
  destruct (run_spec load_workbook setitem_error str_other template
              input_files) as [Heff _].
  fold st results rows in Heff.
  split; [exact (eff_cursor _ _ _ _ _ Heff)|].
  split; [exact (eff_rows _ _ _ _ _ Heff)|].
  split.
  { unfold rows, written_rows. clear Heff.
    induction results as [|[filename res] results IH]; cbn [flat_map];
      [reflexivity|].
    rewrite !length_app, IH, length_written_of. reflexivity. }
  split.
  { rewrite (eff_count _ _ _ _ _ Heff). cbn. lia. }
  split.
  { intros filename sheet ctx n raised Hin.
    apply file_results_In in Hin as [_ (out & _ & Hres)].
    cbn [fst snd] in Hres. symmetry in Hres.
    apply file_result_Scanned in Hres
      as (wb & others & _ & _ & _ & _ & _ & Hn & Hraised).
    split; [reflexivity|]. split; [|split].
    - rewrite Hn, <- length_data_block. apply scan_reach_length.
    - intros ->. symmetry in Hraised.
      pose proof (scan_reach_complete _ _ _ _ _ Hraised) as Hall.
      rewrite length_data_block in Hall. rewrite <- Hn in Hall.
      split; [exact Hall|].
      cbn [rows_of]. rewrite Hall, <- length_data_block, firstn_all.
      reflexivity.
    - intros e ->. symmetry in Hraised.
      destruct (scan_reach_break _ _ _ _ _ _ Hraised)
        as (r & Hr & Hbreak).
      rewrite <- Hn in Hr. exists r. eexists. split; [exact Hr|].
      destruct Hbreak as [H|(_ & H1 & H2)]; [left; exact H|].
      right. split; [exact H1|exact H2]. }
  split; [exact elem_of_accepted_rows|].
  apply written_rows_split.
Qed.

Lemma C1_witness :
  let results :=
    file_results Sample.load_workbook (Sample.merged [("C"%string, 8)])
      Sample.str_other (sorted [str "c.xlsx"; str "b.xlsx"])
      START_ROW_TEMPLATE in
  In (str "b.xlsx",
      Scanned Sample.sheet1
        (context_of Sample.str_other
           {| worksheets := [Sample.sheet1; Sample.order_sheet] |}
           Sample.sheet1) 2
        (Some (OtherException "AttributeError"))) results
  /\ rows_of
       (Scanned Sample.sheet1
          (context_of Sample.str_other
             {| worksheets := [Sample.sheet1; Sample.order_sheet] |}
             Sample.sheet1) 2
          (Some (OtherException "AttributeError")))
     = List.filter (row_accepted Sample.sheet1) (take 2 data_block)
  /\ (2 <= 982)%nat.
Proof.
  intros results.
  assert (In (str "b.xlsx",
              Scanned Sample.sheet1
                (context_of Sample.str_other
                   {| worksheets := [Sample.sheet1; Sample.order_sheet] |}
                   Sample.sheet1) 2
                (Some (OtherException "AttributeError"))) results) as Hin.
  { left. vm_compute. reflexivity. }
  split; [exact Hin|].
  destruct (C1_output_row_count Sample.load_workbook
              (Sample.merged [("C"%string, 8)]) Sample.str_other ∅
              [str "c.xlsx"; str "b.xlsx"])
    as (_ & _ & _ & _ & H & _).
  destruct (H _ _ _ _ _ Hin) as (H1 & H2 & _).
  split; [exact H1|exact H2].
Defined.

(** C1 as stated fails: cell C8 of the template lies in a merged range.
    [b.xlsx] has its row 19 written into output row 7 and the cursor moves
    to 8; the assignment of C8 for its row 21 raises, the exception leaves
    the loop, and [b.xlsx] is not processed to the end.  No file is
    successfully processed, yet one row is written and the cursor is not
    at row 7. *)
Lemma C1_counterexample :
  let se := Sample.merged [("C"%string, 8)] in
  let r := run Sample.load_workbook se Sample.str_other ∅ [str "b.xlsx"] in
  let results :=
    file_results Sample.load_workbook se Sample.str_other
      (sorted [str "b.xlsx"]) START_ROW_TEMPLATE in
  snd r = Some (NameError "zipfile")
  /\ current_output_row (fst r) = 8
  /\ processed_files_count (fst r) = 0
  /\ length (processed_files results) = 0%nat
  /\ length (written_rows results) = 1%nat
  /\ template_sheet (fst r) !! ("I"%string, 7) = Some (PInt 5)
  /\ template_sheet (fst r) !! ("B"%string, 8) = Some (PStr (str "08-Aug"))
  /\ template_sheet (fst r) !! ("C"%string, 8) = None
  /\ ~ (forall load_workbook setitem_error str_other template input_files,
           let st :=
             fst (run load_workbook setitem_error str_other template
                    input_files) in
           let results :=
             file_results load_workbook setitem_error str_other
               (sorted input_files) START_ROW_TEMPLATE in
           current_output_row st
           = START_ROW_TEMPLATE
             + Z.of_nat (length (written_rows (processed_files results)))).
Proof.
  cbv zeta.
  split; [vm_compute; reflexivity|].
  split; [vm_compute; reflexivity|].
  split; [vm_compute; reflexivity|].
  split; [vm_compute; reflexivity|].
  split; [vm_compute; reflexivity|].
  split; [vm_compute; reflexivity|].
  split; [vm_compute; reflexivity|].
  split; [vm_compute; reflexivity|].
  intros H.
  specialize (H Sample.load_workbook (Sample.merged [("C"%string, 8)])
                Sample.str_other ∅ [str "b.xlsx"]).
  vm_compute in H. discriminate.
Qed.

(** C4: the cursor starts at row 7; a scanned row moves it by one when the
    row is written, that is when its reads succeed, it satisfies both
    conditions and its eight assignments succeed, and then the output row
    holds its values; otherwise the row leaves the cursor where it was; no
    file and no run of files moves it back; the loop hands the state one
    file leaves to the next file; and over any run of files the cursor
    advances by the number of rows written, so that at the end it is 7 plus
    the rows written.  Line 193 logs a row before its assignments: the
    rows it has logged at the end are the rows written and, for each file
    that broke off at an assignment, the row that was being written, which
    did not move the cursor. *)
Theorem C4_output_cursor
    (load_workbook : pystr -> exn + workbook)
    (setitem_error : string * Z -> pyval -> option exn)
    (str_other : pyval -> pystr) :
  (forall template,
      current_output_row (initial_state template) = 7)
  /\ (forall sheet ctx a r,
         let out := current_output_row (scan_state a) in
         let a' := fst (scan_row setitem_error sheet ctx a r) in
         current_output_row (scan_state a')
         = out + (if row_completed setitem_error ctx sheet r out
                  then 1 else 0)
         /\ (row_completed setitem_error ctx sheet r out = true ->
             snd (scan_row setitem_error sheet ctx a r) = None
             /\ row_holds (template_sheet (scan_state a')) out
                  (source_of [] sheet ctx r)))
  /\ (forall filename st,
         current_output_row st
         <= current_output_row
              (fst (process_file load_workbook setitem_error str_other
                      filename st)))
  /\ (forall filenames st,
         current_output_row st
         <= current_output_row
              (fst (batch_loop load_workbook setitem_error str_other
                      filenames st)))
  /\ (forall files1 files2 st,
         batch_loop load_workbook setitem_error str_other (files1 ++ files2) st
         = match
             batch_loop load_workbook setitem_error str_other files1 st
           with
           | (st', None) =>
               batch_loop load_workbook setitem_error str_other files2 st'
           | (st', Some e) => (st', Some e)
           end)
  /\ (forall filenames st,
         let st' :=
           fst (batch_loop load_workbook setitem_error str_other
                  filenames st) in
         let rows :=
           written_rows
             (file_results load_workbook setitem_error str_other filenames
                (current_output_row st)) in
         current_output_row st'
         = current_output_row st + Z.of_nat (length rows)
         /\ forall k x,
              rows !! k = Some x ->
              row_holds (template_sheet st')
                (current_output_row st + Z.of_nat k) x)
  /\ (forall template input_files,
         let st :=
           fst (run load_workbook setitem_error str_other template
                  input_files) in
         let results :=
           file_results load_workbook setitem_error str_other
             (sorted input_files) START_ROW_TEMPLATE in
         current_output_row st = 7 + Z.of_nat (length (written_rows results))
         /\ rows_written (log st) = logged_rows results START_ROW_TEMPLATE
         /\ Z.of_nat (length (rows_written (log st)))
            = current_output_row st - 7
              + Z.of_nat
                  (length (flat_map (fun p => attempt_of (snd p) 0) results))).
Proof.
  split; [reflexivity|].
  split; [apply scan_row_cursor|].
  split; [apply process_file_cursor|].
  split.
  { intros filenames st. rewrite batch_loop_cursor. lia. }
  split; [apply batch_loop_app|].
  split.
  { intros filenames st st' rows.
    destruct (batch_loop_spec load_workbook setitem_error str_other
                filenames st) as [Heff _].
    split; [exact (eff_cursor _ _ _ _ _ Heff)|exact (eff_rows _ _ _ _ _ Heff)]. }
  intros template input_files st results.
  assert (current_output_row st = 7 + Z.of_nat (length (written_rows results)))
    as Hc.
  { unfold st, run. rewrite batch_loop_cursor. reflexivity. }
  split; [exact Hc|].
  unfold st. rewrite rows_written_run. fold results.
  split; [reflexivity|].
  rewrite length_logged_rows. fold st. rewrite Hc. lia.
Qed.

Lemma C4_witness :
  row_completed Sample.plain
    (context_of Sample.str_other {| worksheets := [Sample.sheet2] |}
       Sample.sheet2) Sample.sheet2 19 7 = true
  /\ forall a,
       current_output_row (scan_state a) = 7 ->
       snd (scan_row Sample.plain Sample.sheet2
              (context_of Sample.str_other {| worksheets := [Sample.sheet2] |}
                 Sample.sheet2) a 19) = None.
Proof.
  split; [vm_compute; reflexivity|].
  intros a Ha.
  destruct (C4_output_cursor Sample.load_workbook Sample.plain
              Sample.str_other) as (_ & H & _).
  destruct (H Sample.sheet2
              (context_of Sample.str_other {| worksheets := [Sample.sheet2] |}
                 Sample.sheet2) a 19) as [_ H2].
  apply H2. rewrite Ha. vm_compute. reflexivity.
Defined.

(** C5: the files are taken in the sorted order of their names, a
    permutation of the input; the files that are started are the first
    ones in that order, up to the file whose exception leaves the loop;
    the rows written for a file are in ascending order, the first ones of
    the rows of its block that satisfy both conditions; the rows written
    are in the sheet file after file, at consecutive output rows from row
    7, and are logged in that order, each file's rows followed, when the
    file broke off at an assignment, by the row that was being written; a
    row, once written, is not changed by the files that come after;
    and, the names being distinct, each written row is before every later
    one in the order of files and row indices. *)
Theorem C5_output_order
    (load_workbook : pystr -> exn + workbook)
    (setitem_error : string * Z -> pyval -> option exn)
    (str_other : pyval -> pystr)
    (template : gmap (string * Z) pyval) (input_files : list pystr) :
  let st :=
    fst (run load_workbook setitem_error str_other template input_files) in
  let results :=
    file_results load_workbook setitem_error str_other (sorted input_files)
      START_ROW_TEMPLATE in
  StronglySorted name_le (sorted input_files)
  /\ sorted input_files ≡ₚ input_files
  /\ files_started (log st) = map fst results
  /\ map fst results `prefix_of` sorted input_files
  /\ (forall p, In p results -> StronglySorted Z.lt (rows_of (snd p)))
  /\ (forall filename sheet ctx n raised,
         In (filename, Scanned sheet ctx n raised) results ->
         rows_of (Scanned sheet ctx n raised) `prefix_of` accepted_rows sheet)
  /\ current_output_row st
     = START_ROW_TEMPLATE + Z.of_nat (length (written_rows results))
  /\ (forall k x,
         written_rows results !! k = Some x ->
         row_holds (template_sheet st) (START_ROW_TEMPLATE + Z.of_nat k) x)
  /\ rows_written (log st) = logged_rows results START_ROW_TEMPLATE
  /\ (forall files1 files2 col row,
         sorted input_files = files1 ++ files2 ->
         let st1 :=
           fst (batch_loop load_workbook setitem_error str_other files1
                  (initial_state template)) in
         row < current_output_row st1 ->
         template_sheet st !! (col, row) = template_sheet st1 !! (col, row))
  /\ (NoDup input_files -> StronglySorted row_before (written_rows results)).
Proof.
  intros st results.
  destruct (run_spec load_workbook setitem_error str_other template
              input_files) as [Heff _].
  fold st results in Heff.
  split; [apply sorted_StronglySorted|].
  split; [apply sorted_perm|].
  split.
  { rewrite (eff_log _ _ _ _ _ Heff). cbn [initial_state log app].
    apply files_started_batch_log. }
  split; [apply file_results_prefix|].
  split; [intros p _; apply rows_of_ascending|].
  split; [intros filename sheet ctx n raised _; apply rows_of_prefix|].
  split; [exact (eff_cursor _ _ _ _ _ Heff)|].
  split; [exact (eff_rows _ _ _ _ _ Heff)|].
  split; [apply rows_written_run|].
  split.
  { intros files1 files2 col row Hsplit st1 Hrow.
    unfold st, run. rewrite Hsplit, batch_loop_app. fold st1.
    pose proof (surjective_pairing
                  (batch_loop load_workbook setitem_error str_other files1
                     (initial_state template))) as Hp.
    fold st1 in Hp. rewrite Hp.
    destruct (snd (batch_loop load_workbook setitem_error str_other files1
                     (initial_state template))) as [e|]; [reflexivity|].
    destruct (batch_loop_spec load_workbook setitem_error str_other files2
                st1) as [Heff2 _].
    apply (eff_frame _ _ _ _ _ Heff2). left. exact Hrow. }
  intros Hnd. apply written_rows_sorted.
  assert (StronglySorted (fun a b => name_le a b /\ a <> b)
            (sorted input_files)) as Hs.
  { apply StronglySorted_strict; [apply sorted_StronglySorted|].
    rewrite sorted_perm. exact Hnd. }
  destruct (file_results_prefix load_workbook setitem_error str_other
              (sorted input_files) START_ROW_TEMPLATE) as [rest Hrest].
  fold results in Hrest. rewrite Hrest in Hs.
  apply StronglySorted_app_1_l in Hs. exact Hs.
Qed.

Lemma C5_witness :
  NoDup [str "c.xlsx"; str "b.xlsx"; str "d.xlsx"]
  /\ StronglySorted row_before
       (written_rows
          (file_results Sample.load_workbook Sample.plain Sample.str_other
             (sorted [str "c.xlsx"; str "b.xlsx"; str "d.xlsx"])
             START_ROW_TEMPLATE)).
Proof.
  assert (NoDup [str "c.xlsx"; str "b.xlsx"; str "d.xlsx"]) as Hnd.
  { refine (bool_decide_unpack (NoDup _) _). vm_compute. exact I. }
  split; [exact Hnd|].
  apply (C5_output_order Sample.load_workbook Sample.plain Sample.str_other ∅
           [str "c.xlsx"; str "b.xlsx"; str "d.xlsx"]).
  exact Hnd.
Defined.

(** Two workbooks and a file without sheets: [b.xlsx] gives its rows 19
    and 21, [c.xlsx] its row 19, at output rows 7, 8 and 9. *)
Example run_three_files :
  let r := run Sample.load_workbook Sample.plain Sample.str_other ∅
             [str "c.xlsx"; str "b.xlsx"; str "d.xlsx"] in
  snd r = None
  /\ current_output_row (fst r) = 10
  /\ processed_files_count (fst r) = 2
  /\ rows_written (log (fst r)) = [(19, 7); (21, 8); (19, 9)]
  /\ rows_skipped (log (fst r)) = [20]
  /\ files_started (log (fst r)) = [str "b.xlsx"; str "c.xlsx"; str "d.xlsx"]
  /\ template_sheet (fst r) !! ("B"%string, 7) = Some (PStr (str "08-Aug"))
  /\ template_sheet (fst r) !! ("C"%string, 7) = Some (PStr (str "AIR"))
  /\ template_sheet (fst r) !! ("E"%string, 7) = Some (PStr (str "JB24FW-M34"))
  /\ template_sheet (fst r) !! ("I"%string, 8) = Some (PBool true)
  /\ template_sheet (fst r) !! ("E"%string, 9) = Some (PStr (str "JB24FW-M32")).
Proof. vm_compute. repeat split; reflexivity. Qed.

(** A sheet that cannot be parsed: the workbook opens and the first sheet
    is announced, the read of cell I11 raises, and the exception leaves
    the loop through the clause that names [zipfile]. *)
Example run_unreadable_sheet :
  let r := run Sample.load_workbook Sample.plain Sample.str_other ∅
             [str "f.xlsx"; str "c.xlsx"] in
  snd r = Some (NameError "zipfile")
  /\ log (fst r)
     = [(INFO, FileStart (str "c.xlsx"));
        (INFO, UsingFirstSheet (str "c.xlsx") (str "JB24FW-M32"));
        (WARNING, I11Empty);
        (INFO, CommonData (PStr (str "JB24FW-M32")) PNone);
        (INFO, RowWritten 19 7);
        (INFO, FileStart (str "f.xlsx"));
        (INFO, UsingFirstSheet (str "f.xlsx") (str "Sheet1"))]
  /\ current_output_row (fst r) = 8
  /\ processed_files_count (fst r) = 1.
Proof. vm_compute. repeat split; reflexivity. Qed.

(** Cell C7 of the template lies in a merged range: row 19 of [b.xlsx] is
    logged as written, B7 is assigned, the assignment of C7 raises, the
    cursor stays at row 7, and the exception leaves the loop. *)
Example run_merged_cell :
  let r := run Sample.load_workbook (Sample.merged [("C"%string, 7)])
             Sample.str_other {[ ("B"%string, 7) := PStr (str "x") ]}
             [str "b.xlsx"] in
  snd r = Some (NameError "zipfile")
  /\ rows_written (log (fst r)) = [(19, 7)]
  /\ rows_skipped (log (fst r)) = []
  /\ current_output_row (fst r) = 7
  /\ processed_files_count (fst r) = 0
  /\ template_sheet (fst r) !! ("B"%string, 7) = Some (PStr (str "08-Aug"))
  /\ template_sheet (fst r) !! ("C"%string, 7) = None
  /\ template_sheet (fst r) !! ("E"%string, 7) = None.
Proof. vm_compute. repeat split; reflexivity. Qed.

(** A sheet cut after row 30: rows 19 and 21 are written, row 20 is
    skipped, the read of row 31 raises, and the file is not counted as
    processed. *)
Example run_cut_sheet :
  let r := run Sample.load_workbook Sample.plain Sample.str_other ∅
             [str "e.xlsx"] in
  snd r = Some (NameError "zipfile")
  /\ rows_written (log (fst r)) = [(19, 7); (21, 8)]
  /\ rows_skipped (log (fst r)) = [20]
  /\ current_output_row (fst r) = 9
  /\ processed_files_count (fst r) = 0
  /\ template_sheet (fst r) !! ("I"%string, 7) = Some (PInt 5).
Proof. vm_compute. repeat split; reflexivity. Qed.

(** The reads of [g.xlsx] raise [KeyError] from row 31 on.  [c.xlsx]
    comes first and is processed to the end; then rows 19 and 21 of
    [g.xlsx] are written, the exception is logged by its [except] clause
    and the loop goes on.  The run ends without a traceback, with three
    rows written and one file counted as processed, and the sheet is
    saved. *)
Example run_key_error_in_block :
  let r := run Sample.load_workbook Sample.plain Sample.str_other ∅
             [str "g.xlsx"; str "c.xlsx"] in
  snd r = None
  /\ rows_written (log (fst r)) = [(19, 7); (19, 8); (21, 9)]
  /\ files_started (log (fst r)) = [str "c.xlsx"; str "g.xlsx"]
  /\ In (ERROR, KeyErrorLogged (str "g.xlsx")) (log (fst r))
  /\ current_output_row (fst r) = 10
  /\ processed_files_count (fst r) = 1
  /\ final_save SaveDone (fst r)
     = (true, [(INFO, WritingRows 1 3); (INFO, AllSaved)]).
Proof.
  vm_compute. repeat split; try reflexivity. intuition congruence.
Qed.

(** C2 fails on the code: [a.xlsx] is a corrupt archive, [load_workbook]
    raises [BadZipFile], and the clause [except zipfile.BadZipFile] raises
    [NameError] since the script never imports [zipfile].  The exception
    leaves the loop: [c.xlsx], which holds a valid row, is never started. *)
Theorem C2_corrupt_archive_escapes :
  let r := run Sample.load_workbook Sample.plain Sample.str_other ∅
             [str "c.xlsx"; str "a.xlsx"] in
  Sample.load_workbook (str "a.xlsx") = inl BadZipFile
  /\ name_bound "zipfile" = false
  /\ snd r = Some (NameError "zipfile")
  /\ files_started (log (fst r)) = [str "a.xlsx"]
  /\ current_output_row (fst r) = 7
  /\ accepted_rows Sample.sheet2 = [19].
Proof. vm_compute. repeat split; reflexivity. Qed.

(** * Further properties *)

(** ** Rows *)

Lemma numeric_is_data (DETAIL COLOR PRICE SQNTY : pyval) :
  is_valid_numeric PRICE SQNTY = true ->
  has_data DETAIL COLOR PRICE SQNTY = true.
Proof.
  unfold is_valid_numeric, has_data. intros H.
  apply andb_true_iff in H as [H _]. simpl.
  destruct PRICE; try discriminate; simpl; rewrite ?orb_true_r; reflexivity.
Qed.

(** X1: a row of the block is written exactly when PRICE and SQNTY are
    numeric, whatever DETAIL and COLOR hold: a numeric PRICE is data by
    itself, so the test for data never rejects such a row. *)
Theorem numeric_rows_always_written (sheet : worksheet) (r : Z) :
  row_accepted sheet r = is_valid_numeric (cell sheet r 9) (cell sheet r 10)
  /\ (In r (accepted_rows sheet)
      <-> DATA_BLOCK_START_ROW <= r <= DATA_BLOCK_END_ROW
          /\ is_valid_numeric (cell sheet r 9) (cell sheet r 10) = true).
Proof.
  assert (row_accepted sheet r
          = is_valid_numeric (cell sheet r 9) (cell sheet r 10)) as Heq.
  { unfold row_accepted.
    destruct (is_valid_numeric (cell sheet r 9) (cell sheet r 10)) eqn:E.
    - rewrite numeric_is_data by exact E. reflexivity.
    - apply andb_false_r. }
  split; [exact Heq|].
  rewrite elem_of_accepted_rows. split.
  - intros (H1 & _ & H2). auto.
  - intros (H1 & H2). split; [exact H1|]. split; [|exact H2].
    apply numeric_is_data, H2.
Qed.

Lemma length_rows_of res : (length (rows_of res) <= 982)%nat.
Proof.
  destruct res as [raised|sheet ctx n raised]; cbn [rows_of length]; [lia|].
  etransitivity; [apply List.filter_length_le|].
  rewrite length_take, length_data_block. lia.
Qed.

Lemma length_written_rows results :
  (length (written_rows results) <= 982 * length results)%nat.
Proof.
  unfold written_rows.
  induction results as [|[filename res] results IH]; cbn [flat_map length];
    [lia|].
  rewrite length_app, length_written_of.
  pose proof (length_rows_of res). lia.
Qed.

Lemma files_started_run lw se so template input_files :
  files_started (log (fst (run lw se so template input_files)))
  = map fst (file_results lw se so (sorted input_files) START_ROW_TEMPLATE).
Proof.
  destruct (run_spec lw se so template input_files) as [Heff _].
  rewrite (eff_log _ _ _ _ _ Heff). cbn [initial_state log app].
  apply files_started_batch_log.
Qed.

(** X2: a file adds at most the 982 rows of its data block: at the end
    of the loop the cursor is at most row 7 plus 982 rows per file whose
    processing started.  The files counted as processed are among the
    files started, and these among the input files. *)
Theorem output_rows_bounded
    (load_workbook : pystr -> exn + workbook)
    (setitem_error : string * Z -> pyval -> option exn)
    (str_other : pyval -> pystr)
    (template : gmap (string * Z) pyval) (input_files : list pystr) :
  let st :=
    fst (run load_workbook setitem_error str_other template input_files) in
  let started := Z.of_nat (length (files_started (log st))) in
  START_ROW_TEMPLATE <= current_output_row st
  /\ current_output_row st <= START_ROW_TEMPLATE + 982 * started
  /\ 0 <= processed_files_count st <= started
  /\ started <= Z.of_nat (length input_files).
Proof.
  intros st started. unfold started, st.
  rewrite files_started_run, length_map.
  destruct (run_spec load_workbook setitem_error str_other template
              input_files) as [Heff _].
  rewrite (eff_cursor _ _ _ _ _ Heff), (eff_count _ _ _ _ _ Heff).
  cbn [initial_state current_output_row processed_files_count].
  pose proof (length_written_rows
                (file_results load_workbook setitem_error str_other
                   (sorted input_files) START_ROW_TEMPLATE)) as Hlen.
  pose proof (List.filter_length_le
                (fun p => processed (snd p))
                (file_results load_workbook setitem_error str_other
                   (sorted input_files) START_ROW_TEMPLATE)) as Hproc.
  pose proof (prefix_length _ _
                (file_results_prefix load_workbook setitem_error str_other
                   (sorted input_files) START_ROW_TEMPLATE)) as Hpre.
  rewrite length_map in Hpre.
  rewrite (Permutation_length (sorted_perm input_files)) in Hpre.
  unfold processed_files. lia.
Qed.

(** ** Sheets by name *)

(** X3: looking a sheet up by name raises [KeyError] exactly when no sheet
    has that name; a sheet that is found has the name asked for; and the
    name of the first sheet always gives the first sheet, also when
    another sheet has the same title. *)
Theorem getitem_by_name (wb : workbook) (name : pystr) :
  (getitem wb name = inl KeyError <-> ~ In name (sheetnames wb))
  /\ (forall sheet,
         getitem wb name = inr sheet ->
         title sheet = name /\ In sheet (worksheets wb))
  /\ (forall sheet others,
         worksheets wb = sheet :: others ->
         getitem wb (title sheet) = inr sheet).
Proof.
  unfold getitem, sheetnames.
  split; [|split].
  - induction (worksheets wb) as [|sh l IH]; simpl; [tauto|].
    destruct (bool_decide (title sh = name)) eqn:E.
    + apply bool_decide_eq_true in E. split; [discriminate|].
      intros H. exfalso. apply H. left. exact E.
    + apply bool_decide_eq_false in E. rewrite IH. tauto.
  - intros sheet.
    destruct (find _ (worksheets wb)) as [sh|] eqn:E; [|discriminate].
    intros [= <-]. apply find_some in E as [Hin E].
    apply bool_decide_eq_true in E. auto.
  - intros sheet others ->. simpl.
    rewrite bool_decide_eq_true_2 by reflexivity. reflexivity.
Qed.

Lemma getitem_by_name_witness :
  getitem {| worksheets := [Sample.sheet1; Sample.order_sheet] |}
    (str "JB24FW-M34") = inr Sample.order_sheet
  /\ title Sample.order_sheet = str "JB24FW-M34"
  /\ getitem {| worksheets := [Sample.sheet1; Sample.order_sheet] |}
       (str "Sheet1") = inr Sample.sheet1.
Proof.
  assert (getitem {| worksheets := [Sample.sheet1; Sample.order_sheet] |}
            (str "JB24FW-M34") = inr Sample.order_sheet) as H.
  { vm_compute. reflexivity. }
  split; [exact H|]. split.
  - apply (proj1 (proj2 (getitem_by_name _ _)) _ H).
  - apply (proj2 (proj2 (getitem_by_name
                           {| worksheets := [Sample.sheet1; Sample.order_sheet] |}
                           (str "Sheet1"))) Sample.sheet1 [Sample.order_sheet]).
    reflexivity.
Defined.

(** ** The order of the directory listing *)

Lemma sorted_unique (l1 l2 : list pystr) :
  l1 ≡ₚ l2 -> sorted l1 = sorted l2.
Proof.
  intros Hp.
  assert (AntiSymm eq name_le) as Hanti.
  { intros a b. apply str_le_antisym. }
  apply (StronglySorted_unique name_le);
    [apply sorted_StronglySorted..|].
  rewrite !sorted_perm. exact Hp.
Qed.

(** X4: the run does not depend on the order in which the directory lists
    the files: two listings with the same names give the same log, sheet,
    cursor and ending. *)
Theorem run_listing_order
    (load_workbook : pystr -> exn + workbook)
    (setitem_error : string * Z -> pyval -> option exn)
    (str_other : pyval -> pystr)
    (template : gmap (string * Z) pyval) (files1 files2 : list pystr) :
  files1 ≡ₚ files2 ->
  run load_workbook setitem_error str_other template files1
  = run load_workbook setitem_error str_other template files2.
Proof. intros Hp. unfold run. rewrite (sorted_unique _ _ Hp). reflexivity. Qed.

Lemma run_listing_order_witness :
  run Sample.load_workbook Sample.plain Sample.str_other ∅
    [str "c.xlsx"; str "b.xlsx"]
  = run Sample.load_workbook Sample.plain Sample.str_other ∅
      [str "b.xlsx"; str "c.xlsx"].
Proof. apply run_listing_order. apply Permutation_swap. Defined.

(** ** How the loop ends *)

Lemma escaping_None (results : list (pystr * file_result)) :
  escaping results = None
  <-> forall p e, In p results -> raised_in (snd p) = Some e ->
                  e = FileNotFoundError \/ e = KeyError.
Proof.
  induction results as [|[filename res] results IH]; cbn [escaping].
  - split; [intros _ p e []|reflexivity].
  - unfold escapes. destruct (raised_in res) as [e|] eqn:E.
    + destruct (handled e) eqn:Hh.
      * rewrite IH. split.
        -- intros H p e' [<-|Hin] Hp; [|eauto].
           cbn [snd] in Hp. rewrite E in Hp. injection Hp as <-.
           destruct e; try discriminate; auto.
        -- intros H p e' Hin. apply H. right. exact Hin.
      * split; [discriminate|]. intros H.
        destruct (H (filename, res) e (or_introl eq_refl) E) as [->| ->];
          discriminate.
    + rewrite IH. split.
      * intros H p e' [<-|Hin] Hp; [|eauto].
        cbn [snd] in Hp. congruence.
      * intros H p e' Hin. apply H. right. exact Hin.
Qed.

Lemma escaping_Some (results : list (pystr * file_result)) e :
  escaping results = Some e -> e = NameError "zipfile".
Proof.
  induction results as [|[filename res] results IH]; cbn [escaping];
    [discriminate|].
  unfold escapes. destruct (raised_in res) as [e'|]; [|exact IH].
  destruct (handled e'); [exact IH|]. intros [= <-]. reflexivity.
Qed.

Lemma file_results_all lw se so filenames :
  forall out,
    escaping (file_results lw se so filenames out) = None ->
    map fst (file_results lw se so filenames out) = filenames.
Proof.
  induction filenames as [|filename rest IH]; intros out;
    cbn [file_results map fst escaping]; [reflexivity|].
  destruct (escapes _); [discriminate|].
  intros H. f_equal. apply IH, H.
Qed.

(** X5: the loop runs to its end exactly when every exception raised
    while a file is processed, by [load_workbook], by a read of the sheet
    or by an assignment to the template sheet, is a [FileNotFoundError] or
    a [KeyError]; then every input file has been started.  The only
    exception that ever leaves the loop is the [NameError] for
    [zipfile]. *)
Theorem loop_ending
    (load_workbook : pystr -> exn + workbook)
    (setitem_error : string * Z -> pyval -> option exn)
    (str_other : pyval -> pystr)
    (template : gmap (string * Z) pyval) (input_files : list pystr) :
  let r := run load_workbook setitem_error str_other template input_files in
  let results :=
    file_results load_workbook setitem_error str_other (sorted input_files)
      START_ROW_TEMPLATE in
  (snd r = None
   <-> forall p e, In p results -> raised_in (snd p) = Some e ->
                   e = FileNotFoundError \/ e = KeyError)
  /\ (snd r = None -> files_started (log (fst r)) = sorted input_files)
  /\ (forall e, snd r = Some e -> e = NameError "zipfile").
Proof.
  intros r results.
  destruct (run_spec load_workbook setitem_error str_other template
              input_files) as [_ Hesc].
  fold r results in Hesc. rewrite Hesc.
  split; [apply escaping_None|].
  split; [|apply escaping_Some].
  intros H. unfold r. rewrite files_started_run.
  apply file_results_all, H.
Qed.

Lemma loop_ending_witness :
  snd (run Sample.load_workbook Sample.plain Sample.str_other ∅
         [str "c.xlsx"; str "e.xlsx"])
  = Some (NameError "zipfile")
  /\ NameError "zipfile" = NameError "zipfile".
Proof.
  assert (snd (run Sample.load_workbook Sample.plain Sample.str_other ∅
                 [str "c.xlsx"; str "e.xlsx"])
          = Some (NameError "zipfile")) as H.
  { vm_compute. reflexivity. }
  split; [exact H|].
  apply (proj2 (proj2 (loop_ending Sample.load_workbook Sample.plain
                         Sample.str_other ∅
                         [str "c.xlsx"; str "e.xlsx"])) _ H).
Defined.

(** ** Selecting the input files *)

Lemma startswith_spec (p : pystr) :
  forall s, startswith s p = true <-> exists rest, s = p ++ rest.
Proof.
  induction p as [|x p IH]; intros s; simpl.
  - split; [intros _; exists s; reflexivity|].
    intros _. destruct s; reflexivity.
  - destruct s as [|y s].
    + split; [discriminate|]. intros [rest H]. discriminate.
    + simpl. rewrite andb_true_iff, N.eqb_eq, IH. split.
      * intros [-> [rest ->]]. exists rest. reflexivity.
      * intros [rest [= -> ->]]. split; [reflexivity|]. exists rest.
        reflexivity.
Qed.

Lemma endswith_spec (s p : pystr) :
  endswith s p = true <-> exists stem, s = stem ++ p.
Proof.
  unfold endswith. rewrite startswith_spec. split.
  - intros [rest H]. exists (rev rest).
    apply (f_equal (@rev N)) in H.
    rewrite rev_involutive, rev_app_distr, rev_involutive in H. exact H.
  - intros [stem ->]. exists (rev stem). apply rev_app_distr.
Qed.

(** X6: the files selected from the listing are those whose name ends
    in ".xlsx", does not start with "~" and is the name of a regular file;
    they are kept in the order of the listing. *)
Theorem select_input_files_spec (isfile : pystr -> bool)
    (all_files_in_dir : list pystr) :
  (forall f,
      In f (select_input_files isfile all_files_in_dir)
      <-> In f all_files_in_dir
          /\ (exists stem, f = stem ++ str ".xlsx")
          /\ ~ (exists rest, f = str "~" ++ rest)
          /\ isfile f = true)
  /\ select_input_files isfile all_files_in_dir `sublist_of` all_files_in_dir.
Proof.
  split.
  - intros f. unfold select_input_files.
    rewrite filter_In, !andb_true_iff, negb_true_iff, endswith_spec.
    rewrite <- (startswith_spec (str "~") f).
    destruct (startswith f (str "~")); intuition congruence.
  - unfold select_input_files.
    induction all_files_in_dir as [|f l IH]; simpl; [constructor|].
    destruct (_ && _); [apply sublist_skip|apply sublist_cons]; exact IH.
Qed.

(** X7: only selected files are ever opened: every file whose processing
    starts is in the listing, ends in ".xlsx", does not start with "~"
    (the lock files a spreadsheet program leaves) and is a regular
    file. *)
Theorem main_opens_selected_files
    (load_workbook : pystr -> exn + workbook)
    (setitem_error : string * Z -> pyval -> option exn)
    (str_other : pyval -> pystr)
    (isfile : pystr -> bool) (save : save_result)
    (template : gmap (string * Z) pyval) (all_files_in_dir : list pystr)
    (f : pystr) :
  In f (files_started
          (log (fst (main load_workbook setitem_error str_other isfile save
                       template all_files_in_dir)))) ->
  In f all_files_in_dir
  /\ endswith f (str ".xlsx") = true
  /\ startswith f (str "~") = false
  /\ isfile f = true.
Proof.
  unfold main.
  set (input_files := select_input_files isfile all_files_in_dir).
  assert (In f (files_started
                  (log (fst (run load_workbook setitem_error str_other
                               template input_files)))) ->
          In f input_files) as Hsel.
  { rewrite files_started_run.
    destruct (file_results_prefix load_workbook setitem_error str_other
                (sorted input_files) START_ROW_TEMPLATE) as [k Hk].
    intros Hin. apply list_elem_of_In.
    rewrite <- (sorted_perm input_files), Hk.
    apply list_elem_of_In, in_or_app. left. exact Hin. }
  intros Hin.
  assert (In f input_files) as Hf.
  { apply Hsel.
    destruct (run load_workbook setitem_error str_other template input_files)
      as [st [e|]]; [exact Hin|].
    destruct (final_save save st). exact Hin. }
  unfold input_files, select_input_files in Hf.
  apply filter_In in Hf as [Hall Hf].
  apply andb_true_iff in Hf as [Hf Hfile].
  apply andb_true_iff in Hf as [Hext Htilde].
  apply negb_true_iff in Htilde. auto.
Qed.

Lemma main_opens_selected_files_witness :
  In (str "b.xlsx") [str "~$b.xlsx"; str "b.xlsx"; str "notes.txt"]
  /\ endswith (str "b.xlsx") (str ".xlsx") = true
  /\ startswith (str "b.xlsx") (str "~") = false
  /\ true = true.
Proof.
  apply (main_opens_selected_files Sample.load_workbook Sample.plain
           Sample.str_other (fun _ => true) SaveDone ∅
           [str "~$b.xlsx"; str "b.xlsx"; str "notes.txt"] (str "b.xlsx")).
  vm_compute. left. reflexivity.
Defined.

Lemma run_state_counts lw se so template input_files :
  let st := fst (run lw se so template input_files) in
  let results :=
    file_results lw se so (sorted input_files) START_ROW_TEMPLATE in
  current_output_row st
  = START_ROW_TEMPLATE + Z.of_nat (length (written_rows results))
  /\ processed_files_count st = Z.of_nat (length (processed_files results)).
Proof.
  intros st results.
  destruct (run_spec lw se so template input_files) as [Heff _].
  fold st results in Heff.
  rewrite (eff_cursor _ _ _ _ _ Heff), (eff_count _ _ _ _ _ Heff).
  split; [reflexivity|simpl; lia].
Qed.

(** X8: the script ends with a traceback exactly when an exception
    leaves the loop, and then nothing is saved.  Otherwise [save] is
    called exactly when at least one row was written; the message before
    it reports the number of processed files and of rows written; and
    when no row was written the message tells a run in which files were
    processed from a run in which none was. *)
Theorem main_ending
    (load_workbook : pystr -> exn + workbook)
    (setitem_error : string * Z -> pyval -> option exn)
    (str_other : pyval -> pystr)
    (isfile : pystr -> bool) (save : save_result)
    (template : gmap (string * Z) pyval) (all_files_in_dir : list pystr) :
  let input_files := select_input_files isfile all_files_in_dir in
  let results :=
    file_results load_workbook setitem_error str_other (sorted input_files)
      START_ROW_TEMPLATE in
  let files := Z.of_nat (length (processed_files results)) in
  let rows := Z.of_nat (length (written_rows results)) in
  match snd (main load_workbook setitem_error str_other isfile save template
               all_files_in_dir) with
  | Traceback e =>
      snd (run load_workbook setitem_error str_other template input_files)
      = Some e
  | Ended save_called messages =>
      snd (run load_workbook setitem_error str_other template input_files)
      = None
      /\ save_called = (0 <? rows)
      /\ messages
         = if 0 <? rows then
             (INFO, WritingRows files rows)
             :: match save with
                | SaveDone => [(INFO, AllSaved)]
                | SavePermissionError => [(ERROR, NoPermission)]
                | SaveRaises _ => [(ERROR, SaveFailed)]
                end
           else if (0 <? files) then [(WARNING, NoValidRows files)]
           else [(INFO, NothingProcessed)]
  end.
Proof.
  intros input_files results files rows. unfold main. fold input_files.
  destruct (run_state_counts load_workbook setitem_error str_other template
              input_files) as [Hc Hn].
  fold results in Hc, Hn. fold rows in Hc. fold files in Hn.
  destruct (run load_workbook setitem_error str_other template input_files)
    as [st [e|]]; cbn [fst snd] in *; [reflexivity|].
  unfold final_save. rewrite Hc, Hn.
  replace (START_ROW_TEMPLATE + rows >? START_ROW_TEMPLATE) with (0 <? rows)
    by (rewrite Z.gtb_ltb; destruct (Z.ltb_spec 0 rows),
          (Z.ltb_spec START_ROW_TEMPLATE (START_ROW_TEMPLATE + rows));
        reflexivity || lia).
  replace (START_ROW_TEMPLATE + rows - START_ROW_TEMPLATE) with rows by lia.
  rewrite Z.gtb_ltb.
  destruct (0 <? rows); [destruct save; simpl; auto|].
  destruct (0 <? files); simpl; auto.
Qed.

(** ** The log of the run *)

Lemma run_log_batch_log lw se so template input_files :
  log (fst (run lw se so template input_files))
  = batch_log lw se so (sorted input_files) START_ROW_TEMPLATE.
Proof.
  destruct (run_spec lw se so template input_files) as [Heff _].
  rewrite (eff_log _ _ _ _ _ Heff). reflexivity.
Qed.


(** ** What the log holds *)

Lemma file_log_live lw se so filename out :
  Forall (fun e => never_logged (snd e) = false)
    (file_log lw se so filename out).
Proof.
  unfold file_log. constructor; [reflexivity|].
  apply Forall_app. split.
  - eapply Forall_impl; [apply try_log_kinds|].
    intros [lv msg]. cbn [snd]. destruct msg; (discriminate || reflexivity).
  - destruct (raised_in _) as [e|]; [destruct e|]; repeat constructor.
Qed.

Lemma batch_log_live lw se so filenames :
  forall out,
    Forall (fun e => never_logged (snd e) = false)
      (batch_log lw se so filenames out).
Proof.
  induction filenames as [|filename rest IH]; intros out;
    cbn [batch_log]; [constructor|].
  apply Forall_app. split; [apply file_log_live|].
  destruct (escapes _); [constructor|apply IH].
Qed.

(** X10: five of the script's messages are never logged by any run: the
    warning of [prep_etd] for an input that is not a [str] (the caller
    converts with [str]), the warning for a missing ORDER_NO (a workbook
    with a sheet has a last sheet name), the warning for a date without a
    BA ([prep_etd] returns no date without a BA), and the errors of the
    last two [except] clauses (the clause naming [zipfile] raises
    first). *)
Theorem messages_never_logged
    (load_workbook : pystr -> exn + workbook)
    (setitem_error : string * Z -> pyval -> option exn)
    (str_other : pyval -> pystr)
    (template : gmap (string * Z) pyval) (input_files : list pystr) :
  Forall (fun e => never_logged (snd e) = false)
    (log (fst (run load_workbook setitem_error str_other template
                 input_files))).
Proof. rewrite run_log_batch_log. apply batch_log_live. Qed.

Lemma kinds_not_skipped (P : message -> bool) (l : list entry) :
  (forall r PRICE SQNTY, P (RowSkipped r PRICE SQNTY) = false) ->
  Forall (fun e => P (snd e) = true) l ->
  rows_skipped l = [].
Proof.
  intros HP. induction 1 as [|[lv msg] l Hmsg Hl IH]; [reflexivity|].
  cbn [rows_skipped]. cbn [snd] in Hmsg.
  destruct msg; try exact IH. rewrite HP in Hmsg. discriminate.
Qed.

Lemma rows_skipped_row_log se sheet ctx rows :
  forall out,
    rows_skipped (row_log se sheet ctx out rows)
    = List.filter (row_skipped sheet)
        (take (fst (scan_reach se sheet ctx out rows)) rows).
Proof.
  induction rows as [|r rows IH]; intros out;
    cbn [row_log scan_reach]; unfold one_more;
    [reflexivity|].
  assert (row_accepted sheet r
          = row_has_data sheet r
            && is_valid_numeric (cell sheet r 9) (cell sheet r 10)) as Hacc
    by reflexivity.
  assert (row_skipped sheet r
          = row_has_data sheet r
            && negb (is_valid_numeric (cell sheet r 9) (cell sheet r 10)))
    as Hskip by reflexivity.
  destruct (row_read_error sheet r); [reflexivity|].
  destruct (row_has_data sheet r);
    [destruct (is_valid_numeric (cell sheet r 9) (cell sheet r 10))|];
    cbn [andb negb] in Hacc, Hskip; rewrite Hacc.
  - cbn [rows_skipped].
    destruct (row_write_error se ctx sheet r out); [reflexivity|].
    cbn [fst take List.filter]. rewrite Hskip. apply IH.
  - cbn [rows_skipped fst take List.filter]. rewrite Hskip, IH. reflexivity.
  - cbn [fst take List.filter]. rewrite Hskip. apply IH.
Qed.

Lemma rows_skipped_file_log lw se so filename out :
  rows_skipped (file_log lw se so filename out)
  = skipped_of (file_result_of lw se so filename out).
Proof.
  unfold file_log. cbn [rows_skipped]. rewrite rows_skipped_app.
  replace (rows_skipped (handler_log filename _)) with (@nil Z)
    by (destruct (raised_in _) as [e|]; [destruct e|]; reflexivity).
  rewrite app_nil_r.
  unfold try_log, file_result_of, skipped_of.
  generalize data_block. intros rows.
  destruct (lw filename) as [e|wb]; [reflexivity|].
  destruct (worksheets wb) as [|sheet others]; [reflexivity|].
  cbn [rows_skipped].
  destruct (read_error sheet 11 9); [reflexivity|].
  destruct (read_error sheet 22 1); [reflexivity|].
  cbv zeta. rewrite !rows_skipped_app.
  rewrite (kinds_not_skipped etd_message _ (fun _ _ _ => eq_refl)
             (etd_log_kinds so (cell sheet 11 9))).
  rewrite rows_skipped_row_log. cbn [rows_skipped app].
  replace (rows_skipped
             match snd (scan_reach se sheet (context_of so wb sheet) out rows)
             with
             | Some _ => []
             | None => summary_log filename sheet rows
             end) with (@nil Z); [apply app_nil_r|].
  destruct (snd (scan_reach _ _ _ _ _)); [reflexivity|].
  symmetry.
  apply (kinds_not_skipped summary_message _ (fun _ _ _ => eq_refl)
           (summary_log_kinds filename sheet rows)).
Qed.

Lemma rows_skipped_batch_log lw se so filenames :
  forall out,
    rows_skipped (batch_log lw se so filenames out)
    = flat_map (fun p => skipped_of (snd p))
        (file_results lw se so filenames out).
Proof.
  induction filenames as [|filename rest IH]; intros out;
    cbn [batch_log file_results flat_map snd]; [reflexivity|].
  rewrite rows_skipped_app, rows_skipped_file_log. f_equal.
  destruct (escapes _); [reflexivity|apply IH].
Qed.

Lemma elem_of_skipped_rows sheet r :
  In r (skipped_rows sheet)
  <-> DATA_BLOCK_START_ROW <= r <= DATA_BLOCK_END_ROW
      /\ has_data (cell sheet r 7) (cell sheet r 8) (cell sheet r 9)
           (cell sheet r 10) = true
      /\ is_valid_numeric (cell sheet r 9) (cell sheet r 10) = false.
Proof.
  unfold skipped_rows, row_skipped, row_has_data.
  rewrite filter_In, In_data_block, andb_true_iff, negb_true_iff. tauto.
Qed.

(** X11: the rows logged as skipped are, for each file in turn, the rows
    that have data but a PRICE or SQNTY that is not numeric among the rows
    of the block its row loop completed: all such rows of the block for a
    file processed to the end, the first of them for a file that broke
    off.  They are in ascending order, and such a row is never a row that
    satisfies both conditions. *)
Theorem skipped_rows_logged
    (load_workbook : pystr -> exn + workbook)
    (setitem_error : string * Z -> pyval -> option exn)
    (str_other : pyval -> pystr)
    (template : gmap (string * Z) pyval) (input_files : list pystr) :
  let st :=
    fst (run load_workbook setitem_error str_other template input_files) in
  let results :=
    file_results load_workbook setitem_error str_other (sorted input_files)
      START_ROW_TEMPLATE in
  rows_skipped (log st) = flat_map (fun p => skipped_of (snd p)) results
  /\ (forall filename sheet ctx n raised,
         In (filename, Scanned sheet ctx n raised) results ->
         skipped_of (Scanned sheet ctx n raised)
           `prefix_of` skipped_rows sheet
         /\ (raised = None ->
             skipped_of (Scanned sheet ctx n raised) = skipped_rows sheet))
  /\ (forall sheet, StronglySorted Z.lt (skipped_rows sheet))
  /\ (forall sheet r,
         In r (skipped_rows sheet)
         <-> DATA_BLOCK_START_ROW <= r <= DATA_BLOCK_END_ROW
             /\ has_data (cell sheet r 7) (cell sheet r 8) (cell sheet r 9)
                  (cell sheet r 10) = true
             /\ is_valid_numeric (cell sheet r 9) (cell sheet r 10) = false)
  /\ (forall sheet r, ~ (In r (skipped_rows sheet) /\ In r (accepted_rows sheet))).
Proof.
  intros st results.
  split; [unfold st; rewrite run_log_batch_log; apply rows_skipped_batch_log|].
  split.
  { intros filename sheet ctx n raised Hin. split.
    - cbn [skipped_of]. unfold skipped_rows.
      exists (List.filter (row_skipped sheet) (drop n data_block)).
      rewrite <- List.filter_app, take_drop. reflexivity.
    - intros ->.
      apply file_results_In in Hin as [_ (out & _ & Hres)].
      cbn [fst snd] in Hres. symmetry in Hres.
      apply file_result_Scanned in Hres
        as (wb & others & _ & _ & _ & _ & _ & Hn & Hraised).
      symmetry in Hraised.
      apply scan_reach_complete in Hraised. rewrite <- Hn in Hraised.
      cbn [skipped_of]. rewrite Hraised, firstn_all. reflexivity. }
  split; [intros sheet; apply StronglySorted_filter, StronglySorted_seqZ|].
  split; [exact elem_of_skipped_rows|].
  intros sheet r [H1 H2].
  apply elem_of_skipped_rows in H1 as (_ & _ & H1).
  apply elem_of_accepted_rows in H2 as (_ & _ & H2). congruence.
Qed.

Lemma skipped_rows_logged_witness :
  let results :=
    file_results Sample.load_workbook Sample.plain Sample.str_other
      (sorted [str "e.xlsx"]) START_ROW_TEMPLATE in
  skipped_of
    (Scanned Sample.cut_sheet
       (context_of Sample.str_other
          {| worksheets := [Sample.cut_sheet; Sample.order_sheet] |}
          Sample.cut_sheet) 12 (Some (OtherException "ParseError")))
    `prefix_of` skipped_rows Sample.cut_sheet.
Proof.
  intros results.
  destruct (skipped_rows_logged Sample.load_workbook Sample.plain
              Sample.str_other ∅ [str "e.xlsx"]) as (_ & H & _).
  apply (H (str "e.xlsx")). left. vm_compute. reflexivity.
Defined.

(** ** The warning that sums a block up *)

Lemma not_in_kinds (P : message -> bool) (l : list entry) lv msg :
  Forall (fun e => P (snd e) = true) l -> P msg = false -> ~ In (lv, msg) l.
Proof.
  intros Hl Hmsg Hin. rewrite List.Forall_forall in Hl.
  apply Hl in Hin. simpl in Hin. congruence.
Qed.

Lemma existsb_false {A} (f : A -> bool) (l : list A) :
  existsb f l = false <-> forall x, In x l -> f x = false.
Proof.
  induction l as [|y l IH]; simpl.
  - split; [intros _ x []|reflexivity].
  - rewrite orb_false_iff, IH. split.
    + intros [H1 H2] x [<-|Hx]; auto.
    + intros H. split; [apply H; left; reflexivity|].
      intros x Hx. apply H. right. exact Hx.
Qed.

Lemma filter_nil_existsb {A} (f : A -> bool) (l : list A) :
  List.filter f l = [] <-> existsb f l = false.
Proof.
  induction l as [|y l IH]; simpl; [tauto|].
  destruct (f y); simpl; [|exact IH]. split; discriminate.
Qed.

Lemma In_summary_log filename sheet rows lv msg :
  In (lv, msg) (summary_log filename sheet rows)
  <-> lv = WARNING
      /\ ((msg = NoDataInBlock filename
           /\ existsb (row_has_data sheet) rows = false)
          \/ (msg = NoValidData filename
              /\ existsb (row_has_data sheet) rows = true
              /\ existsb (row_accepted sheet) rows = false)).
Proof.
  unfold summary_log.
  destruct (existsb (row_has_data sheet) rows);
    [destruct (existsb (row_accepted sheet) rows)|]; simpl; split.
  - intros [].
  - intros [_ [[_ H]|[_ [_ H]]]]; discriminate.
  - intros [[= <- <-]|[]]. auto.
  - intros [-> [[_ H]|[-> _]]]; [discriminate|]. left. reflexivity.
  - intros [[= <- <-]|[]]. auto.
  - intros [-> [[-> _]|[_ [H _]]]]; [|discriminate]. left. reflexivity.
Qed.

Lemma In_file_log_summary lw se so filename out lv msg :
  summary_message msg = true ->
  In (lv, msg) (file_log lw se so filename out)
  <-> exists sheet ctx n,
        file_result_of lw se so filename out = Scanned sheet ctx n None
        /\ In (lv, msg) (summary_log filename sheet data_block).
Proof.
  intros Hmsg.
  assert (forall lv' msg', summary_message msg' = false ->
                           (lv', msg') <> (lv, msg)) as Hne.
  { intros lv' msg' H [= -> ->]. congruence. }
  assert (forall raised, ~ In (lv, msg) (handler_log filename raised))
    as Hhandler.
  { intros [[| | | |]|]; cbn [handler_log In]; try tauto;
      intros [H|[]]; revert H; apply Hne; reflexivity. }
  unfold file_log. cbn [In]. rewrite in_app_iff.
  split.
  - intros [H|[H|H]];
      [exfalso; revert H; apply Hne; reflexivity| |destruct (Hhandler _ H)].
    revert H. unfold try_log, file_result_of.
    generalize data_block. intros rows.
    destruct (lw filename) as [e|wb]; [intros []|].
    destruct (worksheets wb) as [|sheet others].
    { intros [H|[]]. exfalso. revert H. apply Hne. reflexivity. }
    intros [H|H]; [exfalso; revert H; apply Hne; reflexivity|].
    destruct (read_error sheet 11 9); [destruct H|].
    destruct (read_error sheet 22 1); [destruct H|].
    cbv zeta in H. rewrite !in_app_iff in H.
    destruct H as [H|[H|[H|H]]].
    + exfalso. revert H.
      apply (not_in_kinds etd_message); [apply etd_log_kinds|].
      destruct msg; discriminate || reflexivity.
    + destruct H as [H|[]]. exfalso. revert H. apply Hne. reflexivity.
    + exfalso. revert H.
      apply (not_in_kinds row_message); [apply row_log_kinds|].
      destruct msg; discriminate || reflexivity.
    + destruct (snd (scan_reach se sheet (context_of so wb sheet) out rows));
        [destruct H|].
      eauto.
  - intros (sheet & ctx & n & Hres & H). right. left.
    revert Hres H. unfold try_log, file_result_of.
    generalize data_block. intros rows.
    destruct (lw filename) as [e|wb]; [discriminate|].
    destruct (worksheets wb) as [|sheet' others]; [discriminate|].
    destruct (read_error sheet' 11 9); [discriminate|].
    destruct (read_error sheet' 22 1); [discriminate|].
    intros Hres. injection Hres as <- _ _ Hend. intros H.
    right. cbv zeta. rewrite !in_app_iff. right. right. right.
    rewrite Hend. exact H.
Qed.

Lemma In_batch_log_summary lw se so lv msg filenames :
  summary_message msg = true ->
  forall out,
    In (lv, msg) (batch_log lw se so filenames out)
    <-> exists filename sheet ctx n,
          In (filename, Scanned sheet ctx n None)
            (file_results lw se so filenames out)
          /\ In (lv, msg) (summary_log filename sheet data_block).
Proof.
  intros Hmsg.
  induction filenames as [|filename rest IH]; intros out;
    cbn [batch_log file_results].
  - split; [intros []|intros (f & sheet & ctx & n & [] & _)].
  - rewrite in_app_iff, In_file_log_summary by exact Hmsg.
    generalize (file_result_of lw se so filename out). intros res.
    split.
    + intros [(sheet & ctx & n & -> & H)|H].
      * exists filename, sheet, ctx, n. split; [left; reflexivity|exact H].
      * destruct (escapes res); [destruct H|].
        apply IH in H as (f & sheet & ctx & n & Hin & H).
        exists f, sheet, ctx, n. split; [right; exact Hin|exact H].
    + intros (f & sheet & ctx & n & [Heq|Hin] & H).
      * injection Heq as <- ->. left. eauto.
      * right. destruct (escapes res); [destruct Hin|].
        apply IH. eauto 10.
Qed.

(** X12: the warning that a file's block holds no data is logged for
    exactly the files processed to the end none of whose rows 19 to 1000
    has data; the warning that it holds data but no valid row, for exactly
    the files processed to the end with a row that has data and no row
    that satisfies both conditions.  A file that is given up or that
    breaks off gets neither. *)
Theorem summary_warnings
    (load_workbook : pystr -> exn + workbook)
    (setitem_error : string * Z -> pyval -> option exn)
    (str_other : pyval -> pystr)
    (template : gmap (string * Z) pyval) (input_files : list pystr)
    (filename : pystr) :
  let st :=
    fst (run load_workbook setitem_error str_other template input_files) in
  let results :=
    file_results load_workbook setitem_error str_other (sorted input_files)
      START_ROW_TEMPLATE in
  (In (WARNING, NoDataInBlock filename) (log st)
   <-> exists sheet ctx n,
         In (filename, Scanned sheet ctx n None) results
         /\ forall r, DATA_BLOCK_START_ROW <= r <= DATA_BLOCK_END_ROW ->
                      row_has_data sheet r = false)
  /\ (In (WARNING, NoValidData filename) (log st)
      <-> exists sheet ctx n,
            In (filename, Scanned sheet ctx n None) results
            /\ (exists r, DATA_BLOCK_START_ROW <= r <= DATA_BLOCK_END_ROW
                          /\ row_has_data sheet r = true)
            /\ accepted_rows sheet = []).
Proof.
  intros st results. unfold st. rewrite run_log_batch_log.
  rewrite !In_batch_log_summary by reflexivity. fold results.
  split; split.
  - intros (f & sheet & ctx & n & Hin & H).
    apply In_summary_log in H as [_ [[[= <-] H]|[[=] _]]].
    exists sheet, ctx, n. split; [exact Hin|].
    intros r Hr. rewrite existsb_false in H. apply H, In_data_block, Hr.
  - intros (sheet & ctx & n & Hin & H).
    exists filename, sheet, ctx, n. split; [exact Hin|].
    apply In_summary_log. split; [reflexivity|]. left.
    split; [reflexivity|]. apply existsb_false.
    intros r Hr. apply H, In_data_block, Hr.
  - intros (f & sheet & ctx & n & Hin & H).
    apply In_summary_log in H as [_ [[[=] _]|[[= <-] [H1 H2]]]].
    exists sheet, ctx, n. split; [exact Hin|]. split.
    + apply existsb_exists in H1 as (r & Hr & H1).
      exists r. split; [apply In_data_block, Hr|exact H1].
    + apply filter_nil_existsb. exact H2.
  - intros (sheet & ctx & n & Hin & (r & Hr & H1) & H2).
    exists filename, sheet, ctx, n. split; [exact Hin|].
    apply In_summary_log. split; [reflexivity|]. right.
    split; [reflexivity|]. split.
    + apply existsb_exists. exists r.
      split; [apply In_data_block, Hr|exact H1].
    + apply filter_nil_existsb. exact H2.
Qed.

(** ** The cells the script leaves alone *)

(** X13: the run changes the template sheet only in the eight output
    columns B, C, E, F, G, I, K and P, and there only in the rows from 7
    to the cursor: every other cell is as the template has it.  The row of
    the cursor itself may hold the cells assigned before an assignment
    raised. *)
Theorem template_kept_elsewhere
    (load_workbook : pystr -> exn + workbook)
    (setitem_error : string * Z -> pyval -> option exn)
    (str_other : pyval -> pystr)
    (template : gmap (string * Z) pyval) (input_files : list pystr)
    (col : string) (row : Z) :
  let st :=
    fst (run load_workbook setitem_error str_other template input_files) in
  ~ In col output_columns
  \/ row < START_ROW_TEMPLATE
  \/ current_output_row st < row ->
  template_sheet st !! (col, row) = template !! (col, row).
Proof.
  intros st H.
  destruct (run_spec load_workbook setitem_error str_other template
              input_files) as [Heff _].
  fold st in Heff.
  rewrite (eff_frame _ _ _ _ _ Heff); [reflexivity|].
  cbn [initial_state current_output_row]. tauto.
Qed.

Lemma template_kept_elsewhere_witness :
  template_sheet
    (fst (run Sample.load_workbook (Sample.merged [("C"%string, 7)])
            Sample.str_other
            {[ ("A"%string, 7) := PStr (str "No.") ]}
            [str "b.xlsx"])) !! ("A"%string, 7)
  = Some (PStr (str "No.")).
Proof.
  rewrite (template_kept_elsewhere Sample.load_workbook
             (Sample.merged [("C"%string, 7)]) Sample.str_other
             {[ ("A"%string, 7) := PStr (str "No.") ]} [str "b.xlsx"]
             "A" 7).
  - apply lookup_singleton_eq.
  - left. vm_compute. intuition discriminate.
Defined.

(** ** What the script reads *)

Lemma scan_rows_same_cells se s1 s2 ctx rows :
  (forall r c, In r rows -> 7 <= c <= 10 -> read_cell s1 r c = read_cell s2 r c) ->
  forall a, scan_rows se s1 ctx rows a = scan_rows se s2 ctx rows a.
Proof.
  induction rows as [|r rows IH]; intros H a; [reflexivity|].
  cbn [scan_rows].
  assert (scan_row se s1 ctx a r = scan_row se s2 ctx a r) as ->.
  { unfold scan_row, read_row.
    rewrite !(H r) by (try (left; reflexivity); lia). reflexivity. }
  destruct (scan_row se s2 ctx a r) as [a' [e|]]; [reflexivity|].
  apply IH. intros r' c Hr'. apply H. right. exact Hr'.
Qed.

Section Reads.

Variable lw1 lw2 : pystr -> exn + workbook.
Variable se : string * Z -> pyval -> option exn.
Variable so : pyval -> pystr.
Hypothesis Hsame : forall filename, same_input (lw1 filename) (lw2 filename).

Lemma try_suite_same_input filename st :
  try_suite lw1 se so filename st = try_suite lw2 se so filename st.
Proof.
  unfold try_suite.
  change (range DATA_BLOCK_START_ROW (DATA_BLOCK_END_ROW + 1)) with data_block.
  pose proof In_data_block as Hblock.
  generalize dependent data_block. intros rows Hblock.
  pose proof (Hsame filename) as H. unfold same_input in H.
  destruct (lw1 filename) as [e1|wb1], (lw2 filename) as [e2|wb2];
    try contradiction; [subst; reflexivity|].
  destruct H as [Hnames H]. unfold getitem. rewrite <- Hnames.
  unfold sheetnames in *.
  destruct (worksheets wb1) as [|s1 l1], (worksheets wb2) as [|s2 l2];
    try contradiction; [reflexivity|].
  cbn [map find] in *. injection Hnames as Htitle Hrest.
  rewrite <- Htitle, !bool_decide_eq_true_2 by reflexivity.
  destruct (last (title s1 :: map title l1)) as [order_no|];
    [|rewrite Htitle; reflexivity].
  destruct H as (H1 & H2 & H3). rewrite <- H1, <- H2.
  destruct (read_cell s1 11 9) as [e|etd_data]; [rewrite Htitle; reflexivity|].
  destruct (read_cell s1 22 1) as [e|remark]; [rewrite Htitle; reflexivity|].
  rewrite Htitle.
  destruct (extract_etd_ba so etd_data
              (logging INFO (UsingFirstSheet filename (title s2)) st))
    as [st1 [E B]].
  rewrite (scan_rows_same_cells se s1 s2); [reflexivity|].
  intros r c Hr Hc. apply H3; [apply Hblock, Hr|exact Hc].
Qed.

Lemma batch_loop_same_input filenames :
  forall st,
    batch_loop lw1 se so filenames st = batch_loop lw2 se so filenames st.
Proof.
  induction filenames as [|filename rest IH]; intros st;
    cbn [batch_loop]; [reflexivity|].
  unfold process_file. rewrite try_suite_same_input.
  destruct (try_suite lw2 se so filename _) as [st' [e|]].
  - destruct (except_clauses filename e st') as [st'' [e'|]];
      [reflexivity|apply IH].
  - apply IH.
Qed.

End Reads.

(** X18: of an input file the script reads the sheet names, and on the
    first sheet the cells I11, A22 and G19 to J1000, and nothing else: two
    directories whose files agree on these (or fail to open with the same
    exception) give the same log, sheet, cursor and ending. *)
Theorem run_reads_only
    (load_workbook1 load_workbook2 : pystr -> exn + workbook)
    (setitem_error : string * Z -> pyval -> option exn)
    (str_other : pyval -> pystr)
    (template : gmap (string * Z) pyval) (input_files : list pystr) :
  (forall filename,
      same_input (load_workbook1 filename) (load_workbook2 filename)) ->
  run load_workbook1 setitem_error str_other template input_files
  = run load_workbook2 setitem_error str_other template input_files.
Proof. intros H. apply batch_loop_same_input, H. Qed.

Lemma run_reads_only_witness :
  run Sample.load_workbook Sample.plain Sample.str_other ∅
    [str "c.xlsx"; str "b.xlsx"]
  = run load_workbook_variant Sample.plain Sample.str_other ∅
      [str "c.xlsx"; str "b.xlsx"].
Proof.
  apply run_reads_only. intros filename.
  unfold load_workbook_variant, Sample.load_workbook.
  destruct (bool_decide (filename = str "b.xlsx")) eqn:Eb.
  - apply bool_decide_eq_true in Eb. subst filename.
    split; [reflexivity|]. split; [reflexivity|]. split; [reflexivity|].
    intros r c Hr Hc. unfold read_cell. cbn [cell read_error Sample.sheet1].
    unfold Sample.at_cell at 1.
    unfold DATA_BLOCK_START_ROW in Hr.
    destruct (Z.eqb_spec r 1); [lia|]. reflexivity.
  - destruct (bool_decide (filename = str "a.xlsx")); [reflexivity|].
    destruct (bool_decide (filename = str "c.xlsx")).
    { split; [reflexivity|]. repeat split. }
    destruct (bool_decide (filename = str "d.xlsx")).
    { split; [reflexivity|exact I]. }
    destruct (bool_decide (filename = str "e.xlsx")).
    { split; [reflexivity|]. repeat split. }
    destruct (bool_decide (filename = str "f.xlsx")).
    { split; [reflexivity|]. repeat split. }
    destruct (bool_decide (filename = str "g.xlsx")); [|reflexivity].
    split; [reflexivity|]. repeat split.
Defined.

(** ** Where the values of an output row come from *)

(** The rows that the row loop completed were read without exception. *)
Lemma scan_reach_read se sheet ctx rows r :
  forall out,
    In r (take (fst (scan_reach se sheet ctx out rows)) rows) ->
    row_read_error sheet r = None.
Proof.
  induction rows as [|r' rows IH]; intros out;
    cbn [scan_reach]; unfold one_more;
    [rewrite take_nil; intros []|].
  destruct (row_read_error sheet r') eqn:E; [intros []|].
  destruct (row_accepted sheet r').
  - destruct (row_write_error se ctx sheet r' out); [intros []|].
    cbn [fst take]. intros [<-|H]; [exact E|]. apply (IH _ H).
  - cbn [fst take]. intros [<-|H]; [exact E|]. apply (IH _ H).
Qed.

Lemma In_written_rows lw se so filenames x :
  forall out,
    In x (written_rows (file_results lw se so filenames out)) ->
    In (from_file x) filenames
    /\ In (from_row x) (accepted_rows (from_sheet x))
    /\ row_read_error (from_sheet x) (from_row x) = None
    /\ exists wb others,
         lw (from_file x) = inr wb
         /\ worksheets wb = from_sheet x :: others
         /\ read_error (from_sheet x) 11 9 = None
         /\ read_error (from_sheet x) 22 1 = None
         /\ from_context x = context_of so wb (from_sheet x).
Proof.
  intros out Hx. unfold written_rows in Hx.
  apply in_flat_map in Hx as ([filename res] & Hp & Hx).
  apply file_results_In in Hp as [Hin (out' & _ & Hres)].
  cbn [fst snd] in Hin, Hres.
  unfold written_of in Hx. cbn [fst snd] in Hx.
  destruct res as [raised|sheet ctx n raised]; [destruct Hx|].
  apply in_map_iff in Hx as (r & <- & Hr).
  cbn [from_file from_row from_sheet from_context source_of].
  symmetry in Hres.
  apply file_result_Scanned in Hres
    as (wb & others & Hlw & Hws & H1 & H2 & Hctx & Hn & _).
  split; [exact Hin|]. split; [|split].
  - destruct (rows_of_prefix sheet ctx n raised) as [rest Hrest].
    rewrite Hrest. apply in_or_app. left. exact Hr.
  - cbn [rows_of] in Hr. apply filter_In in Hr as [Hr _].
    rewrite Hn in Hr. revert Hr. generalize data_block. intros rows.
    apply scan_reach_read.
  - exists wb, others. auto.
Qed.

(** X19: each output row takes its values from one input file of the
    run: the file opens, its cells I11 and A22 and the four cells of the
    row are read without exception, the row is a row of its first sheet
    that satisfies both conditions, columns B and C hold the ETD and the
    BA parsed from cell I11 of that sheet, column E the name of the last
    sheet of the workbook, column P cell A22, and columns F, G, I and K the
    cells H, J, I and G of the row. *)
Theorem output_row_sources
    (load_workbook : pystr -> exn + workbook)
    (setitem_error : string * Z -> pyval -> option exn)
    (str_other : pyval -> pystr)
    (template : gmap (string * Z) pyval) (input_files : list pystr)
    (k : nat) (x : row_source) :
  let st :=
    fst (run load_workbook setitem_error str_other template input_files) in
  let results :=
    file_results load_workbook setitem_error str_other (sorted input_files)
      START_ROW_TEMPLATE in
  let out := START_ROW_TEMPLATE + Z.of_nat k in
  let sheet := from_sheet x in
  written_rows results !! k = Some x ->
  In (from_file x) input_files
  /\ In (from_row x) (accepted_rows sheet)
  /\ row_read_error sheet (from_row x) = None
  /\ exists wb others order_no,
       load_workbook (from_file x) = inr wb
       /\ worksheets wb = sheet :: others
       /\ last (sheetnames wb) = Some order_no
       /\ read_error sheet 11 9 = None
       /\ read_error sheet 22 1 = None
       /\ template_sheet st !! ("B"%string, out)
          = Some (fst (etd_ba_of str_other (cell sheet 11 9)))
       /\ template_sheet st !! ("C"%string, out)
          = Some (snd (etd_ba_of str_other (cell sheet 11 9)))
       /\ template_sheet st !! ("E"%string, out) = Some (PStr order_no)
       /\ template_sheet st !! ("F"%string, out)
          = Some (cell sheet (from_row x) 8)
       /\ template_sheet st !! ("G"%string, out)
          = Some (cell sheet (from_row x) 10)
       /\ template_sheet st !! ("I"%string, out)
          = Some (cell sheet (from_row x) 9)
       /\ template_sheet st !! ("K"%string, out)
          = Some (cell sheet (from_row x) 7)
       /\ template_sheet st !! ("P"%string, out) = Some (cell sheet 22 1).
Proof.
  intros st results out sheet Hk.
  destruct (run_spec load_workbook setitem_error str_other template
              input_files) as [Heff _].
  fold st results in Heff.
  pose proof (eff_rows _ _ _ _ _ Heff k x Hk) as Hrow.
  unfold row_holds in Hrow. cbn [current_output_row initial_state] in Hrow.
  fold out sheet in Hrow.
  destruct Hrow as (HB & HC & HE & HF & HG & HI & HK & HP).
  apply list_elem_of_lookup_2, list_elem_of_In in Hk.
  apply In_written_rows in Hk
    as (Hin & Hr & Hread & wb & others & Hlw & Hws & H1 & H2 & Hctx).
  fold sheet in Hr, Hread, Hws, H1, H2, Hctx.
  rewrite Hctx in HB, HC, HE, HP.
  cbn [context_of ETD BA ORDER_NO REMARK] in HB, HC, HE, HP.
  split.
  { apply list_elem_of_In. rewrite <- (sorted_perm input_files).
    apply list_elem_of_In, Hin. }
  split; [exact Hr|]. split; [exact Hread|].
  assert (is_Some (last (sheetnames wb))) as [order_no Hlast].
  { unfold sheetnames. rewrite Hws. apply last_cons_is_Some. }
  rewrite Hlast in HE. cbn [default from_option id] in HE.
  exists wb, others, order_no. auto 20.
Qed.

Lemma output_row_sources_witness :
  In (str "c.xlsx") [str "c.xlsx"; str "b.xlsx"]
  /\ In 19 (accepted_rows Sample.sheet2).
Proof.
  pose proof (output_row_sources Sample.load_workbook Sample.plain
                Sample.str_other ∅
                [str "c.xlsx"; str "b.xlsx"] 2
                (source_of (str "c.xlsx") Sample.sheet2
                   {| ETD := PNone; BA := PNone;
                      ORDER_NO := PStr (str "JB24FW-M32");
                      REMARK := PNone |} 19)) as H.
  cbv zeta in H.
  destruct H as (H1 & H2 & _); [vm_compute; reflexivity|].
  split; [exact H1|exact H2].
Defined.

(** ** The matcher is sound *)

Lemma max_repeat_sound i s :
  forall lo hi (k : pystr -> option result) res,
    max_repeat i lo hi s k = Some res ->
    exists t s',
      s = t ++ s'
      /\ matches (MaxRepeat lo hi i) t
      /\ k s' = Some res.
Proof.
  assert (forall lo hi (k : pystr -> option result) res s0,
             at_least lo (k s0) = Some res ->
             exists t s',
               s0 = t ++ s' /\ matches (MaxRepeat lo hi i) t
               /\ k s' = Some res) as Hstop.
  { intros lo hi k res s0 H. destruct lo; [|discriminate].
    exists [], s0. simpl in *. repeat split; auto.
    destruct hi; [lia|exact I]. }
  induction s as [|c s IH]; intros lo hi k res; simpl.
  - apply Hstop.
  - destruct (item_matches i c && may_take hi) eqn:E; [|apply Hstop].
    destruct (max_repeat i (Nat.pred lo) (Nat.pred <$> hi) s k) eqn:Er;
      [|apply Hstop].
    intros [= <-]. apply IH in Er as (t & s' & -> & (Ht & Hlo & Hhi) & Hk).
    apply andb_true_iff in E as [Ec Ehi].
    exists (c :: t), s'. split; [reflexivity|]. split; [|exact Hk].
    simpl. split; [constructor; assumption|]. split; [lia|].
    destruct hi as [[|n]|]; simpl in *; [discriminate|lia|exact I].
Qed.

Lemma sre_match_sound r :
  forall s m (k : groups -> pystr -> option result) res,
    sre_match r s m k = Some res ->
    exists t s' new,
      s = t ++ s'
      /\ matches r t
      /\ k (new ++ m) s' = Some res
      /\ Forall (captured_by r) new.
Proof.
  induction r as [|i|lo hi i|g r IH|r1 IH1 r2 IH2|r1 IH1 r2 IH2];
    intros s m k res; cbn [sre_match].
  - intros H. exists [], s, []. repeat split; auto.
  - destruct s as [|c s]; [discriminate|].
    destruct (item_matches i c) eqn:E; [|discriminate].
    intros H. exists [c], s, []. repeat split; auto. exists c. auto.
  - intros H. apply max_repeat_sound in H as (t & s' & -> & Ht & Hk).
    exists t, s', []. repeat split; auto; apply Ht.
  - intros H. apply IH in H as (t & s' & new & -> & Ht & Hk & Hnew).
    rewrite length_app, Nat.add_sub, take_app_length in Hk.
    exists t, s', ((g, t) :: new). repeat split; auto.
    constructor.
    + exists r. split; [left; reflexivity|exact Ht].
    + eapply Forall_impl; [exact Hnew|].
      intros p (r' & Hin & Hm). exists r'. split; [right; exact Hin|exact Hm].
  - destruct (sre_match r1 s m k) eqn:E.
    + intros [= <-]. apply IH1 in E as (t & s' & new & -> & Ht & Hk & Hnew).
      exists t, s', new. repeat split; auto; [left; exact Ht|].
      eapply Forall_impl; [exact Hnew|].
      intros p (r' & Hin & Hm). exists r'. split; [|exact Hm].
      simpl. apply in_or_app. left. exact Hin.
    + intros H. apply IH2 in H as (t & s' & new & -> & Ht & Hk & Hnew).
      exists t, s', new. repeat split; auto; [right; exact Ht|].
      eapply Forall_impl; [exact Hnew|].
      intros p (r' & Hin & Hm). exists r'. split; [|exact Hm].
      simpl. apply in_or_app. right. exact Hin.
  - intros H. apply IH1 in H as (t1 & s1 & new1 & -> & Ht1 & H & Hnew1).
    apply IH2 in H as (t2 & s2 & new2 & -> & Ht2 & H & Hnew2).
    exists (t1 ++ t2), s2, (new2 ++ new1).
    rewrite <- !app_assoc. repeat split; auto.
    + exists t1, t2. auto.
    + apply Forall_app. split; (eapply Forall_impl; [eassumption|]);
        intros p (r' & Hin & Hm); exists r'; (split; [|exact Hm]);
        simpl; apply in_or_app; auto.
Qed.

Lemma re_search_sound r s m rest :
  re_search r s = Some (m, rest) ->
  exists before t,
    s = before ++ t ++ rest
    /\ matches r t
    /\ Forall (captured_by r) m.
Proof.
  induction s as [|c s IH]; rewrite re_search_unfold.
  - destruct (re_match r []) as [[m' rest']|] eqn:E; [|discriminate].
    intros [= -> ->]. unfold re_match in E.
    apply sre_match_sound in E as (t & s' & new & Hs & Ht & [= <- <-] & Hnew).
    exists [], t. rewrite app_nil_r. auto.
  - destruct (re_match r (c :: s)) as [[m' rest']|] eqn:E.
    + intros [= -> ->]. unfold re_match in E.
      apply sre_match_sound in E
        as (t & s' & new & Hs & Ht & [= <- <-] & Hnew).
      exists [], t. rewrite app_nil_r. auto.
    + intros H. apply IH in H as (before & t & -> & Ht & Hm).
      exists (c :: before), t. auto.
Qed.

Lemma group_In (m : groups) g x : group m g = Some x -> In (g, x) m.
Proof.
  induction m as [|[g' y] m IH]; simpl; [discriminate|].
  destruct (Nat.eqb_spec g g') as [->|Hne].
  - intros [= ->]. left. reflexivity.
  - intros H. right. auto.
Qed.

Lemma digit09_is_digit c : item_matches digit09 c = true <-> is_digit c.
Proof.
  unfold is_digit. simpl. rewrite andb_true_iff, !N.leb_le. reflexivity.
Qed.

(** ** What [prep_etd] captures and returns *)

Lemma matches_lit a t : matches (lit a) t -> t = [ord a].
Proof.
  intros (c & -> & H). simpl in H. apply N.eqb_eq in H. subst. reflexivity.
Qed.

Lemma matches_date_group t :
  matches date_group t ->
  exists y mo d,
    t = y ++ str "." ++ mo ++ str "." ++ d
    /\ Forall is_digit y /\ length y = 4%nat
    /\ Forall is_digit mo /\ (1 <= length mo <= 2)%nat
    /\ Forall is_digit d /\ (1 <= length d <= 2)%nat.
Proof.
  unfold date_group, sequence. cbn [foldr matches].
  intros (y & t1 & -> & (Hy & Hy1 & Hy2)
          & dot1 & t2 & -> & Hdot1
          & mo & t3 & -> & (Hmo & Hmo1 & Hmo2)
          & dot2 & t4 & -> & Hdot2
          & d & t5 & -> & (Hd & Hd1 & Hd2) & ->).
  fold (lit ".") in Hdot1, Hdot2.
  apply matches_lit in Hdot1, Hdot2. subst dot1 dot2.
  exists y, mo, d. rewrite app_nil_r.
  repeat split; try lia; try reflexivity;
    (eapply Forall_impl; [eassumption|]);
    intros c Hc; apply digit09_is_digit, Hc.
Qed.

Lemma matches_ba_group t :
  matches ba_group t -> t <> [] /\ ~ In (ord ")") t.
Proof.
  intros (Ht & Hlen & _). split.
  - intros ->. simpl in Hlen. lia.
  - intros Hin. rewrite List.Forall_forall in Ht. apply Ht in Hin.
    simpl in Hin. rewrite ?N.eqb_refl in Hin. discriminate.
Qed.

Lemma etd_search_sound text m rest :
  etd_search text = Some (m, rest) ->
  Forall
    (fun p => exists r', In (fst p, r') [(1%nat, date_group); (2%nat, ba_group)]
                         /\ matches r' (snd p)) m.
Proof.
  unfold etd_search.
  destruct (re_search etd_pattern text) as [[m' rest']|] eqn:E.
  - intros [= -> ->].
    apply re_search_sound in E as (before & t & _ & _ & Hm). exact Hm.
  - intros H.
    apply re_search_sound in H as (before & t & _ & _ & Hm). exact Hm.
Qed.

Lemma etd_search_shape (text : pystr) (m : groups) (rest : pystr) :
  etd_search text = Some (m, rest) ->
  exists y mo d ba,
    group m 1 = Some (y ++ str "." ++ mo ++ str "." ++ d)
    /\ group m 2 = Some ba
    /\ Forall is_digit y /\ length y = 4%nat
    /\ Forall is_digit mo /\ (1 <= length mo <= 2)%nat
    /\ Forall is_digit d /\ (1 <= length d <= 2)%nat
    /\ ba <> [] /\ ~ In (ord ")") ba.
Proof.
  intros H.
  destruct (etd_search_groups _ _ _ H) as (date & ba & H1 & H2).
  pose proof (etd_search_sound _ _ _ H) as Hm.
  rewrite List.Forall_forall in Hm.
  destruct (Hm _ (group_In _ _ _ H1)) as (r1 & Hin1 & Hdate).
  destruct (Hm _ (group_In _ _ _ H2)) as (r2 & Hin2 & Hba).
  simpl in Hin1, Hin2.
  destruct Hin1 as [[= <-]|[[=]|[]]].
  destruct Hin2 as [[=]|[[= <-]|[]]].
  cbn [snd] in Hdate, Hba.
  apply matches_date_group in Hdate
    as (y & mo & d & -> & Hy & Hy4 & Hmo & Hmol & Hd & Hdl).
  apply matches_ba_group in Hba as [Hne Hnotin].
  exists y, mo, d, ba. repeat split; auto; lia.
Qed.

(** X14: when a pattern of [prep_etd] is found, group 1 is four digits,
    a dot, one or two digits, a dot and one or two digits, and group 2,
    the BA, is not empty and holds no closing parenthesis. *)
Theorem etd_groups_shape (text : pystr) (m : groups) (rest : pystr) :
  etd_search text = Some (m, rest) ->
  exists y mo d ba,
    group m 1 = Some (y ++ str "." ++ mo ++ str "." ++ d)
    /\ group m 2 = Some ba
    /\ Forall is_digit y /\ length y = 4%nat
    /\ Forall is_digit mo /\ (1 <= length mo <= 2)%nat
    /\ Forall is_digit d /\ (1 <= length d <= 2)%nat
    /\ ba <> [] /\ ~ In (ord ")") ba.
Proof. apply etd_search_shape. Qed.

Lemma etd_groups_shape_witness :
  exists y mo d ba,
    group [(2%nat, str "AIR"); (1%nat, str "2024.13.08")] 1
    = Some (y ++ str "." ++ mo ++ str "." ++ d)
    /\ group [(2%nat, str "AIR"); (1%nat, str "2024.13.08")] 2 = Some ba
    /\ Forall is_digit y /\ length y = 4%nat
    /\ Forall is_digit mo /\ (1 <= length mo <= 2)%nat
    /\ Forall is_digit d /\ (1 <= length d <= 2)%nat
    /\ ba <> [] /\ ~ In (ord ")") ba.
Proof.
  apply (etd_groups_shape (str "2024.13.08.(AIR)") _ []).
  vm_compute. reflexivity.
Defined.

Lemma strptime_valid s dt :
  Datetime.strptime s = Some dt ->
  1 <= Datetime.month dt <= 12 /\ 1 <= Datetime.day dt <= 31.
Proof.
  unfold Datetime.strptime.
  destruct (re_match Datetime.format_regex s) as [[m [|c rest]]|];
    try discriminate.
  destruct (group m 1), (group m 2), (group m 3); try discriminate.
  destruct (Datetime.valid_date _ _ _) eqn:E; [|discriminate].
  intros [= <-]. simpl. unfold Datetime.valid_date in E.
  repeat (apply andb_true_iff in E as [E ?]).
  assert (Datetime.days_in_month (Datetime.int l) (Datetime.int l0) <= 31).
  { unfold Datetime.days_in_month.
    repeat match goal with
           | |- context [match ?x with _ => _ end] => destruct x
           end; lia. }
  lia.
Qed.

(** X15: [prep_etd] returns nothing at all, a BA alone, or a date with a
    BA, never a date alone.  A BA it returns is not empty and holds no
    closing parenthesis; a date it returns is the day on two digits, a
    hyphen and the English abbreviation of a month, for a day from 1 to
    31 and a month from 1 to 12. *)
Theorem prep_etd_result_shape (data : pyval) :
  match snd (prep_etd data) with
  | (PNone, PNone) => True
  | (PNone, PStr ba) => ba <> [] /\ ~ In (ord ")") ba
  | (PStr date, PStr ba) =>
      (exists mo d,
          1 <= mo <= 12 /\ 1 <= d <= 31
          /\ date = Datetime.two_digits d ++ str "-" ++ Datetime.month_abbr mo)
      /\ ba <> [] /\ ~ In (ord ")") ba
  | _ => False
  end.
Proof.
  destruct data; try exact I.
  unfold prep_etd.
  destruct (etd_search s) as [[m rest]|] eqn:E; [|exact I].
  destruct (etd_search_shape _ _ _ E)
    as (y & mo & d & ba & H1 & H2 & _ & _ & _ & _ & _ & _ & Hne & Hnotin).
  unfold convert_match. rewrite H1, H2. cbn [default].
  destruct (Datetime.strptime _) as [dt|] eqn:Ed; cbn [snd].
  - split; [|auto]. apply strptime_valid in Ed as [Hmo Hd].
    exists (Datetime.month dt), (Datetime.day dt).
    split; [exact Hmo|]. split; [exact Hd|reflexivity].
  - auto.
Qed.

(** ** The pattern is searched anywhere in the text *)

Lemma re_match_search r s :
  is_Some (re_match r s) -> is_Some (re_search r s).
Proof.
  rewrite re_search_unfold. intros [x ->]. eauto.
Qed.

Lemma re_search_after r before :
  forall s, is_Some (re_search r s) -> is_Some (re_search r (before ++ s)).
Proof.
  induction before as [|c before IH]; intros s H; [exact H|].
  change ((c :: before) ++ s) with (c :: (before ++ s)).
  rewrite re_search_unfold.
  destruct (re_match r (c :: before ++ s)); [eauto|]. apply IH, H.
Qed.

(** X16: the ETD may stand anywhere in the cell: when the first pattern
    matches at some place of the text, whatever comes before it,
    [prep_etd] finds a match and returns a BA. *)
Theorem prep_etd_finds_embedded (before s : pystr) :
  is_Some (re_match etd_pattern s) ->
  exists etd ba, snd (prep_etd (PStr (before ++ s))) = (etd, PStr ba).
Proof.
  intros H. apply re_match_search, (re_search_after _ before) in H.
  unfold prep_etd. rewrite etd_search_first.
  destruct H as [[m rest] H]. rewrite H.
  unfold convert_match. destruct (Datetime.strptime _); simpl; eauto.
Qed.

Lemma prep_etd_finds_embedded_witness :
  exists etd ba,
    snd (prep_etd (PStr (str "ETD: " ++ str "2024.08.08.(AIR) confirmed")))
    = (etd, PStr ba).
Proof.
  apply (prep_etd_finds_embedded (str "ETD: ")
           (str "2024.08.08.(AIR) confirmed")).
  vm_compute. eauto.
Defined.

(** ** A well-formed ETD is parsed as written *)

Lemma max_repeat_greedy i t :
  forall lo hi s (k : pystr -> option result) r,
    Forall (fun c => item_matches i c = true) t ->
    (lo <= length t)%nat ->
    match hi with Some h => (length t <= h)%nat | None => True end ->
    hi = Some (length t)
    \/ match s with [] => True | c :: _ => item_matches i c = false end ->
    k s = Some r ->
    max_repeat i lo hi (t ++ s) k = Some r.
Proof.
  induction t as [|c t IH]; intros lo hi s k r Ht Hlo Hhi Hstop Hk.
  - simpl in Hlo. assert (lo = 0%nat) as -> by lia. cbn [app].
    destruct s as [|c s]; cbn [max_repeat at_least]; [exact Hk|].
    replace (item_matches i c && may_take hi) with false; [exact Hk|].
    destruct Hstop as [-> | Hs];
      [apply eq_sym, andb_false_r|simpl in Hs; rewrite Hs; reflexivity].
  - apply Forall_cons in Ht as [Hc Ht].
    cbn [app max_repeat]. rewrite Hc.
    replace (may_take hi) with true
      by (destruct hi as [[|h]|]; simpl in *; reflexivity || lia).
    cbn [andb].
    rewrite (IH (Nat.pred lo) (Nat.pred <$> hi) s k r); auto.
    + simpl in Hlo. lia.
    + destruct hi as [h|]; simpl in *; [lia|exact I].
    + destruct Hstop as [-> | Hs]; [left; reflexivity|right; exact Hs].
Qed.

Lemma step_concat r1 r2 s m (k : groups -> pystr -> option result) r :
  sre_match r1 s m (fun m' s' => sre_match r2 s' m' k) = Some r ->
  sre_match (Concat r1 r2) s m k = Some r.
Proof. intros H. exact H. Qed.

Lemma step_empty s m (k : groups -> pystr -> option result) r :
  k m s = Some r -> sre_match Empty s m k = Some r.
Proof. intros H. exact H. Qed.

Lemma step_lit a s m (k : groups -> pystr -> option result) r :
  k m s = Some r ->
  sre_match (lit a) (str (String a EmptyString) ++ s) m k = Some r.
Proof.
  intros H. unfold lit, str. cbn [list_ascii_of_string map app sre_match].
  cbn [item_matches]. unfold ord. rewrite N.eqb_refl. exact H.
Qed.

Lemma step_rep i lo hi t s m (k : groups -> pystr -> option result) r :
  Forall (fun c => item_matches i c = true) t ->
  (lo <= length t)%nat ->
  match hi with Some h => (length t <= h)%nat | None => True end ->
  hi = Some (length t)
  \/ match s with [] => True | c :: _ => item_matches i c = false end ->
  k m s = Some r ->
  sre_match (MaxRepeat lo hi i) (t ++ s) m k = Some r.
Proof. intros. cbn [sre_match]. apply max_repeat_greedy; assumption. Qed.

Lemma step_sub g r' s m (k : groups -> pystr -> option result) r :
  sre_match r' s m
    (fun m' s' => k ((g, take (length s - length s') s) :: m') s') = Some r ->
  sre_match (Subpattern g r') s m k = Some r.
Proof. intros H. exact H. Qed.

Lemma take_consumed (t s s0 : pystr) :
  s0 = t ++ s -> take (length s0 - length s) s0 = t.
Proof.
  intros ->. rewrite length_app, Nat.add_sub. apply take_app_length.
Qed.

Lemma space_not_digit c : isspace c = true -> item_matches digit09 c = false.
Proof.
  intros Hs. destruct (item_matches digit09 c) eqn:E; [|reflexivity].
  apply digit09_is_digit in E. unfold is_digit in E.
  assert (c = 48 \/ c = 49 \/ c = 50 \/ c = 51 \/ c = 52 \/ c = 53
          \/ c = 54 \/ c = 55 \/ c = 56 \/ c = 57)%N as H by lia.
  repeat (destruct H as [->|H]; [discriminate Hs|]). subst. discriminate Hs.
Qed.

Lemma space_not_dot c :
  isspace c = true -> item_matches (LITERAL (ord ".")) c = false.
Proof.
  intros Hs. cbn [item_matches].
  destruct (N.eqb_spec c (ord ".")) as [->|]; [|reflexivity].
  vm_compute in Hs. discriminate Hs.
Qed.

Lemma spaces_head (i : item) (sp tail : pystr) :
  Forall (fun c => isspace c = true) sp ->
  (forall c, isspace c = true -> item_matches i c = false) ->
  item_matches i (ord "(") = false ->
  match sp ++ str "(" ++ tail with
  | [] => True
  | c :: _ => item_matches i c = false
  end.
Proof.
  intros Hsp Hspace Hparen.
  destruct Hsp as [|c sp Hc Hsp]; [exact Hparen|]. apply Hspace, Hc.
Qed.

Lemma etd_match_written (Y M D dot sp ba rest : pystr) :
  Forall is_digit Y -> length Y = 4%nat ->
  Forall is_digit M -> (1 <= length M <= 2)%nat ->
  Forall is_digit D -> (1 <= length D <= 2)%nat ->
  dot = [] \/ dot = str "." ->
  Forall (fun c => isspace c = true) sp ->
  ba <> [] -> ~ In (ord ")") ba ->
  re_match etd_pattern
    (Y ++ str "." ++ M ++ str "." ++ D ++ dot ++ sp ++ str "(" ++ ba
       ++ str ")" ++ rest)
  = Some ([(2%nat, ba); (1%nat, Y ++ str "." ++ M ++ str "." ++ D)], rest).
Proof.
  intros HY HY4 HM HMl HD HDl Hdot Hsp Hba Hnotin.
  assert (forall l, Forall is_digit l ->
                    Forall (fun c => item_matches digit09 c = true) l) as Hdig.
  { intros l Hl. eapply Forall_impl; [exact Hl|].
    intros c Hc. apply digit09_is_digit, Hc. }
  unfold re_match, etd_pattern, sequence. cbn [foldr].
  apply step_concat, step_sub.
  apply step_concat, step_rep; [auto|lia|lia|left; congruence|].
  apply step_concat, step_lit.
  apply step_concat, step_rep; [auto|lia|lia|right; reflexivity|].
  apply step_concat, step_lit.
  apply step_concat, step_rep; [auto|lia|lia| |].
  { right. destruct Hdot as [->| ->]; [|reflexivity].
    apply spaces_head; auto using space_not_digit. }
  apply step_empty.
  apply step_concat, step_rep.
  { destruct Hdot as [->| ->]; [constructor|].
    change (str ".") with [ord "."]. repeat constructor. }
  { lia. }
  { destruct Hdot as [->| ->]; simpl; lia. }
  { destruct Hdot as [->| ->]; [right|left; reflexivity].
    apply spaces_head; auto using space_not_dot. }
  apply step_concat, step_rep; [exact Hsp|lia|exact I|right; reflexivity|].
  apply step_concat, step_lit.
  apply step_concat, step_sub, step_rep.
  { apply List.Forall_forall. intros c Hc. cbn [item_matches].
    destruct (N.eqb_spec c (ord ")")) as [->|]; [contradiction|reflexivity]. }
  { destruct ba; [contradiction|simpl; lia]. }
  { exact I. }
  { right. reflexivity. }
  apply step_concat, step_lit, step_empty.
  unfold accept.
  rewrite (take_consumed ba), (take_consumed (Y ++ str "." ++ M ++ str "." ++ D));
    [reflexivity| |reflexivity].
  rewrite <- !app_assoc. reflexivity.
Qed.

Lemma digit_char_digit k : 0 <= k <= 9 -> is_digit (Datetime.digit_char k).
Proof. unfold is_digit, Datetime.digit_char. lia. Qed.

Lemma digit_char_value k :
  0 <= k <= 9 -> Z.of_N (Datetime.digit_char k) - 48 = k.
Proof. unfold Datetime.digit_char. lia. Qed.

Lemma step_one i c s m (k : groups -> pystr -> option result) r :
  item_matches i c = true ->
  k m s = Some r ->
  sre_match (One i) (c :: s) m k = Some r.
Proof. intros Hc H. cbn [sre_match]. rewrite Hc. exact H. Qed.

Lemma format_match (a b c e : N) (mo d : Z) :
  is_digit a -> is_digit b -> is_digit c -> is_digit e ->
  1 <= mo <= 12 -> 1 <= d <= 31 ->
  re_match Datetime.format_regex
    ([a; b; c; e] ++ str "." ++ Datetime.two_digits mo ++ str "."
       ++ Datetime.two_digits d)
  = Some ([(3%nat, Datetime.two_digits d); (2%nat, Datetime.two_digits mo);
           (1%nat, [a; b; c; e])], []).
Proof.
  intros Ha Hb Hc He Hmo Hd.
  apply digit09_is_digit in Ha, Hb, Hc, He.
  unfold re_match, Datetime.format_regex, sequence, Datetime.d.
  cbn [foldr app].
  apply step_concat, step_sub.
  apply step_concat, step_one; [exact Ha|].
  apply step_concat, step_one; [exact Hb|].
  apply step_concat, step_one; [exact Hc|].
  apply step_concat, step_one; [exact He|].
  apply step_empty.
  destruct mo as [|p|p]; try lia.
  do 4 (try destruct p as [p|p|]; try lia);
    (destruct d as [|q|q]; try lia;
     do 5 (try destruct q as [q|q|]; try lia));
    vm_compute; reflexivity.
Qed.

Lemma int_two_digits n : 0 <= n <= 99 -> Datetime.int (Datetime.two_digits n) = n.
Proof.
  intros Hn. unfold Datetime.int, Datetime.two_digits. cbn [fold_left].
  assert (0 <= n / 10 <= 9) as H1 by (Z.div_mod_to_equations; lia).
  assert (0 <= n mod 10 <= 9) as H2 by (Z.div_mod_to_equations; lia).
  rewrite !(proj2 (digit09_is_digit _) (digit_char_digit _ H1)).
  rewrite !(proj2 (digit09_is_digit _) (digit_char_digit _ H2)).
  rewrite !digit_char_value by assumption. Z.div_mod_to_equations; lia.
Qed.

Lemma int_four_digits y : 0 <= y <= 9999 -> Datetime.int (four_digits y) = y.
Proof.
  intros Hy. unfold Datetime.int, four_digits. cbn [fold_left].
  assert (0 <= y / 1000 <= 9) as H1 by (Z.div_mod_to_equations; lia).
  assert (0 <= y / 100 mod 10 <= 9) as H2 by (Z.div_mod_to_equations; lia).
  assert (0 <= y / 10 mod 10 <= 9) as H3 by (Z.div_mod_to_equations; lia).
  assert (0 <= y mod 10 <= 9) as H4 by (Z.div_mod_to_equations; lia).
  rewrite !(proj2 (digit09_is_digit _) (digit_char_digit _ H1)).
  rewrite !(proj2 (digit09_is_digit _) (digit_char_digit _ H2)).
  rewrite !(proj2 (digit09_is_digit _) (digit_char_digit _ H3)).
  rewrite !(proj2 (digit09_is_digit _) (digit_char_digit _ H4)).
  rewrite !digit_char_value by assumption. Z.div_mod_to_equations; lia.
Qed.

Lemma days_in_month_le y mo : Datetime.days_in_month y mo <= 31.
Proof.
  unfold Datetime.days_in_month.
  repeat match goal with
         | |- context [match ?x with _ => _ end] => destruct x
         end; lia.
Qed.

Lemma strptime_written y mo d :
  Datetime.valid_date y mo d = true ->
  Datetime.strptime
    (four_digits y ++ str "." ++ Datetime.two_digits mo ++ str "."
       ++ Datetime.two_digits d)
  = Some {| Datetime.year := y; Datetime.month := mo; Datetime.day := d |}.
Proof.
  intros Hv. pose proof Hv as Hv'. unfold Datetime.valid_date in Hv'.
  repeat (apply andb_true_iff in Hv' as [Hv' ?]).
  pose proof (days_in_month_le y mo).
  unfold Datetime.strptime.
  unfold four_digits at 1.
  rewrite format_match
    by (try apply digit_char_digit; Z.div_mod_to_equations; lia).
  cbn [group Nat.eqb].
  fold (four_digits y).
  rewrite int_four_digits, !int_two_digits by lia.
  rewrite Hv. reflexivity.
Qed.

(** X17: an ETD written as the docstring shows it is parsed as written:
    for every date of the calendar (year 1 to 9999), given as the year on
    four digits, a dot, the month and the day on two digits each, then
    followed by an optional dot, any whitespace and a BA in parentheses
    (not empty, without closing parenthesis), [prep_etd] logs nothing and
    returns the day and the abbreviated month of that date, and that
    BA, whatever follows the closing parenthesis. *)
Theorem prep_etd_written (y mo d : Z) (dot sp ba rest : pystr) :
  Datetime.valid_date y mo d = true ->
  dot = [] \/ dot = str "." ->
  Forall (fun c => isspace c = true) sp ->
  ba <> [] -> ~ In (ord ")") ba ->
  prep_etd
    (PStr (four_digits y ++ str "." ++ Datetime.two_digits mo ++ str "."
             ++ Datetime.two_digits d ++ dot ++ sp ++ str "(" ++ ba
             ++ str ")" ++ rest))
  = ([], (PStr (Datetime.two_digits d ++ str "-" ++ Datetime.month_abbr mo),
          PStr ba)).
Proof.
  intros Hv Hdot Hsp Hba Hnotin.
  pose proof Hv as Hv'. unfold Datetime.valid_date in Hv'.
  repeat (apply andb_true_iff in Hv' as [Hv' ?]).
  pose proof (days_in_month_le y mo).
  unfold prep_etd. rewrite etd_search_first, re_search_unfold.
  rewrite etd_match_written; try assumption.
  - unfold convert_match. cbn [group Nat.eqb default from_option id].
    rewrite strptime_written by exact Hv. reflexivity.
  - unfold four_digits.
    repeat (apply Forall_cons_2; [apply digit_char_digit;
                                  Z.div_mod_to_equations; lia|]).
    constructor.
  - reflexivity.
  - unfold Datetime.two_digits.
    repeat (apply Forall_cons_2; [apply digit_char_digit;
                                  Z.div_mod_to_equations; lia|]).
    constructor.
  - simpl. lia.
  - unfold Datetime.two_digits.
    repeat (apply Forall_cons_2; [apply digit_char_digit;
                                  Z.div_mod_to_equations; lia|]).
    constructor.
  - simpl. lia.
Qed.

Lemma prep_etd_written_witness :
  prep_etd
    (PStr (four_digits 2024 ++ str "." ++ Datetime.two_digits 2 ++ str "."
             ++ Datetime.two_digits 29 ++ [] ++ str "  " ++ str "("
             ++ str "BOAT" ++ str ")" ++ str " tbc"))
  = ([], (PStr (Datetime.two_digits 29 ++ str "-" ++ Datetime.month_abbr 2),
          PStr (str "BOAT"))).
Proof.
  apply (prep_etd_written 2024 2 29 [] (str "  ") (str "BOAT") (str " tbc")).
  - reflexivity.
  - left. reflexivity.
  - repeat constructor.
  - discriminate.
  - vm_compute. intuition discriminate.
Defined.

